(** * The resource factory of the engine (dmResource)

    A shallow embedding of the resource factory: the reference-counted,
    type-dispatched cache that loads named assets from an embedded archive,
    an HTTP endpoint or the file system, hands the bytes to the handler that
    is registered for the file extension and supports reloading in place.

    Conventions of the embedding.
    - A C string ([const char*]) is a [string]: the characters before the
      terminating NUL.
    - [uint32_t], [uint64_t], [uintptr_t], [int] and [long] values are [Z];
      where the source computes in 32 bits the wrap-around is written out
      with [wrap32].
    - Pointers to functions and opaque handles are addresses in [Z]; the
      null pointer is [0].
    - The factory is a record that is threaded through the operations by a
      state monad; an [assert] that fails or a store outside the stream
      buffer ends the run ([None]).
    - Everything the factory calls but does not own (handler callbacks, the
      HTTP client, the C library's files) is gathered in a [World]; the
      calls that leave the factory are recorded, in order, in a trace of
      [Event]s.  The build modelled is the debug build: [assert] and the
      logging macros are active. *)

From Stdlib Require Import ZArith Ascii String Strings.Byte List Lia.
From Stdlib Require Import DecimalString.
From stdpp Require Import base option list gmap strings.

Local Open Scope Z_scope.

(** ** Machine integers *)

Definition wrap32 (z : Z) : Z := z mod 2 ^ 32.

(** [long] is taken as the 64-bit integer of the LP64 platforms.  The
    language leaves the overflow of a signed addition open; it is taken as
    the wrap-around in two's complement that these platforms compute. *)
Definition LONG_BITS : Z := 64.
Definition LONG_MAX : Z := 2 ^ (LONG_BITS - 1) - 1.
Definition LONG_MIN : Z := - 2 ^ (LONG_BITS - 1).
Definition wrap_long (z : Z) : Z := (z - LONG_MIN) mod 2 ^ LONG_BITS + LONG_MIN.

(** ** Constants of the source *)

Definition RESOURCE_PATH_MAX : Z := 1024.
Definition MAX_RESOURCE_TYPES : Z := 128.
Definition MAX_CALLBACKS : Z := 16.

(** ** C strings *)

Definition slash : ascii := "/"%char.
Definition dot : ascii := "."%char.

(** [strrchr(s, c)]: the suffix of [s] that starts at the last [c]. *)
Fixpoint strrchr (s : string) (c : ascii) : option string :=
  match s with
  | EmptyString => None
  | String a r =>
      match strrchr r c with
      | Some t => Some t
      | None => if Ascii.eqb a c then Some s else None
      end
  end.

(** [p + 1] on a [char*] that points at a character. *)
Definition str_next (s : string) : string :=
  match s with
  | EmptyString => EmptyString
  | String _ r => r
  end.

Fixpoint str_take (n : nat) (s : string) : string :=
  match n, s with
  | S k, String a r => String a (str_take k r)
  | _, _ => EmptyString
  end.

(** Modelled from the spec: [DM_SNPRINTF] is a macro of dlib/dstrings.h,
    which is not among the sources.  It is [snprintf]: at most [size - 1]
    characters of the formatted text are stored, then the terminator. *)
Definition DM_SNPRINTF (size : Z) (formatted : string) : string :=
  str_take (Z.to_nat (size - 1)) formatted.

(** ** GetCanonicalPath *)

(** The [while] loop over [source]: [last_c] is the previous character read,
    the result is what has been stored through [dest]. *)
Fixpoint collapse_loop (last_c : ascii) (source : string) : string :=
  match source with
  | EmptyString => EmptyString
  | String c rest =>
      if negb (Ascii.eqb c slash)
         || (Ascii.eqb c slash && negb (Ascii.eqb last_c slash))
      then String c (collapse_loop c rest)
      else collapse_loop c rest
  end.

Definition GetCanonicalPath (base_dir relative_dir : string) : string :=
  let buf := DM_SNPRINTF RESOURCE_PATH_MAX (base_dir +:+ "/" +:+ relative_dir) in
  collapse_loop zero buf.

(** The last character read after [s], when [c] was the last one before. *)
Fixpoint last_char (c : ascii) (s : string) : ascii :=
  match s with
  | EmptyString => c
  | String a r => last_char a r
  end.

(** The specification's words for the same function: the concatenation with
    every run of ['/'] collapsed to one.  A slash that is followed by another
    slash is dropped, so the last slash of each run stays. *)
Fixpoint collapse_runs (s : string) : string :=
  match s with
  | EmptyString => EmptyString
  | String c r =>
      match r with
      | String c' _ =>
          if Ascii.eqb c slash && Ascii.eqb c' slash
          then collapse_runs r
          else String c (collapse_runs r)
      | EmptyString => String c EmptyString
      end
  end.

Definition canonicalize_spec (base rel : string) : string :=
  collapse_runs (base +:+ "/" +:+ rel).

(** [s.strip(base)] of the specification: [s] without its prefix [base]. *)
Fixpoint strip_prefix (base s : string) : option string :=
  match base, s with
  | EmptyString, _ => Some s
  | String a b, String c r => if Ascii.eqb a c then strip_prefix b r else None
  | String _ _, EmptyString => None
  end.

Definition strip_base (base s : string) : string :=
  match strip_prefix base s with
  | Some r => r
  | None => s
  end.

(** A string of [n] copies of [c]. *)
Fixpoint str_repeat (c : ascii) (n : nat) : string :=
  match n with
  | O => EmptyString
  | S k => String c (str_repeat c k)
  end.

(** A string without two consecutive slashes. *)
Definition no_slash_run (s : string) : Prop := collapse_runs s = s.

(** ** Result codes

    Modelled from the spec: the enumerations are declared in resource.h and
    dlib/http_client.h, which are not among the sources; the constructors are
    the values the source names. *)

Inductive FactoryResult : Set :=
| FACTORY_RESULT_OK
| FACTORY_RESULT_INVAL
| FACTORY_RESULT_OUT_OF_RESOURCES
| FACTORY_RESULT_ALREADY_REGISTERED
| FACTORY_RESULT_RESOURCE_NOT_FOUND
| FACTORY_RESULT_MISSING_FILE_EXTENSION
| FACTORY_RESULT_UNKNOWN_RESOURCE_TYPE
| FACTORY_RESULT_IO_ERROR
| FACTORY_RESULT_STREAMBUFFER_TOO_SMALL
| FACTORY_RESULT_NOT_LOADED
| FACTORY_RESULT_UNKNOWN.

Inductive CreateResult : Set :=
| CREATE_RESULT_OK
| CREATE_RESULT_OUT_OF_MEMORY
| CREATE_RESULT_FORMAT_ERROR
| CREATE_RESULT_CONSTANT_ERROR
| CREATE_RESULT_UNKNOWN.

Inductive ReloadResult : Set :=
| RELOAD_RESULT_OK
| RELOAD_RESULT_OUT_OF_MEMORY
| RELOAD_RESULT_FORMAT_ERROR
| RELOAD_RESULT_CONSTANT_ERROR
| RELOAD_RESULT_NOT_FOUND
| RELOAD_RESULT_LOAD_ERROR
| RELOAD_RESULT_NOT_SUPPORTED
| RELOAD_RESULT_UNKNOWN.

(** [dmHttpClient::Result]: the source tells [RESULT_OK] and
    [RESULT_NOT_200_OK] from every other value. *)
Inductive HttpClientResult : Set :=
| HTTP_RESULT_OK
| HTTP_RESULT_NOT_200_OK
| HTTP_RESULT_OTHER (code : Z).

#[global] Instance FactoryResult_eq_dec : EqDecision FactoryResult.
Proof. solve_decision. Defined.
#[global] Instance CreateResult_eq_dec : EqDecision CreateResult.
Proof. solve_decision. Defined.
#[global] Instance ReloadResult_eq_dec : EqDecision ReloadResult.
Proof. solve_decision. Defined.
#[global] Instance HttpClientResult_eq_dec : EqDecision HttpClientResult.
Proof. solve_decision. Defined.

(** ** Logging (dmsdk/dlib/log.h) *)

Inductive Severity : Set :=
| LOG_SEVERITY_DEBUG
| LOG_SEVERITY_USER_DEBUG
| LOG_SEVERITY_INFO
| LOG_SEVERITY_WARNING
| LOG_SEVERITY_ERROR
| LOG_SEVERITY_FATAL.

#[global] Instance Severity_eq_dec : EqDecision Severity.
Proof. solve_decision. Defined.

(** The numeric value of a severity in the enumeration. *)
Definition severity_level (s : Severity) : Z :=
  match s with
  | LOG_SEVERITY_DEBUG => 0
  | LOG_SEVERITY_USER_DEBUG => 1
  | LOG_SEVERITY_INFO => 2
  | LOG_SEVERITY_WARNING => 3
  | LOG_SEVERITY_ERROR => 4
  | LOG_SEVERITY_FATAL => 5
  end.

(** An argument of a format string. *)
Inductive LogArg : Set :=
| ArgS (s : string)
| ArgD (d : Z).

(** ** Data of the factory *)

Record SResourceType : Set := {
  m_Extension : string;
  m_Context : Z;
  m_CreateFunction : Z;
  m_DestroyFunction : Z;
  m_RecreateFunction : Z
}.

(** Modelled from the spec: [SResourceDescriptor] is declared in resource.h,
    which is not among the sources.  The name hash is 64 bits, the resource
    an address, the reference count an unsigned integer (32 bits, like the
    counters of the factory; [SentHtmlStatus] prints it with [%d]), and
    [m_ResourceType] points at an entry of [m_ResourceTypes]: it is the
    index of that entry. *)
Record SResourceDescriptor : Set := {
  m_NameHash : Z;
  m_Resource : Z;
  m_ReferenceCount : Z;
  m_ResourceType : nat
}.

Record ResourceReloadedCallbackPair : Set := {
  m_Callback : Z;
  m_UserData : Z
}.

#[global] Instance SResourceDescriptor_eq_dec : EqDecision SResourceDescriptor.
Proof. solve_decision. Defined.
#[global] Instance ResourceReloadedCallbackPair_eq_dec :
  EqDecision ResourceReloadedCallbackPair.
Proof. solve_decision. Defined.

(** Modelled from the spec: the archive of resource_archive.h, which is not
    among the sources, is a read-only blob that is looked up by name. *)
Definition HArchive : Type := list (string * list byte).

Record EntryInfo : Type := {
  m_EntryResource : list byte;
  m_Size : Z
}.

Fixpoint FindEntry (archive : HArchive) (name : string) : option EntryInfo :=
  match archive with
  | [] => None
  | (n, data) :: rest =>
      if String.eqb n name
      then Some {| m_EntryResource := data; m_Size := Z.of_nat (length data) |}
      else FindEntry rest name
  end.

Record SResourceFactory : Type := {
  m_Resources : gmap Z SResourceDescriptor;
  m_ResourceToHash : gmap Z Z;
  (* Only valid if RESOURCE_FACTORY_FLAGS_RELOAD_SUPPORT is set *)
  m_ResourceHashToFilename : option (gmap Z string);
  (* Only valid if RESOURCE_FACTORY_FLAGS_RELOAD_SUPPORT is set *)
  m_ResourceReloadedCallbacks : option (list ResourceReloadedCallbackPair);
  (* the first m_ResourceTypesCount entries of the array *)
  m_ResourceTypes : list SResourceType;
  (* m_UriParts.m_Path *)
  m_Path : string;
  m_HttpClient : Z;
  (* m_StreamBufferSize + 1 bytes *)
  m_StreamBuffer : list byte;
  m_StreamBufferSize : Z;
  m_HttpContentLength : Z;
  m_HttpTotalBytesStreamed : Z;
  m_HttpStatus : Z;
  m_HttpFactoryResult : FactoryResult;
  m_HttpServer : Z;
  m_BuiltinsArchive : option HArchive
}.

Definition m_ResourceTypesCount (f : SResourceFactory) : Z :=
  Z.of_nat (length (m_ResourceTypes f)).

(** Field updates. *)

Definition set_Resources (v : gmap Z SResourceDescriptor) (f : SResourceFactory) :=
  {| m_Resources := v; m_ResourceToHash := m_ResourceToHash f;
     m_ResourceHashToFilename := m_ResourceHashToFilename f;
     m_ResourceReloadedCallbacks := m_ResourceReloadedCallbacks f;
     m_ResourceTypes := m_ResourceTypes f; m_Path := m_Path f;
     m_HttpClient := m_HttpClient f; m_StreamBuffer := m_StreamBuffer f;
     m_StreamBufferSize := m_StreamBufferSize f;
     m_HttpContentLength := m_HttpContentLength f;
     m_HttpTotalBytesStreamed := m_HttpTotalBytesStreamed f;
     m_HttpStatus := m_HttpStatus f; m_HttpFactoryResult := m_HttpFactoryResult f;
     m_HttpServer := m_HttpServer f; m_BuiltinsArchive := m_BuiltinsArchive f |}.

Definition set_ResourceToHash (v : gmap Z Z) (f : SResourceFactory) :=
  {| m_Resources := m_Resources f; m_ResourceToHash := v;
     m_ResourceHashToFilename := m_ResourceHashToFilename f;
     m_ResourceReloadedCallbacks := m_ResourceReloadedCallbacks f;
     m_ResourceTypes := m_ResourceTypes f; m_Path := m_Path f;
     m_HttpClient := m_HttpClient f; m_StreamBuffer := m_StreamBuffer f;
     m_StreamBufferSize := m_StreamBufferSize f;
     m_HttpContentLength := m_HttpContentLength f;
     m_HttpTotalBytesStreamed := m_HttpTotalBytesStreamed f;
     m_HttpStatus := m_HttpStatus f; m_HttpFactoryResult := m_HttpFactoryResult f;
     m_HttpServer := m_HttpServer f; m_BuiltinsArchive := m_BuiltinsArchive f |}.

Definition set_ResourceHashToFilename (v : option (gmap Z string)) (f : SResourceFactory) :=
  {| m_Resources := m_Resources f; m_ResourceToHash := m_ResourceToHash f;
     m_ResourceHashToFilename := v;
     m_ResourceReloadedCallbacks := m_ResourceReloadedCallbacks f;
     m_ResourceTypes := m_ResourceTypes f; m_Path := m_Path f;
     m_HttpClient := m_HttpClient f; m_StreamBuffer := m_StreamBuffer f;
     m_StreamBufferSize := m_StreamBufferSize f;
     m_HttpContentLength := m_HttpContentLength f;
     m_HttpTotalBytesStreamed := m_HttpTotalBytesStreamed f;
     m_HttpStatus := m_HttpStatus f; m_HttpFactoryResult := m_HttpFactoryResult f;
     m_HttpServer := m_HttpServer f; m_BuiltinsArchive := m_BuiltinsArchive f |}.

Definition set_ResourceReloadedCallbacks
    (v : option (list ResourceReloadedCallbackPair)) (f : SResourceFactory) :=
  {| m_Resources := m_Resources f; m_ResourceToHash := m_ResourceToHash f;
     m_ResourceHashToFilename := m_ResourceHashToFilename f;
     m_ResourceReloadedCallbacks := v;
     m_ResourceTypes := m_ResourceTypes f; m_Path := m_Path f;
     m_HttpClient := m_HttpClient f; m_StreamBuffer := m_StreamBuffer f;
     m_StreamBufferSize := m_StreamBufferSize f;
     m_HttpContentLength := m_HttpContentLength f;
     m_HttpTotalBytesStreamed := m_HttpTotalBytesStreamed f;
     m_HttpStatus := m_HttpStatus f; m_HttpFactoryResult := m_HttpFactoryResult f;
     m_HttpServer := m_HttpServer f; m_BuiltinsArchive := m_BuiltinsArchive f |}.

Definition set_ResourceTypes (v : list SResourceType) (f : SResourceFactory) :=
  {| m_Resources := m_Resources f; m_ResourceToHash := m_ResourceToHash f;
     m_ResourceHashToFilename := m_ResourceHashToFilename f;
     m_ResourceReloadedCallbacks := m_ResourceReloadedCallbacks f;
     m_ResourceTypes := v; m_Path := m_Path f;
     m_HttpClient := m_HttpClient f; m_StreamBuffer := m_StreamBuffer f;
     m_StreamBufferSize := m_StreamBufferSize f;
     m_HttpContentLength := m_HttpContentLength f;
     m_HttpTotalBytesStreamed := m_HttpTotalBytesStreamed f;
     m_HttpStatus := m_HttpStatus f; m_HttpFactoryResult := m_HttpFactoryResult f;
     m_HttpServer := m_HttpServer f; m_BuiltinsArchive := m_BuiltinsArchive f |}.

Definition set_StreamBuffer (v : list byte) (f : SResourceFactory) :=
  {| m_Resources := m_Resources f; m_ResourceToHash := m_ResourceToHash f;
     m_ResourceHashToFilename := m_ResourceHashToFilename f;
     m_ResourceReloadedCallbacks := m_ResourceReloadedCallbacks f;
     m_ResourceTypes := m_ResourceTypes f; m_Path := m_Path f;
     m_HttpClient := m_HttpClient f; m_StreamBuffer := v;
     m_StreamBufferSize := m_StreamBufferSize f;
     m_HttpContentLength := m_HttpContentLength f;
     m_HttpTotalBytesStreamed := m_HttpTotalBytesStreamed f;
     m_HttpStatus := m_HttpStatus f; m_HttpFactoryResult := m_HttpFactoryResult f;
     m_HttpServer := m_HttpServer f; m_BuiltinsArchive := m_BuiltinsArchive f |}.

(** The four fields of the HTTP state at once. *)
Definition set_Http (content_length streamed status : Z) (result : FactoryResult)
    (f : SResourceFactory) :=
  {| m_Resources := m_Resources f; m_ResourceToHash := m_ResourceToHash f;
     m_ResourceHashToFilename := m_ResourceHashToFilename f;
     m_ResourceReloadedCallbacks := m_ResourceReloadedCallbacks f;
     m_ResourceTypes := m_ResourceTypes f; m_Path := m_Path f;
     m_HttpClient := m_HttpClient f; m_StreamBuffer := m_StreamBuffer f;
     m_StreamBufferSize := m_StreamBufferSize f;
     m_HttpContentLength := content_length;
     m_HttpTotalBytesStreamed := streamed;
     m_HttpStatus := status; m_HttpFactoryResult := result;
     m_HttpServer := m_HttpServer f; m_BuiltinsArchive := m_BuiltinsArchive f |}.

Definition set_HttpContentLength (v : Z) (f : SResourceFactory) :=
  set_Http v (m_HttpTotalBytesStreamed f) (m_HttpStatus f) (m_HttpFactoryResult f) f.
Definition set_HttpTotalBytesStreamed (v : Z) (f : SResourceFactory) :=
  set_Http (m_HttpContentLength f) v (m_HttpStatus f) (m_HttpFactoryResult f) f.
Definition set_HttpStatus (v : Z) (f : SResourceFactory) :=
  set_Http (m_HttpContentLength f) (m_HttpTotalBytesStreamed f) v (m_HttpFactoryResult f) f.
Definition set_HttpFactoryResult (v : FactoryResult) (f : SResourceFactory) :=
  set_Http (m_HttpContentLength f) (m_HttpTotalBytesStreamed f) (m_HttpStatus f) v f.

Definition set_ReferenceCount (v : Z) (rd : SResourceDescriptor) :=
  {| m_NameHash := m_NameHash rd; m_Resource := m_Resource rd;
     m_ReferenceCount := v; m_ResourceType := m_ResourceType rd |}.

(** ** What the factory calls *)

Inductive HttpCallback : Type :=
| OnHeader (status_code : Z) (key value : string)
| OnContent (status_code : Z) (content_data : list byte).

(** An open file: the offset [ftell] reports at its end and the bytes
    [fread] delivers. *)
Record File : Type := {
  file_size : Z;
  file_data : list byte
}.

(** The callbacks are taken at their contract: the create callback stores
    the address of the object it made in [m_Resource] and leaves the other
    fields of the descriptor alone; the recreate callback changes the object
    in place; no callback writes to the descriptor it is handed or calls
    back into the factory.  A world is what the collaborators answer during
    one call of the factory; two calls may see two worlds. *)
Record World : Type := {
  (* dmHttpClient::Get: the callbacks it makes, in order, and its result *)
  http_get : string -> list HttpCallback * HttpClientResult;
  fopen : string -> option File;
  strtol : string -> Z;
  (* m_CreateFunction: the result and what it stores in m_Resource *)
  call_create : Z -> Z -> list byte -> Z -> string -> CreateResult * Z;
  call_recreate :
    Z -> Z -> list byte -> Z -> SResourceDescriptor -> string -> CreateResult
}.

Inductive Event : Type :=
| EvLog (severity : Severity) (format : string) (args : list LogArg)
| EvFindEntry (name : string)
| EvHttpGet (path : string)
| EvFopen (path : string)
| EvCreate (fn context : Z) (buffer : list byte) (size : Z) (name : string)
| EvDestroy (fn context : Z) (rd : SResourceDescriptor)
| EvRecreate (fn context : Z) (buffer : list byte) (size : Z)
    (rd : SResourceDescriptor) (name : string)
| EvReloaded (callback user_data : Z) (rd : SResourceDescriptor) (name : string).

(** ** The monad of the operations *)

Definition Machine : Type := SResourceFactory * list Event.
Definition M (A : Type) : Type := Machine -> option (A * Machine).

Definition ret {A} (a : A) : M A := fun m => Some (a, m).
Definition bind {A B} (c : M A) (k : A -> M B) : M B :=
  fun m => match c m with
           | Some (a, m') => k a m'
           | None => None
           end.
Definition abort {A} : M A := fun _ => None.
Definition factory : M SResourceFactory := fun m => Some (fst m, m).
Definition update (g : SResourceFactory -> SResourceFactory) : M unit :=
  fun m => Some (tt, (g (fst m), snd m)).
Definition emit (e : Event) : M unit :=
  fun m => Some (tt, (fst m, snd m ++ [e])).
Definition c_assert (b : bool) : M unit := if b then ret tt else abort.
Definition skip : M unit := ret tt.

Declare Scope factory_scope.
Delimit Scope factory_scope with fac.
Notation "x <- c ;; k" := (bind c (fun x => k))
  (at level 100, c at next level, right associativity) : factory_scope.
Notation "c ;; k" := (bind c (fun _ => k))
  (at level 100, right associativity) : factory_scope.
Local Open Scope factory_scope.

Definition dmLogWarning (format : string) (args : list LogArg) : M unit :=
  emit (EvLog LOG_SEVERITY_WARNING format args).
Definition dmLogError (format : string) (args : list LogArg) : M unit :=
  emit (EvLog LOG_SEVERITY_ERROR format args).

(** Stores into the stream buffer; a store outside the allocation is a
    fault. *)
Definition buffer_write (offset : Z) (data buf : list byte) : option (list byte) :=
  if (0 <=? offset) && (offset + Z.of_nat (length data) <=? Z.of_nat (length buf))
  then Some (take (Z.to_nat offset) buf ++ data
             ++ drop (Z.to_nat offset + length data) buf)
  else None.

Definition store (offset : Z) (data : list byte) : M unit :=
  f <- factory ;;
  match buffer_write offset data (m_StreamBuffer f) with
  | Some buf => update (set_StreamBuffer buf)
  | None => abort
  end.

(** ** The handler registry *)

Fixpoint find_type_from (i : nat) (types : list SResourceType)
    (extension : string) : option nat :=
  match types with
  | [] => None
  | rt :: rest =>
      if String.eqb extension (m_Extension rt)
      then Some i
      else find_type_from (S i) rest extension
  end.

(** The address of the first entry whose extension is [extension]. *)
Definition FindResourceType (f : SResourceFactory) (extension : string)
    : option nat :=
  find_type_from 0 (m_ResourceTypes f) extension.

(** Following a [SResourceType*]. *)
Definition type_at (resource_type : nat) : M SResourceType :=
  f <- factory ;;
  match m_ResourceTypes f !! resource_type with
  | Some rt => ret rt
  | None => abort
  end.

Definition RegisterType (extension : string) (context : Z)
    (create_function destroy_function recreate_function : Z)
    : M FactoryResult :=
  f <- factory ;;
  if m_ResourceTypesCount f =? MAX_RESOURCE_TYPES
  then ret FACTORY_RESULT_OUT_OF_RESOURCES
  else
    (* Dots not allowed in extension *)
    if bool_decide (strrchr extension dot <> None)
    then ret FACTORY_RESULT_INVAL
    else
      if (create_function =? 0) || (destroy_function =? 0)
      then ret FACTORY_RESULT_INVAL
      else
        if bool_decide (FindResourceType f extension <> None)
        then ret FACTORY_RESULT_ALREADY_REGISTERED
        else
          let resource_type :=
            {| m_Extension := extension; m_Context := context;
               m_CreateFunction := create_function;
               m_DestroyFunction := destroy_function;
               m_RecreateFunction := recreate_function |} in
          update (set_ResourceTypes (m_ResourceTypes f ++ [resource_type])) ;;
          ret FACTORY_RESULT_OK.

(** ** The transport loader *)

Definition HttpHeader (w : World) (status_code : Z) (key value : string)
    : M unit :=
  update (set_HttpStatus status_code) ;;
  if String.eqb key "Content-Length"
  then update (set_HttpContentLength (wrap32 (strtol w value)))
  else skip.

Definition HttpContent (status_code : Z) (content_data : list byte) : M unit :=
  let content_data_size := Z.of_nat (length content_data) in
  f <- factory ;;
  c_assert (m_HttpTotalBytesStreamed f <=? m_StreamBufferSize f) ;;
  if wrap32 (m_StreamBufferSize f - m_HttpTotalBytesStreamed f)
     <? content_data_size
  then update (set_HttpFactoryResult FACTORY_RESULT_STREAMBUFFER_TOO_SMALL)
  else
    store (m_HttpTotalBytesStreamed f) content_data ;;
    update (set_HttpTotalBytesStreamed
              (wrap32 (m_HttpTotalBytesStreamed f + content_data_size))).

Definition http_callback (w : World) (cb : HttpCallback) : M unit :=
  match cb with
  | OnHeader status_code key value => HttpHeader w status_code key value
  | OnContent status_code content_data => HttpContent status_code content_data
  end.

Fixpoint http_callbacks (w : World) (cbs : list HttpCallback) : M unit :=
  match cbs with
  | [] => skip
  | cb :: rest => http_callback w cb ;; http_callbacks w rest
  end.

(** [dmHttpClient::Get]: the request is made, the client calls back. *)
Definition dmHttpClient_Get (w : World) (path : string) : M HttpClientResult :=
  emit (EvHttpGet path) ;;
  http_callbacks w (fst (http_get w path)) ;;
  ret (snd (http_get w path)).

(** The first branch of [LoadResource]: [Some] when the archive has the
    entry, [None] when the load falls through.  The second component of a
    result is what is stored through [resource_size] ([0] where the source
    stores nothing). *)
Definition LoadFromArchive (path original_name : string)
    : M (option (FactoryResult * Z)) :=
  f <- factory ;;
  match m_BuiltinsArchive f with
  | Some archive =>
      emit (EvFindEntry original_name) ;;
      match FindEntry archive original_name with
      | Some entry_info =>
          let file_size := m_Size entry_info in
          (* Extra byte for resources expecting null-terminated string... *)
          if m_StreamBufferSize f <=? wrap32 (file_size + 1)
          then
            dmLogError "Resource too large for streambuffer: %s" [ArgS path] ;;
            ret (Some (FACTORY_RESULT_STREAMBUFFER_TOO_SMALL, 0))
          else
            store 0 (take (Z.to_nat file_size) (m_EntryResource entry_info)) ;;
            store file_size [x00] ;;
            ret (Some (FACTORY_RESULT_OK, file_size))
      | None => ret None
      end
  | None => ret None
  end.

(** Load over HTTP. *)
Definition LoadOverHttp (w : World) (path : string) : M (FactoryResult * Z) :=
  update (set_Http 0 0 (-1) FACTORY_RESULT_OK) ;;
  http_result <- dmHttpClient_Get w path ;;
  f <- factory ;;
  if bool_decide (http_result <> HTTP_RESULT_OK)
  then
    dmLogError "Resource not found: %s" [ArgS path] ;;
    if m_HttpStatus f =? 404
    then ret (FACTORY_RESULT_RESOURCE_NOT_FOUND, 0)
    else
      (if bool_decide (http_result = HTTP_RESULT_NOT_200_OK)
       then dmLogWarning "Unexpected http status code: %d" [ArgD (m_HttpStatus f)]
       else skip) ;;
      ret (FACTORY_RESULT_IO_ERROR, 0)
  else
    if bool_decide (m_HttpFactoryResult f <> FACTORY_RESULT_OK)
    then ret (m_HttpFactoryResult f, 0)
    else
      (if bool_decide (m_HttpContentLength f <> m_HttpTotalBytesStreamed f)
       then dmLogError
              "Expected content length differs from actually streamed for resource %s (%d != %d)"
              [ArgS path; ArgD (m_HttpContentLength f);
               ArgD (m_HttpTotalBytesStreamed f)]
       else skip) ;;
      (* Extra byte for resources expecting null-terminated string... *)
      (if m_StreamBufferSize f <=? wrap32 (m_HttpTotalBytesStreamed f + 1)
       then dmLogError "Resource too large for streambuffer: %s" [ArgS path]
       else skip) ;;
      store (m_HttpTotalBytesStreamed f) [x00] ;;
      ret (FACTORY_RESULT_OK, m_HttpTotalBytesStreamed f).

(** Load over local file system. *)
Definition LoadFromFile (w : World) (path : string) : M (FactoryResult * Z) :=
  emit (EvFopen path) ;;
  match fopen w path with
  | None =>
      dmLogError "Resource not found: %s" [ArgS path] ;;
      ret (FACTORY_RESULT_RESOURCE_NOT_FOUND, 0)
  | Some file =>
      let file_size := file_size file in
      let resource_size := wrap32 file_size in
      f <- factory ;;
      (* Extra byte for resources expecting null-terminated string... *)
      if wrap_long (m_StreamBufferSize f) <=? wrap_long (file_size + 1)
      then
        dmLogError "Resource too large for streambuffer: %s" [ArgS path] ;;
        ret (FACTORY_RESULT_STREAMBUFFER_TOO_SMALL, resource_size)
      else
        store file_size [x00] ;;
        let read := take (Z.to_nat file_size) (file_data file) in
        store 0 read ;;
        if bool_decide (Z.of_nat (length read) <> file_size)
        then ret (FACTORY_RESULT_IO_ERROR, resource_size)
        else ret (FACTORY_RESULT_OK, resource_size)
  end.

Definition LoadResource (w : World) (path original_name : string)
    : M (FactoryResult * Z) :=
  from_archive <- LoadFromArchive path original_name ;;
  match from_archive with
  | Some r => ret r
  | None =>
      (* NOTE: No else if here. Fall through *)
      f <- factory ;;
      if negb (m_HttpClient f =? 0)
      then LoadOverHttp w path
      else LoadFromFile w path
  end.

(** ** Acquire, reload and release *)

Section Factory.

(** [dmHashBuffer64] of dlib/hash.h, applied to a string and its length. *)
Variable dmHashBuffer64 : string -> Z.

Definition Get (w : World) (name : string) : M (FactoryResult * Z) :=
  f <- factory ;;
  let canonical_path := GetCanonicalPath (m_Path f) name in
  let canonical_path_hash := dmHashBuffer64 canonical_path in
  match m_Resources f !! canonical_path_hash with
  | Some rd =>
      c_assert (bool_decide (is_Some (m_ResourceToHash f !! m_Resource rd))) ;;
      update (set_Resources
                (<[canonical_path_hash :=
                     set_ReferenceCount (wrap32 (m_ReferenceCount rd + 1)) rd]>
                   (m_Resources f))) ;;
      ret (FACTORY_RESULT_OK, m_Resource rd)
  | None =>
      match strrchr name dot with
      | Some ext =>
          let ext := str_next ext in
          match FindResourceType f ext with
          | None =>
              dmLogError "Unknown resource type: %s" [ArgS ext] ;;
              ret (FACTORY_RESULT_UNKNOWN_RESOURCE_TYPE, 0)
          | Some resource_type =>
              loaded <- LoadResource w canonical_path name ;;
              let result := fst loaded in
              let file_size := snd loaded in
              if bool_decide (result <> FACTORY_RESULT_OK)
              then ret (result, 0)
              else
                rt <- type_at resource_type ;;
                f <- factory ;;
                let created :=
                  call_create w (m_CreateFunction rt) (m_Context rt)
                    (m_StreamBuffer f) file_size name in
                emit (EvCreate (m_CreateFunction rt) (m_Context rt)
                        (m_StreamBuffer f) file_size name) ;;
                let create_error := fst created in
                let tmp_resource :=
                  {| m_NameHash := canonical_path_hash;
                     m_Resource := snd created;
                     m_ReferenceCount := 1;
                     m_ResourceType := resource_type |} in
                if bool_decide (create_error = CREATE_RESULT_OK)
                then
                  c_assert (negb (m_Resource tmp_resource =? 0)) ;;
                  update (set_Resources
                            (<[canonical_path_hash := tmp_resource]>
                               (m_Resources f))) ;;
                  update (set_ResourceToHash
                            (<[m_Resource tmp_resource := canonical_path_hash]>
                               (m_ResourceToHash f))) ;;
                  match m_ResourceHashToFilename f with
                  | Some filenames =>
                      update (set_ResourceHashToFilename
                                (Some (<[canonical_path_hash := canonical_path]>
                                         filenames)))
                  | None => skip
                  end ;;
                  ret (FACTORY_RESULT_OK, m_Resource tmp_resource)
                else
                  dmLogWarning "Unable to create resource: %s"
                    [ArgS canonical_path] ;;
                  (* TODO: Map CreateResult to FactoryResult here. *)
                  ret (FACTORY_RESULT_UNKNOWN, 0)
          end
      | None =>
          dmLogWarning "Unable to load resource: '%s'. Missing file extension."
            [ArgS name] ;;
          ret (FACTORY_RESULT_MISSING_FILE_EXTENSION, 0)
      end
  end.

(** The observers of a factory; none when reload support is off. *)
Definition observers (f : SResourceFactory) : list ResourceReloadedCallbackPair :=
  match m_ResourceReloadedCallbacks f with
  | Some callbacks => callbacks
  | None => []
  end.

Fixpoint notify (callbacks : list ResourceReloadedCallbackPair)
    (rd : SResourceDescriptor) (name : string) : M unit :=
  match callbacks with
  | [] => skip
  | cb :: rest =>
      emit (EvReloaded (m_Callback cb) (m_UserData cb) rd name) ;;
      notify rest rd name
  end.

Definition reload_result_of (create_result : CreateResult) : ReloadResult :=
  match create_result with
  | CREATE_RESULT_OUT_OF_MEMORY => RELOAD_RESULT_OUT_OF_MEMORY
  | CREATE_RESULT_FORMAT_ERROR => RELOAD_RESULT_FORMAT_ERROR
  | CREATE_RESULT_CONSTANT_ERROR => RELOAD_RESULT_CONSTANT_ERROR
  | CREATE_RESULT_UNKNOWN => RELOAD_RESULT_UNKNOWN
  | _ => RELOAD_RESULT_UNKNOWN
  end.

(** The second component is what is stored through [out_descriptor]. *)
Definition ReloadResource (w : World) (name : string)
    : M (ReloadResult * option SResourceDescriptor) :=
  f <- factory ;;
  let canonical_path := GetCanonicalPath (m_Path f) name in
  let canonical_path_hash := dmHashBuffer64 canonical_path in
  match m_Resources f !! canonical_path_hash with
  | None => ret (RELOAD_RESULT_NOT_FOUND, None)
  | Some rd =>
      resource_type <- type_at (m_ResourceType rd) ;;
      if m_RecreateFunction resource_type =? 0
      then ret (RELOAD_RESULT_NOT_SUPPORTED, Some rd)
      else
        loaded <- LoadResource w canonical_path name ;;
        let result := fst loaded in
        let file_size := snd loaded in
        if bool_decide (result <> FACTORY_RESULT_OK)
        then ret (RELOAD_RESULT_LOAD_ERROR, Some rd)
        else
          f <- factory ;;
          let create_result :=
            call_recreate w (m_RecreateFunction resource_type)
              (m_Context resource_type) (m_StreamBuffer f) file_size rd name in
          emit (EvRecreate (m_RecreateFunction resource_type)
                  (m_Context resource_type) (m_StreamBuffer f) file_size rd
                  name) ;;
          if bool_decide (create_result = CREATE_RESULT_OK)
          then
            match m_ResourceReloadedCallbacks f with
            | Some callbacks => notify callbacks rd name
            | None => skip
            end ;;
            ret (RELOAD_RESULT_OK, Some rd)
          else ret (reload_result_of create_result, Some rd)
  end.

Definition GetDescriptor (name : string)
    : M (FactoryResult * option SResourceDescriptor) :=
  f <- factory ;;
  let canonical_path := GetCanonicalPath (m_Path f) name in
  let canonical_path_hash := dmHashBuffer64 canonical_path in
  match m_Resources f !! canonical_path_hash with
  | Some tmp_descriptor => ret (FACTORY_RESULT_OK, Some tmp_descriptor)
  | None => ret (FACTORY_RESULT_NOT_LOADED, None)
  end.

End Factory.

(** [resource_hash] points into [m_ResourceToHash]; the source still reads
    it after the entry of [resource] is erased, and finds the hash there. *)
Definition Release (resource : Z) : M unit :=
  f <- factory ;;
  match m_ResourceToHash f !! resource with
  | None => abort
  | Some resource_hash =>
      match m_Resources f !! resource_hash with
      | None => abort
      | Some rd =>
          c_assert (0 <? m_ReferenceCount rd) ;;
          let rd := set_ReferenceCount (m_ReferenceCount rd - 1) rd in
          update (fun f => set_Resources (<[resource_hash := rd]> (m_Resources f)) f) ;;
          if m_ReferenceCount rd =? 0
          then
            resource_type <- type_at (m_ResourceType rd) ;;
            emit (EvDestroy (m_DestroyFunction resource_type)
                    (m_Context resource_type) rd) ;;
            update (fun f => set_ResourceToHash
                               (delete resource (m_ResourceToHash f)) f) ;;
            update (fun f => set_Resources
                               (delete resource_hash (m_Resources f)) f) ;;
            match m_ResourceHashToFilename f with
            | Some filenames =>
                let s := filenames !! resource_hash in
                update (set_ResourceHashToFilename
                          (Some (delete resource_hash filenames))) ;;
                c_assert (bool_decide (is_Some s))
            | None => skip
            end
          else skip
      end
  end.

(** ** The observer registry *)

Definition RegisterResourceReloadedCallback (callback user_data : Z) : M unit :=
  f <- factory ;;
  match m_ResourceReloadedCallbacks f with
  | Some callbacks =>
      if negb (Z.of_nat (length callbacks) =? MAX_CALLBACKS)
      then
        let cb := {| m_Callback := callback; m_UserData := user_data |} in
        update (set_ResourceReloadedCallbacks (Some (callbacks ++ [cb])))
      else
        dmLogWarning
          "Resource reloaded callback could not be registered since the maximum capacity of callbacks has been reached (%d)."
          [ArgD MAX_CALLBACKS]
  | None => skip
  end.

(** Modelled from the spec: [dmArray::EraseSwap] is declared in dlib/array.h,
    which is not among the sources.  The element at [i] is overwritten by the
    last element and the array shrinks by one. *)
Definition EraseSwap {A} (i : nat) (l : list A) : list A :=
  match last l with
  | Some x => take (length l - 1)%nat (<[i := x]> l)
  | None => l
  end.

(** The [while (i < size)] loop; every turn shrinks the array or advances
    [i], so [length callbacks] turns are enough. *)
Fixpoint unregister_loop (turns i : nat) (callback user_data : Z)
    (callbacks : list ResourceReloadedCallbackPair)
    : list ResourceReloadedCallbackPair :=
  match turns with
  | O => callbacks
  | S turns' =>
      match callbacks !! i with
      | None => callbacks
      | Some cb =>
          if (m_Callback cb =? callback) && (m_UserData cb =? user_data)
          then unregister_loop turns' i callback user_data (EraseSwap i callbacks)
          else unregister_loop turns' (S i) callback user_data callbacks
      end
  end.

Definition UnregisterResourceReloadedCallback (callback user_data : Z) : M unit :=
  f <- factory ;;
  match m_ResourceReloadedCallbacks f with
  | Some callbacks =>
      update (set_ResourceReloadedCallbacks
                (Some (unregister_loop (length callbacks) 0 callback user_data
                         callbacks)))
  | None => skip
  end.

(** ** Construction *)

Record NewFactoryParams : Type := {
  m_MaxResources : Z;
  m_Flags : Z;
  params_StreamBufferSize : Z;
  params_BuiltinsArchive : option HArchive
}.

(** Modelled from the spec: the flags are declared in resource.h, which is
    not among the sources; they form a bit set. *)
Definition RESOURCE_FACTORY_FLAGS_EMPTY : Z := 0.
Definition RESOURCE_FACTORY_FLAGS_RELOAD_SUPPORT : Z := 1.
Definition RESOURCE_FACTORY_FLAGS_HTTP_SERVER : Z := 2.

Definition SetDefaultNewFactoryParams : NewFactoryParams :=
  {| m_MaxResources := 1024;
     m_Flags := RESOURCE_FACTORY_FLAGS_EMPTY;
     params_StreamBufferSize := 4 * 1024 * 1024;
     params_BuiltinsArchive := None |}.

Record Parts : Type := {
  m_Scheme : string;
  m_Hostname : string;
  m_Port : Z;
  parts_Path : string
}.

(** What construction asks of the platform. *)
Record Platform : Type := {
  malloc : Z -> option (list byte);
  dmURI_Parse : string -> option Parts;
  dmHttpClient_New : string -> Z -> Z;
  dmHttpServer_New : Z -> option Z
}.

(** The factory, or [None] for the null handle, and what was logged. *)
Definition NewFactory (pf : Platform) (params : NewFactoryParams) (uri : string)
    : option SResourceFactory * list Event :=
  match malloc pf (wrap32 (params_StreamBufferSize params + 1)) with
  | None => (None, [])
  | Some buffer =>
      match dmURI_Parse pf uri with
      | None => (None, [EvLog LOG_SEVERITY_ERROR "Unable to parse uri: %s" [ArgS uri]])
      | Some parts =>
          let client :=
            if String.eqb (m_Scheme parts) "http"
            then Some (dmHttpClient_New pf (m_Hostname parts) (m_Port parts))
            else if String.eqb (m_Scheme parts) "file" then Some 0 else None in
          match client with
          | None => (None, [EvLog LOG_SEVERITY_ERROR "Invalid URI: %s" [ArgS uri]])
          | Some http_client =>
              if String.eqb (m_Scheme parts) "http" && (http_client =? 0)
              then (None, [EvLog LOG_SEVERITY_ERROR "Invalid URI: %s" [ArgS uri]])
              else
                let with_server :=
                  negb (Z.land (m_Flags params) RESOURCE_FACTORY_FLAGS_HTTP_SERVER =? 0) in
                (* http support implies this flag implicitly *)
                let flags :=
                  if with_server
                  then Z.lor (m_Flags params) RESOURCE_FACTORY_FLAGS_RELOAD_SUPPORT
                  else m_Flags params in
                let port := 8001 in
                let server := if with_server then dmHttpServer_New pf port else Some 0 in
                let reload :=
                  negb (Z.land flags RESOURCE_FACTORY_FLAGS_RELOAD_SUPPORT =? 0) in
                (Some {| m_Resources := ∅;
                         m_ResourceToHash := ∅;
                         m_ResourceHashToFilename := if reload then Some ∅ else None;
                         m_ResourceReloadedCallbacks := if reload then Some [] else None;
                         m_ResourceTypes := [];
                         m_Path := parts_Path parts;
                         m_HttpClient := http_client;
                         m_StreamBuffer := buffer;
                         m_StreamBufferSize := params_StreamBufferSize params;
                         m_HttpContentLength := 0;
                         m_HttpTotalBytesStreamed := 0;
                         m_HttpStatus := 0;
                         m_HttpFactoryResult := FACTORY_RESULT_OK;
                         m_HttpServer := default 0 server;
                         m_BuiltinsArchive := params_BuiltinsArchive params |},
                 match server with
                 | Some _ => []
                 | None => [EvLog LOG_SEVERITY_WARNING
                              "Unable to start http server on port: %d" [ArgD port]]
                 end)
          end
      end
  end.

(** ** Sample data

    A platform, factories and handlers for the scenarios of the
    specification. *)

Definition file_parts : Parts :=
  {| m_Scheme := "file"; m_Hostname := ""; m_Port := -1; parts_Path := "/tmp/data" |}.
Definition http_parts : Parts :=
  {| m_Scheme := "http"; m_Hostname := "localhost"; m_Port := 8000;
     parts_Path := "/data" |}.

Definition sample_platform : Platform :=
  {| malloc := fun n => Some (repeat x00 (Z.to_nat n));
     dmURI_Parse := fun uri =>
       if String.eqb uri "file:///tmp/data" then Some file_parts
       else if String.eqb uri "http://localhost:8000/data" then Some http_parts
       else None;
     dmHttpClient_New := fun _ _ => 7;
     dmHttpServer_New := fun _ => Some 9 |}.

Definition sample_params (flags size : Z) (archive : option HArchive)
    : NewFactoryParams :=
  {| m_MaxResources := 1024; m_Flags := flags;
     params_StreamBufferSize := size; params_BuiltinsArchive := archive |}.

(** The factory that [NewFactory] builds for the sample platform. *)
Definition sample_factory (path : string) (client size : Z) (reload : bool)
    (archive : option HArchive) : SResourceFactory :=
  {| m_Resources := ∅;
     m_ResourceToHash := ∅;
     m_ResourceHashToFilename := if reload then Some ∅ else None;
     m_ResourceReloadedCallbacks := if reload then Some [] else None;
     m_ResourceTypes := [];
     m_Path := path;
     m_HttpClient := client;
     m_StreamBuffer := repeat x00 (Z.to_nat (wrap32 (size + 1)));
     m_StreamBufferSize := size;
     m_HttpContentLength := 0;
     m_HttpTotalBytesStreamed := 0;
     m_HttpStatus := 0;
     m_HttpFactoryResult := FACTORY_RESULT_OK;
     m_HttpServer := 0;
     m_BuiltinsArchive := archive |}.

(** A stand-in for the hash of dlib: a polynomial over the characters. *)
Fixpoint sample_hash_from (acc : Z) (s : string) : Z :=
  match s with
  | EmptyString => acc
  | String c r =>
      sample_hash_from ((acc * 31 + Z.of_N (N_of_ascii c)) mod 2 ^ 64) r
  end.
Definition sample_hash (s : string) : Z := sample_hash_from 7 s.

(** A stand-in for [strtol(value, 0, 10)] on unsigned decimal text. *)
Fixpoint sample_strtol_from (acc : Z) (s : string) : Z :=
  match s with
  | EmptyString => acc
  | String c r =>
      let n := Z.of_N (N_of_ascii c) in
      if (48 <=? n) && (n <=? 57)
      then sample_strtol_from (10 * acc + (n - 48)) r
      else acc
  end.
Definition sample_strtol (s : string) : Z := sample_strtol_from 0 s.

Fixpoint lookup_file (files : list (string * list byte)) (path : string)
    : option File :=
  match files with
  | [] => None
  | (p, data) :: rest =>
      if String.eqb p path
      then Some {| file_size := Z.of_nat (length data); file_data := data |}
      else lookup_file rest path
  end.

(** A world with the given files and HTTP server, whose handlers answer
    [create_result] and [recreate_result]; created resources live at
    address [4096]. *)
Definition sample_world (files : list (string * list byte))
    (http : string -> list HttpCallback * HttpClientResult)
    (create_result recreate_result : CreateResult) : World :=
  {| http_get := http;
     fopen := lookup_file files;
     strtol := sample_strtol;
     call_create := fun _ _ _ _ _ => (create_result, 4096);
     call_recreate := fun _ _ _ _ _ _ => recreate_result |}.

Definition no_http (path : string) : list HttpCallback * HttpClientResult :=
  ([], HTTP_RESULT_OTHER (-1)).

(** [n] handlers with the extensions ["x"], ["xx"], ... *)
Fixpoint register_many (n : nat) : M unit :=
  match n with
  | O => skip
  | S k =>
      register_many k ;;
      r <- RegisterType (str_repeat "x" (S k)) 0 1 2 0 ;;
      c_assert (bool_decide (r = FACTORY_RESULT_OK))
  end.

(** The specification's wording for C8: the extension contains a dot; the
    extension has an entry. *)
Definition contains_dot (extension : string) : Prop :=
  In dot (list_ascii_of_string extension).
Definition has_entry (f : SResourceFactory) (extension : string) : Prop :=
  exists rt, In rt (m_ResourceTypes f) /\ m_Extension rt = extension.

(** ** Frames

    What a load leaves alone: everything but the contents of the stream
    buffer and the HTTP state. *)
Record loader_frame (f f' : SResourceFactory) : Prop := {
  frame_Resources : m_Resources f' = m_Resources f;
  frame_ResourceToHash : m_ResourceToHash f' = m_ResourceToHash f;
  frame_ResourceHashToFilename :
    m_ResourceHashToFilename f' = m_ResourceHashToFilename f;
  frame_ResourceReloadedCallbacks :
    m_ResourceReloadedCallbacks f' = m_ResourceReloadedCallbacks f;
  frame_ResourceTypes : m_ResourceTypes f' = m_ResourceTypes f;
  frame_Path : m_Path f' = m_Path f;
  frame_HttpClient : m_HttpClient f' = m_HttpClient f;
  frame_StreamBufferSize : m_StreamBufferSize f' = m_StreamBufferSize f;
  frame_StreamBuffer_length : length (m_StreamBuffer f') = length (m_StreamBuffer f);
  frame_HttpServer : m_HttpServer f' = m_HttpServer f;
  frame_BuiltinsArchive : m_BuiltinsArchive f' = m_BuiltinsArchive f
}.

(** The events of the transports: log records and the three lookups. *)
Definition transport_event (e : Event) : Prop :=
  match e with
  | EvLog _ _ _ | EvFindEntry _ | EvHttpGet _ | EvFopen _ => True
  | _ => False
  end.

(** A run from [m] to [m'] that keeps the frame and only adds events that
    satisfy [P]. *)
Definition machine_frame (P : Event -> Prop) (m m' : Machine) : Prop :=
  loader_frame (fst m) (fst m')
  /\ exists evs, snd m' = snd m ++ evs /\ Forall P evs.

Definition preserves {A} (R : Machine -> Machine -> Prop) (c : M A) : Prop :=
  forall m a m', c m = Some (a, m') -> R m m'.

(** Kinds of events. *)
Definition is_destroy (e : Event) : Prop :=
  match e with EvDestroy _ _ _ => True | _ => False end.

Definition is_notification (e : Event) : Prop :=
  match e with EvReloaded _ _ _ _ => True | _ => False end.

(** The state after the three [Put]s of a successful [Get] on a miss. *)
Definition interned (h : Z) (rd : SResourceDescriptor) (canonical_path : string)
    (f : SResourceFactory) : SResourceFactory :=
  let f1 := set_Resources (<[h := rd]> (m_Resources f)) f in
  let f2 := set_ResourceToHash (<[m_Resource rd := h]> (m_ResourceToHash f1)) f1 in
  match m_ResourceHashToFilename f2 with
  | Some filenames =>
      set_ResourceHashToFilename (Some (<[h := canonical_path]> filenames)) f2
  | None => f2
  end.

(** ** Sequences of calls *)

(** One [Get] of [name] for each world of the list: the world may change
    between two calls. *)
Fixpoint acquire_all (hash : string -> Z) (ws : list World) (name : string)
    : M (list (FactoryResult * Z)) :=
  match ws with
  | [] => ret []
  | w :: rest =>
      r <- Get hash w name ;;
      rs <- acquire_all hash rest name ;;
      ret (r :: rs)
  end.

Fixpoint release_n (resource : Z) (n : nat) : M unit :=
  match n with
  | O => skip
  | S k => Release resource ;; release_n resource k
  end.

(** The factory in which the descriptor under [h] has [count] references. *)
Definition with_count (h : Z) (rd : SResourceDescriptor) (count : Z)
    (f : SResourceFactory) : SResourceFactory :=
  set_Resources (<[h := set_ReferenceCount count rd]> (m_Resources f)) f.

(** The factory after the last [Release] of the resource under [h]. *)
Definition erased (h resource : Z) (f : SResourceFactory) : SResourceFactory :=
  set_ResourceHashToFilename
    ((fun filenames => delete h filenames) <$> m_ResourceHashToFilename f)
    (set_Resources (delete h (m_Resources f))
       (set_ResourceToHash (delete resource (m_ResourceToHash f)) f)).

(** What [ReloadResource] may add to the trace when [existing] is the
    descriptor found under the hash of the name: events of the transports,
    and calls of the recreate callback and of the observers with that
    descriptor and that name. *)
Definition reload_event (existing : option SResourceDescriptor) (name : string)
    (e : Event) : Prop :=
  match e with
  | EvRecreate _ _ _ _ rd n => existing = Some rd /\ n = name
  | EvReloaded _ _ rd n => existing = Some rd /\ n = name
  | EvCreate _ _ _ _ _ | EvDestroy _ _ _ => False
  | _ => True
  end.

(** ** Histories of the observer registry *)

Inductive ObserverCall : Set :=
| CallRegister (callback user_data : Z)
| CallUnregister (callback user_data : Z).

Definition observer_call (c : ObserverCall) : M unit :=
  match c with
  | CallRegister callback user_data =>
      RegisterResourceReloadedCallback callback user_data
  | CallUnregister callback user_data =>
      UnregisterResourceReloadedCallback callback user_data
  end.

Fixpoint observer_calls (cs : list ObserverCall) : M unit :=
  match cs with
  | [] => skip
  | c :: rest => observer_call c ;; observer_calls rest
  end.

Definition is_register (c : ObserverCall) : Prop :=
  match c with
  | CallRegister _ _ => True
  | CallUnregister _ _ => False
  end.

Definition same_observer (callback user_data : Z)
    (cb : ResourceReloadedCallbackPair) : bool :=
  (m_Callback cb =? callback) && (m_UserData cb =? user_data).

(** The specification's registry: the observers that were registered while
    there was room and not unregistered since, in the order of their
    registration. *)
Fixpoint registered_in_order (cs : list ObserverCall)
    (registered : list ResourceReloadedCallbackPair)
    : list ResourceReloadedCallbackPair :=
  match cs with
  | [] => registered
  | CallRegister callback user_data :: rest =>
      registered_in_order rest
        (if Z.of_nat (length registered) =? MAX_CALLBACKS
         then registered
         else registered
              ++ [{| m_Callback := callback; m_UserData := user_data |}])
  | CallUnregister callback user_data :: rest =>
      registered_in_order rest
        (List.filter (fun cb => negb (same_observer callback user_data cb))
           registered)
  end.

(** The calls of the observers that a reload of [name] with descriptor [rd]
    makes for the array [callbacks]. *)
Definition notifications (callbacks : list ResourceReloadedCallbackPair)
    (rd : SResourceDescriptor) (name : string) : list Event :=
  map (fun cb => EvReloaded (m_Callback cb) (m_UserData cb) rd name) callbacks.

(** ** Transports *)

Definition is_log (e : Event) : Prop :=
  match e with EvLog _ _ _ => True | _ => False end.

(** The stream buffer is the allocation of [NewFactory]:
    [m_StreamBufferSize + 1] bytes, the size a [uint32_t]. *)
Definition buffer_ok (f : SResourceFactory) : Prop :=
  0 <= m_StreamBufferSize f < 2 ^ 32
  /\ Z.of_nat (length (m_StreamBuffer f)) = m_StreamBufferSize f + 1.

(** The archive is absent or has no entry for the name. *)
Definition archive_misses (f : SResourceFactory) (original_name : string) : Prop :=
  match m_BuiltinsArchive f with
  | Some archive => FindEntry archive original_name = None
  | None => True
  end.

(** The lookup that [LoadResource] makes in the archive before it falls
    through. *)
Definition archive_lookup (f : SResourceFactory) (original_name : string)
    : list Event :=
  match m_BuiltinsArchive f with
  | Some _ => [EvFindEntry original_name]
  | None => []
  end.

(** The HTTP state between two callbacks of a GET: what has been streamed is
    in the buffer. *)
Definition http_ok (f : SResourceFactory) : Prop :=
  buffer_ok f /\ 0 <= m_HttpTotalBytesStreamed f <= m_StreamBufferSize f.

(** The record that the HTTP path logs when the announced length and the
    streamed length differ, and the one it logs when the terminator is the
    last byte of the buffer. *)
Definition length_mismatch_log (path : string) (f : SResourceFactory)
    : list Event :=
  if bool_decide (m_HttpContentLength f <> m_HttpTotalBytesStreamed f)
  then [EvLog LOG_SEVERITY_ERROR
          "Expected content length differs from actually streamed for resource %s (%d != %d)"
          [ArgS path; ArgD (m_HttpContentLength f);
           ArgD (m_HttpTotalBytesStreamed f)]]
  else [].

Definition too_large_log (path : string) (f : SResourceFactory) : list Event :=
  if m_StreamBufferSize f <=? wrap32 (m_HttpTotalBytesStreamed f + 1)
  then [EvLog LOG_SEVERITY_ERROR "Resource too large for streambuffer: %s"
          [ArgS path]]
  else [].

Definition is_warning (e : Event) : Prop :=
  match e with
  | EvLog LOG_SEVERITY_WARNING _ _ => True
  | _ => False
  end.

(** The handler of scenario S1 and the factory in which it is registered. *)
Definition txt_type (recreate : Z) : SResourceType :=
  {| m_Extension := "txt"; m_Context := 0; m_CreateFunction := 11;
     m_DestroyFunction := 12; m_RecreateFunction := recreate |}.

Definition txt_factory (client size : Z) (reload : bool)
    (archive : option HArchive) (recreate : Z) : SResourceFactory :=
  set_ResourceTypes [txt_type recreate]
    (sample_factory "/tmp/data" client size reload archive).

Definition hello : list byte := list_byte_of_string "hello".
Definition disk : list (string * list byte) := [("/tmp/data/a.txt", hello)].

(** The world of scenario S1: the file is on disk, the handlers succeed. *)
Definition disk_world : World :=
  sample_world disk no_http CREATE_RESULT_OK CREATE_RESULT_OK.

(** A world whose handlers fail with a format error. *)
Definition failing_world : World :=
  sample_world disk no_http CREATE_RESULT_FORMAT_ERROR CREATE_RESULT_FORMAT_ERROR.

(** A server that announces ten bytes and streams three. *)
Definition short_http (path : string) : list HttpCallback * HttpClientResult :=
  ([OnHeader 200 "Content-Length" "10";
    OnContent 200 (list_byte_of_string "abc")], HTTP_RESULT_OK).
Definition short_http_world : World :=
  sample_world disk short_http CREATE_RESULT_OK CREATE_RESULT_OK.

(** The archive of scenario S4, and one whose entry is larger than a stream
    buffer of eight bytes. *)
Definition embedded_archive : HArchive :=
  [("a.txt", list_byte_of_string "embedded")].
Definition large_archive : HArchive :=
  [("a.txt", list_byte_of_string "0123456789abcdef")].

(** ** Type ids

    A type id is the address of the handler's entry in [m_ResourceTypes],
    cut to 32 bits.  The address of the array and the size of an entry are
    those of the platform. *)
Record Layout : Type := {
  types_base : Z;
  sizeof_SResourceType : Z
}.

(** The address of [factory->m_ResourceTypes[i]]. *)
Definition type_address (lay : Layout) (i : nat) : Z :=
  types_base lay + Z.of_nat i * sizeof_SResourceType lay.

(** The second component is what is stored through [type] ([0] where the
    source stores nothing). *)
Definition GetType (lay : Layout) (resource : Z) : M (FactoryResult * Z) :=
  f <- factory ;;
  match m_ResourceToHash f !! resource with
  | None => ret (FACTORY_RESULT_NOT_LOADED, 0)
  | Some resource_hash =>
      match m_Resources f !! resource_hash with
      | None => abort
      | Some rd =>
          c_assert (0 <? m_ReferenceCount rd) ;;
          (* TODO: Not 64-bit friendly... *)
          ret (FACTORY_RESULT_OK,
               wrap32 (type_address lay (m_ResourceType rd)))
      end
  end.

Definition GetTypeFromExtension (lay : Layout) (f : SResourceFactory)
    (extension : string) : FactoryResult * Z :=
  match FindResourceType f extension with
  | Some resource_type =>
      (* TODO: Not 64-bit friendly... *)
      (FACTORY_RESULT_OK, wrap32 (type_address lay resource_type))
  | None => (FACTORY_RESULT_UNKNOWN_RESOURCE_TYPE, 0)
  end.

Fixpoint extension_from (lay : Layout) (i : nat) (types : list SResourceType)
    (type : Z) : option string :=
  match types with
  | [] => None
  | rt :: rest =>
      if type_address lay i =? type
      then Some (m_Extension rt)
      else extension_from lay (S i) rest type
  end.

(** The second component is what is stored through [extension]; [None] is
    the null pointer. *)
Definition GetExtensionFromType (lay : Layout) (f : SResourceFactory) (type : Z)
    : FactoryResult * option string :=
  match extension_from lay 0 (m_ResourceTypes f) type with
  | Some extension => (FACTORY_RESULT_OK, Some extension)
  | None => (FACTORY_RESULT_UNKNOWN_RESOURCE_TYPE, None)
  end.

(** ** Invariants

    What the assertions of [Get], [Release] and [GetType] rely on: every
    descriptor sits under its own hash, is referenced, has a live handler
    and a non-null resource whose address leads back to it; every address
    of the inverse table leads to a descriptor; the file names, when kept,
    are those of the descriptors. *)
Record factory_ok (f : SResourceFactory) : Prop := {
  ok_descriptor :
    forall h rd,
      m_Resources f !! h = Some rd ->
      m_NameHash rd = h
      /\ 0 < m_ReferenceCount rd < 2 ^ 32
      /\ m_Resource rd <> 0
      /\ m_ResourceToHash f !! m_Resource rd = Some h
      /\ is_Some (m_ResourceTypes f !! m_ResourceType rd);
  ok_address :
    forall a h,
      m_ResourceToHash f !! a = Some h ->
      exists rd, m_Resources f !! h = Some rd /\ m_Resource rd = a;
  ok_filename :
    forall filenames h,
      m_ResourceHashToFilename f = Some filenames ->
      (is_Some (filenames !! h) <-> is_Some (m_Resources f !! h))
}.

(** What [RegisterType] lets into the registry. *)
Record registry_ok (f : SResourceFactory) : Prop := {
  ok_count : m_ResourceTypesCount f <= MAX_RESOURCE_TYPES;
  ok_unique : NoDup (map m_Extension (m_ResourceTypes f));
  ok_handler :
    forall rt,
      In rt (m_ResourceTypes f) ->
      ~ contains_dot (m_Extension rt)
      /\ m_CreateFunction rt <> 0
      /\ m_DestroyFunction rt <> 0
}.

(** ** Sequences of calls of the interface *)

Inductive Call : Type :=
| CallRegisterType (extension : string) (context create destroy recreate : Z)
| CallGet (w : World) (name : string)
| CallRelease (resource : Z)
| CallReload (w : World) (name : string)
| CallObserver (c : ObserverCall).

Definition run_call (hash : string -> Z) (c : Call) : M unit :=
  match c with
  | CallRegisterType extension context create destroy recreate =>
      RegisterType extension context create destroy recreate ;; skip
  | CallGet w name => Get hash w name ;; skip
  | CallRelease resource => Release resource
  | CallReload w name => ReloadResource hash w name ;; skip
  | CallObserver c => observer_call c
  end.

Fixpoint run_calls (hash : string -> Z) (cs : list Call) : M unit :=
  match cs with
  | [] => skip
  | c :: rest => run_call hash c ;; run_calls hash rest
  end.

(** What a [Get] needs from its surroundings: a hit finds a count that can
    still grow, and the create callback of a miss hands out an address that
    no interned resource has. *)
Definition get_behaves (hash : string -> Z) (w : World) (name : string)
    (m : Machine) : bool :=
  match m_Resources (fst m) !! hash (GetCanonicalPath (m_Path (fst m)) name) with
  | Some rd => m_ReferenceCount rd <? 2 ^ 32 - 1
  | None =>
      match Get hash w name m with
      | Some ((FACTORY_RESULT_OK, resource), _) =>
          bool_decide (m_ResourceToHash (fst m) !! resource = None)
      | _ => true
      end
  end.

Definition call_behaves (hash : string -> Z) (c : Call) (m : Machine) : bool :=
  match c with
  | CallGet w name => get_behaves hash w name m
  | _ => true
  end.

(** Every call of the sequence behaves in the state in which it is made. *)
Fixpoint calls_behave (hash : string -> Z) (cs : list Call) (m : Machine)
    : bool :=
  match cs with
  | [] => true
  | c :: rest =>
      call_behaves hash c m
      && match run_call hash c m with
         | Some (_, m') => calls_behave hash rest m'
         | None => true
         end
  end.

(** The callbacks of the handlers that a trace shows are not null. *)
Definition handler_not_null (e : Event) : Prop :=
  match e with
  | EvCreate fn _ _ _ _ => fn <> 0
  | EvDestroy fn _ _ => fn <> 0
  | EvRecreate fn _ _ _ _ _ => fn <> 0
  | _ => True
  end.

(** The entries of the registry have addresses that fit in 32 bits. *)
Definition layout_32bit (lay : Layout) : Prop :=
  0 <= types_base lay
  /\ 0 < sizeof_SResourceType lay
  /\ types_base lay + MAX_RESOURCE_TYPES * sizeof_SResourceType lay <= 2 ^ 32.

(** A layout of a 32-bit and of a 64-bit process, and a registry of two
    handlers. *)
Definition layout32 : Layout :=
  {| types_base := 4096; sizeof_SResourceType := 20 |}.
Definition layout64 : Layout :=
  {| types_base := 2 ^ 32 + 4096; sizeof_SResourceType := 40 |}.
Definition png_type : SResourceType :=
  {| m_Extension := "png"; m_Context := 0; m_CreateFunction := 21;
     m_DestroyFunction := 22; m_RecreateFunction := 0 |}.
Definition two_types_factory : SResourceFactory :=
  set_ResourceTypes [txt_type 13; png_type]
    (sample_factory "/tmp/data" 0 64 true None).

(** A session on the factory of scenario S1: the handler is registered,
    the resource is acquired under two spellings of its name, reloaded,
    an observer is registered, and both references are released. *)
Definition sample_calls : list Call :=
  [CallRegisterType "txt" 0 11 12 13;
   CallGet disk_world "a.txt";
   CallGet disk_world "//a.txt";
   CallReload disk_world "a.txt";
   CallObserver (CallRegister 1 2);
   CallRelease 4096;
   CallRelease 4096].

(** The state of that session after the first acquire. *)
Definition acquired : Machine :=
  match run_calls sample_hash (take 2 sample_calls)
          (sample_factory "/tmp/data" 0 64 true None, []) with
  | Some (_, m) => m
  | None => (sample_factory "/tmp/data" 0 64 true None, [])
  end.

(** The body of a response: the chunks of its content callbacks, in order. *)
Fixpoint http_body (cbs : list HttpCallback) : list byte :=
  match cbs with
  | [] => []
  | OnHeader _ _ _ :: rest => http_body rest
  | OnContent _ content_data :: rest => content_data ++ http_body rest
  end.

(** The data that a handler is given ends with a terminator at [size]. *)
Definition terminated (e : Event) : Prop :=
  match e with
  | EvCreate _ _ buffer size _ | EvRecreate _ _ buffer size _ _ =>
      0 <= size /\ buffer !! Z.to_nat size = Some x00
  | _ => True
  end.

(** The results with which a load and an acquire return. *)
Definition load_results : list FactoryResult :=
  [FACTORY_RESULT_OK; FACTORY_RESULT_RESOURCE_NOT_FOUND;
   FACTORY_RESULT_IO_ERROR; FACTORY_RESULT_STREAMBUFFER_TOO_SMALL].
Definition get_results : list FactoryResult :=
  load_results
  ++ [FACTORY_RESULT_MISSING_FILE_EXTENSION;
      FACTORY_RESULT_UNKNOWN_RESOURCE_TYPE; FACTORY_RESULT_UNKNOWN].

(** A server that sends the given chunks, and a world with a file and
    that server. *)
Definition chunked_http (chunks : list (list byte)) (path : string)
    : list HttpCallback * HttpClientResult :=
  (map (OnContent 200) chunks, HTTP_RESULT_OK).
Definition chunked_world (chunks : list (list byte)) : World :=
  sample_world disk (chunked_http chunks) CREATE_RESULT_OK CREATE_RESULT_OK.

(** ** The HTTP server

    The callbacks that [NewFactory] hands to the server.  What a response
    sends with [dmHttpServer::Send] is the list it returns. *)

Definition dmLogInfo (format : string) (args : list LogArg) : M unit :=
  emit (EvLog LOG_SEVERITY_INFO format args).

(** A [uint32_t] read as the [int] that ["%d"] prints. *)
Definition as_int (z : Z) : Z := if z <? 2 ^ 31 then z else z - 2 ^ 32.

(** ["%d"]: the decimal digits, with a sign when negative. *)
Definition format_d (z : Z) : string := NilZero.string_of_int (Z.to_int (as_int z)).

Definition SentHtmlStatus (resource_hash : Z) (file_name : string)
    : M (list string) :=
  f <- factory ;;
  match m_Resources f !! resource_hash with
  | None => abort
  | Some rd =>
      let tmp := DM_SNPRINTF 32 (format_d (m_ReferenceCount rd)) in
      ret ["<td>"; file_name; "<td>"; tmp; "<tr/>"]
  end.

(** Modelled from the spec: [dmHashTable::Iterate] is declared in
    dlib/hashtable.h, which is not among the sources.  It calls the function
    once for every entry of the table, in an order that the table chooses;
    here that order is the one of [map_to_list]. *)
Fixpoint Iterate (call : Z -> string -> M (list string))
    (entries : list (Z * string)) : M (list string) :=
  match entries with
  | [] => ret []
  | (key, value) :: rest =>
      sent <- call key value ;;
      more <- Iterate call rest ;;
      ret (sent ++ more)
  end.

Definition HttpServerHeader (key value : string) : M unit := skip.

Section HttpServer.

Variable dmHashBuffer64 : string -> Z.

(** The numbers of the values of [ReloadResult], which resource.h
    declares. *)
Variable reload_result_number : ReloadResult -> Z.

Definition HttpServerResponse (w : World) (resource : string)
    : M (list string) :=
  match strip_prefix "/reload/" resource with
  | Some name =>
      reloaded <- ReloadResource dmHashBuffer64 w name ;;
      let result := fst reloaded in
      let descriptor := snd reloaded in
      match result with
      | RELOAD_RESULT_OK =>
          dmLogInfo "%s was successfully reloaded." [ArgS name]
      | RELOAD_RESULT_OUT_OF_MEMORY =>
          dmLogError "Not enough memory to reload %s." [ArgS name]
      | RELOAD_RESULT_FORMAT_ERROR
      | RELOAD_RESULT_CONSTANT_ERROR =>
          dmLogError "%s has invalid format and could not be reloaded."
            [ArgS name]
      | RELOAD_RESULT_NOT_FOUND =>
          dmLogError
            "%s could not be reloaded since it was never loaded before."
            [ArgS name]
      | RELOAD_RESULT_LOAD_ERROR =>
          dmLogError "%s could not be loaded, reloading failed." [ArgS name]
      | RELOAD_RESULT_NOT_SUPPORTED =>
          match descriptor with
          | Some rd =>
              resource_type <- type_at (m_ResourceType rd) ;;
              dmLogWarning "Reloading of resource type %s not supported."
                [ArgS (m_Extension resource_type)]
          | None => abort
          end
      | RELOAD_RESULT_UNKNOWN =>
          dmLogWarning "%s could not be reloaded, unknown error: %d."
            [ArgS name; ArgD (reload_result_number result)]
      end ;;
      ret []
  | None =>
      if String.eqb "/" resource
      then
        f <- factory ;;
        match m_ResourceHashToFilename f with
        | Some filenames =>
            let th :=
              "<td><b>Filename</b></td><td><b>Reference count</b></td><tr/>" in
            rows <- Iterate SentHtmlStatus (map_to_list filenames) ;;
            ret (["<table>"; th] ++ rows ++ ["</table>"])
        | None => ret []
        end
      else ret []
  end.

End HttpServer.

(** The severity of the record that a reload request logs. *)
Definition reload_severity (result : ReloadResult) : Severity :=
  match result with
  | RELOAD_RESULT_OK => LOG_SEVERITY_INFO
  | RELOAD_RESULT_NOT_SUPPORTED | RELOAD_RESULT_UNKNOWN => LOG_SEVERITY_WARNING
  | _ => LOG_SEVERITY_ERROR
  end.

(** The rows of the status page for the entries of the file name table. *)
Definition status_row (f : SResourceFactory) (entry : Z * string) : list string :=
  match m_Resources f !! fst entry with
  | Some rd =>
      ["<td>"; snd entry; "<td>";
       DM_SNPRINTF 32 (format_d (m_ReferenceCount rd)); "<tr/>"]
  | None => []
  end.

(** A stand-in for the numbers of resource.h. *)
Definition sample_numbers (result : ReloadResult) : Z :=
  match result with
  | RELOAD_RESULT_OK => 0
  | RELOAD_RESULT_OUT_OF_MEMORY => -1
  | RELOAD_RESULT_FORMAT_ERROR => -2
  | RELOAD_RESULT_CONSTANT_ERROR => -3
  | RELOAD_RESULT_NOT_FOUND => -4
  | RELOAD_RESULT_LOAD_ERROR => -5
  | RELOAD_RESULT_NOT_SUPPORTED => -6
  | RELOAD_RESULT_UNKNOWN => -1000
  end.

Section Update.

Variable dmHashBuffer64 : string -> Z.
Variable reload_result_number : ReloadResult -> Z.

(** Modelled from the spec: [dmHttpServer::Update] is declared in
    dlib/http_server.h, which is not among the sources.  It processes
    whatever the server has ready: for each request, in their order, it
    calls the response callback that [NewFactory] gave it. *)
Fixpoint dmHttpServer_Update (w : World) (ready : list string) : M unit :=
  match ready with
  | [] => skip
  | resource :: rest =>
      HttpServerResponse dmHashBuffer64 reload_result_number w resource ;;
      dmHttpServer_Update w rest
  end.

Definition UpdateFactory (w : World) (ready : list string) : M unit :=
  f <- factory ;;
  if negb (m_HttpServer f =? 0)
  then dmHttpServer_Update w ready
  else skip.

End Update.

(** The events that leave the set of interned resources alone. *)
Definition in_place (e : Event) : Prop :=
  match e with
  | EvCreate _ _ _ _ _ | EvDestroy _ _ _ => False
  | _ => True
  end.

(** The same state on a factory with an HTTP server. *)
Definition served : Machine :=
  match NewFactory sample_platform
          (sample_params RESOURCE_FACTORY_FLAGS_HTTP_SERVER 64 None)
          "file:///tmp/data" with
  | (Some f, log) =>
      match run_calls sample_hash (take 2 sample_calls) (f, log) with
      | Some (_, m) => m
      | None => (f, log)
      end
  | (None, _) => acquired
  end.

(** * Properties *)

(** ** Canonical paths *)

Lemma str_take_all (s : string) (n : nat) :
  (String.length s <= n)%nat -> str_take n s = s.
Proof.
  revert n; induction s as [|a s IH]; intros [|n] Hn; simpl in *;
    try reflexivity; try lia.
  f_equal. apply IH. lia.
Qed.

Lemma length_append (s1 s2 : string) :
  String.length (s1 +:+ s2) = (String.length s1 + String.length s2)%nat.
Proof. induction s1 as [|a s1 IH]; simpl; [reflexivity | now rewrite IH]. Qed.

Lemma snprintf_fits (base rel : string) :
  Z.of_nat (String.length base) + 1 + Z.of_nat (String.length rel)
    < RESOURCE_PATH_MAX ->
  DM_SNPRINTF RESOURCE_PATH_MAX (base +:+ "/" +:+ rel) = base +:+ "/" +:+ rel.
Proof.
  intros H. unfold DM_SNPRINTF. apply str_take_all.
  rewrite !length_append. unfold RESOURCE_PATH_MAX in *. simpl. lia.
Qed.

(** The loop and the specification's function agree once a first character
    has been read. *)
Lemma collapse_runs_cons (c : ascii) (s : string) :
  collapse_runs (String c s) = String c (collapse_loop c s).
Proof.
  revert c; induction s as [|d s IH]; intros c; [reflexivity|].
  change (collapse_runs (String c (String d s)))
    with (if Ascii.eqb c slash && Ascii.eqb d slash
          then collapse_runs (String d s)
          else String c (collapse_runs (String d s))).
  rewrite IH. simpl.
  destruct (Ascii.eqb_spec d slash) as [->|Hd];
    destruct (Ascii.eqb_spec c slash) as [->|Hc]; simpl; reflexivity.
Qed.

Lemma collapse_loop_runs (s : string) : collapse_loop zero s = collapse_runs s.
Proof.
  destruct s as [|c s]; [reflexivity|].
  rewrite collapse_runs_cons. simpl.
  destruct (Ascii.eqb_spec c slash) as [->|Hc]; reflexivity.
Qed.

Lemma GetCanonicalPath_spec (base rel : string) :
  Z.of_nat (String.length base) + 1 + Z.of_nat (String.length rel)
    < RESOURCE_PATH_MAX ->
  GetCanonicalPath base rel = canonicalize_spec base rel.
Proof.
  intros H. unfold GetCanonicalPath, canonicalize_spec.
  rewrite snprintf_fits by exact H. apply collapse_loop_runs.
Qed.

Lemma collapse_loop_app (c : ascii) (s1 s2 : string) :
  collapse_loop c (s1 +:+ s2)
  = collapse_loop c s1 +:+ collapse_loop (last_char c s1) s2.
Proof.
  revert c; induction s1 as [|a s1 IH]; intros c; simpl; [reflexivity|].
  destruct (negb (Ascii.eqb a slash)
            || Ascii.eqb a slash && negb (Ascii.eqb c slash));
    simpl; now rewrite IH.
Qed.

Lemma collapse_loop_idem (s : string) (c : ascii) :
  collapse_loop c (collapse_loop c s) = collapse_loop c s.
Proof.
  revert c; induction s as [|d s IH]; intros c; simpl; [reflexivity|].
  destruct (Ascii.eqb d slash) eqn:Hd, (Ascii.eqb c slash) eqn:Hc; simpl;
    try (rewrite Hd, ?Hc; simpl; f_equal; apply IH).
  apply Ascii.eqb_eq in Hd, Hc. subst. apply IH.
Qed.

Lemma collapse_loop_length (s : string) (c : ascii) :
  (String.length (collapse_loop c s) <= String.length s)%nat.
Proof.
  revert c; induction s as [|d s IH]; intros c; simpl; [lia|].
  destruct (negb (Ascii.eqb d slash)
            || Ascii.eqb d slash && negb (Ascii.eqb c slash));
    simpl; specialize (IH d); lia.
Qed.

Lemma strip_prefix_app (base s : string) : strip_prefix base (base +:+ s) = Some s.
Proof.
  induction base as [|a base IH]; simpl; [reflexivity|].
  now rewrite Ascii.eqb_refl.
Qed.

(** What is stored for the separator and the relative part. *)
Lemma collapse_loop_separator (c : ascii) (rel : string) :
  collapse_loop c ("/" +:+ collapse_loop c ("/" +:+ rel))
  = collapse_loop c ("/" +:+ rel).
Proof.
  change ("/" +:+ rel) with (String slash rel).
  destruct (Ascii.eqb c slash) eqn:Hc.
  - apply Ascii.eqb_eq in Hc. subst c.
    change (collapse_loop slash (String slash rel)) with (collapse_loop slash rel).
    change (collapse_loop slash ("/" +:+ collapse_loop slash rel))
      with (collapse_loop slash (collapse_loop slash rel)).
    apply collapse_loop_idem.
  - assert (Hk : forall r, collapse_loop c (String slash r)
                           = String slash (collapse_loop slash r)).
    { intros r. simpl. rewrite Hc. reflexivity. }
    rewrite Hk.
    change ("/" +:+ String slash (collapse_loop slash rel))
      with (String slash (String slash (collapse_loop slash rel))).
    rewrite Hk.
    change (collapse_loop slash (String slash (collapse_loop slash rel)))
      with (collapse_loop slash (collapse_loop slash rel)).
    now rewrite collapse_loop_idem.
Qed.

Lemma GetCanonicalPath_prefix (base rel : string) :
  Z.of_nat (String.length base) + 1 + Z.of_nat (String.length rel)
    < RESOURCE_PATH_MAX ->
  GetCanonicalPath base rel
  = collapse_runs base +:+ collapse_loop (last_char zero base) ("/" +:+ rel).
Proof.
  intros Hlen. unfold GetCanonicalPath.
  rewrite snprintf_fits by exact Hlen.
  now rewrite collapse_loop_app, collapse_loop_runs.
Qed.

Lemma GetCanonicalPath_stable (base rel : string) :
  Z.of_nat (String.length base) + 2 + Z.of_nat (String.length rel)
    < RESOURCE_PATH_MAX ->
  strip_prefix (collapse_runs base) (GetCanonicalPath base rel)
    = Some (strip_base (collapse_runs base) (GetCanonicalPath base rel))
  /\ GetCanonicalPath base
       (strip_base (collapse_runs base) (GetCanonicalPath base rel))
     = GetCanonicalPath base rel.
Proof.
  intros Hlen.
  rewrite (GetCanonicalPath_prefix base rel) by lia.
  unfold strip_base. rewrite strip_prefix_app. split; [reflexivity|].
  rewrite GetCanonicalPath_prefix; [now rewrite collapse_loop_separator|].
  pose proof (collapse_loop_length ("/" +:+ rel) (last_char zero base)) as Hl.
  change (String.length ("/" +:+ rel)) with (S (String.length rel)) in Hl.
  unfold RESOURCE_PATH_MAX in *. lia.
Qed.

Example GetCanonicalPath_sample :
  GetCanonicalPath "/tmp//data/" "/a//b.txt" = "/tmp/data/a/b.txt".
Proof. reflexivity. Qed.

(** C4, as amended.  When [base], the separator and [rel] fit in
    [RESOURCE_PATH_MAX], [GetCanonicalPath base rel] is [base + "/" + rel]
    with every run of slashes collapsed to one; the function takes no
    [World], it reads no file.  When one more character fits, the result
    starts with the collapsed base, and the canonical path of the rest
    under [base] is the same path again; the collapsed base is [base] itself
    when [base] has no run of slashes, so that stripping [base] then gives
    that rest. *)
Theorem GetCanonicalPath_collapses_and_is_stable (base rel : string) :
  Z.of_nat (String.length base) + 1 + Z.of_nat (String.length rel)
    < RESOURCE_PATH_MAX ->
  GetCanonicalPath base rel = canonicalize_spec base rel
  /\ (Z.of_nat (String.length base) + 2 + Z.of_nat (String.length rel)
        < RESOURCE_PATH_MAX ->
      strip_prefix (collapse_runs base) (GetCanonicalPath base rel)
        = Some (strip_base (collapse_runs base) (GetCanonicalPath base rel))
      /\ GetCanonicalPath base
           (strip_base (collapse_runs base) (GetCanonicalPath base rel))
         = GetCanonicalPath base rel
      /\ (no_slash_run base ->
          GetCanonicalPath base (strip_base base (GetCanonicalPath base rel))
          = GetCanonicalPath base rel)).
Proof.
  intros Hlen. split.
  - now apply GetCanonicalPath_spec.
  - intros Hlen2.
    destruct (GetCanonicalPath_stable base rel Hlen2) as [Hstrip Hagain].
    split; [exact Hstrip|]. split; [exact Hagain|].
    intros Hbase. unfold no_slash_run in Hbase. now rewrite Hbase in Hagain.
Qed.

Lemma GetCanonicalPath_collapses_and_is_stable_witness :
  GetCanonicalPath "/tmp//data" "sub//a.txt" = "/tmp/data/sub/a.txt"
  /\ canonicalize_spec "/tmp//data" "sub//a.txt" = "/tmp/data/sub/a.txt"
  /\ strip_base (collapse_runs "/tmp//data")
       (GetCanonicalPath "/tmp//data" "sub//a.txt")
     = "/sub/a.txt"
  /\ GetCanonicalPath "/tmp//data"
       (strip_base (collapse_runs "/tmp//data")
          (GetCanonicalPath "/tmp//data" "sub//a.txt"))
     = GetCanonicalPath "/tmp//data" "sub//a.txt"
  /\ GetCanonicalPath "/tmp/data"
       (strip_base "/tmp/data" (GetCanonicalPath "/tmp/data" "sub//a.txt"))
     = GetCanonicalPath "/tmp/data" "sub//a.txt".
Proof.
  destruct (GetCanonicalPath_collapses_and_is_stable "/tmp//data" "sub//a.txt")
    as [Hspec Hstable]; [reflexivity|].
  destruct Hstable as (_ & Hagain & _); [reflexivity|].
  destruct (GetCanonicalPath_collapses_and_is_stable "/tmp/data" "sub//a.txt")
    as [_ Hstable']; [reflexivity|].
  destruct Hstable' as (_ & _ & Hliteral); [reflexivity|].
  split; [reflexivity|]. split; [reflexivity|]. split; [reflexivity|].
  split; [exact Hagain|]. exact (Hliteral eq_refl).
Defined.

(** C4 as it is written fails in two ways.  At the length limit the second
    canonicalization is cut by [DM_SNPRINTF]: the stripped rest carries the
    separator, so one more character is formatted than the first time, and
    the last character of the name is lost.  And on a base path that has a
    run of slashes the canonical path no longer starts with the base:
    canonicalizing it under the base again gives another path. *)
Lemma GetCanonicalPath_not_stable :
  (Z.of_nat (String.length "b") + 1
   + Z.of_nat (String.length (str_repeat "r" 1021)) < RESOURCE_PATH_MAX
   /\ no_slash_run "b"
   /\ GetCanonicalPath "b" (str_repeat "r" 1021)
      = "b/" +:+ str_repeat "r" 1021
   /\ strip_base "b" (GetCanonicalPath "b" (str_repeat "r" 1021))
      = "/" +:+ str_repeat "r" 1021
   /\ GetCanonicalPath "b"
        (strip_base "b" (GetCanonicalPath "b" (str_repeat "r" 1021)))
      = "b/" +:+ str_repeat "r" 1020
   /\ GetCanonicalPath "b"
        (strip_base "b" (GetCanonicalPath "b" (str_repeat "r" 1021)))
      <> GetCanonicalPath "b" (str_repeat "r" 1021))
  /\ (Z.of_nat (String.length "a//b") + 1 + Z.of_nat (String.length "c")
      < RESOURCE_PATH_MAX
      /\ GetCanonicalPath "a//b" "c" = "a/b/c"
      /\ strip_prefix "a//b" (GetCanonicalPath "a//b" "c") = None
      /\ GetCanonicalPath "a//b"
           (strip_base "a//b" (GetCanonicalPath "a//b" "c"))
         = "a/b/a/b/c"
      /\ GetCanonicalPath "a//b"
           (strip_base "a//b" (GetCanonicalPath "a//b" "c"))
         <> GetCanonicalPath "a//b" "c").
Proof.
  split.
  - split; [vm_compute; reflexivity|]. split; [reflexivity|].
    split; [vm_compute; reflexivity|]. split; [vm_compute; reflexivity|].
    split; [vm_compute; reflexivity|].
    intros H. apply (f_equal String.length) in H. vm_compute in H.
    discriminate.
  - repeat split; try reflexivity. vm_compute. discriminate.
Qed.

(** One character more than the limit allows: the last character of the
    relative name is cut. *)
Lemma GetCanonicalPath_cut_at_limit :
  let rel := str_repeat "r" 1022 in
  Z.of_nat (String.length "b") + 1 + Z.of_nat (String.length rel)
    = RESOURCE_PATH_MAX
  /\ String.length (canonicalize_spec "b" rel) = 1024%nat
  /\ String.length (GetCanonicalPath "b" rel) = 1023%nat.
Proof. repeat split; vm_compute; reflexivity. Qed.

(** ** The monad *)

Lemma bind_Some {A B} (c : M A) (k : A -> M B) (m : Machine) (r : B * Machine) :
  bind c k m = Some r <->
  exists a m', c m = Some (a, m') /\ k a m' = Some r.
Proof.
  unfold bind. split.
  - destruct (c m) as [[a m']|]; [eauto | discriminate].
  - intros (a & m' & -> & Hk). exact Hk.
Qed.

Lemma NewFactory_sample_file (size : Z) (archive : option HArchive) :
  NewFactory sample_platform (sample_params RESOURCE_FACTORY_FLAGS_EMPTY size archive)
    "file:///tmp/data"
  = (Some (sample_factory "/tmp/data" 0 size false archive), []).
Proof. reflexivity. Qed.

Lemma NewFactory_sample_reload (size : Z) (archive : option HArchive) :
  NewFactory sample_platform
    (sample_params RESOURCE_FACTORY_FLAGS_RELOAD_SUPPORT size archive)
    "file:///tmp/data"
  = (Some (sample_factory "/tmp/data" 0 size true archive), []).
Proof. reflexivity. Qed.

Lemma NewFactory_sample_http (size : Z) (archive : option HArchive) :
  NewFactory sample_platform (sample_params RESOURCE_FACTORY_FLAGS_EMPTY size archive)
    "http://localhost:8000/data"
  = (Some (sample_factory "/data" 7 size false archive), []).
Proof. reflexivity. Qed.

(** ** The handler registry *)

Lemma strrchr_None (s : string) (c : ascii) :
  strrchr s c = None <-> ~ In c (list_ascii_of_string s).
Proof.
  induction s as [|a s IH]; simpl; [tauto|].
  destruct (strrchr s c) as [t|].
  - split; [discriminate|]. intros H. exfalso. apply H. right.
    destruct (in_dec ascii_dec c (list_ascii_of_string s)) as [Hin|Hn]; [exact Hin|].
    apply IH in Hn. discriminate.
  - destruct (Ascii.eqb_spec a c) as [->|Hne].
    + split; [discriminate|]. intros H. exfalso. apply H. now left.
    + split; [|reflexivity]. intros _ [Heq|Hin]; [contradiction|].
      now apply (proj1 IH).
Qed.

Lemma find_type_from_None (types : list SResourceType) (extension : string)
    (i : nat) :
  find_type_from i types extension = None <->
  ~ exists rt, In rt types /\ m_Extension rt = extension.
Proof.
  revert i; induction types as [|rt types IH]; intros i; simpl.
  - split; [|reflexivity]. intros _ (rt & [] & _).
  - destruct (String.eqb_spec extension (m_Extension rt)) as [->|Hne].
    + split; [discriminate|]. intros H. exfalso. apply H. eauto.
    + rewrite IH. split.
      * intros H (rt' & [<-|Hin] & Hext); [congruence|]. apply H. eauto.
      * intros H (rt' & Hin & Hext). apply H. eauto.
Qed.

Lemma find_type_from_Some (types : list SResourceType) (extension : string)
    (i j : nat) :
  find_type_from i types extension = Some j ->
  exists rt,
    types !! (j - i)%nat = Some rt /\ m_Extension rt = extension /\ (i <= j)%nat.
Proof.
  revert i; induction types as [|rt types IH]; intros i; simpl; [discriminate|].
  destruct (String.eqb_spec extension (m_Extension rt)) as [->|Hne].
  - intros [= <-]. exists rt. rewrite Nat.sub_diag. simpl. auto.
  - intros H. destruct (IH _ H) as (rt' & Hl & Hext & Hle).
    exists rt'. replace (j - i)%nat with (S (j - S i)) by lia. simpl.
    split; [exact Hl|]. split; [exact Hext | lia].
Qed.

Lemma strrchr_found (s : string) (c : ascii) :
  strrchr s c <> None <-> In c (list_ascii_of_string s).
Proof.
  pose proof (strrchr_None s c) as H.
  destruct (in_dec ascii_dec c (list_ascii_of_string s)) as [Hin|Hn].
  - split; [auto|]. intros _ E. apply H in E. contradiction.
  - split; [|contradiction]. intros E. apply H in Hn. contradiction.
Qed.

Lemma FindResourceType_found (f : SResourceFactory) (extension : string) :
  FindResourceType f extension <> None <-> has_entry f extension.
Proof.
  unfold FindResourceType, has_entry.
  pose proof (find_type_from_None (m_ResourceTypes f) extension 0) as H.
  destruct (find_type_from 0 (m_ResourceTypes f) extension) as [j|] eqn:E.
  - split; [|discriminate]. intros _.
    destruct (find_type_from_Some _ _ _ _ E) as (rt & Hl & Hext & _).
    exists rt. split; [|exact Hext].
    apply list_elem_of_In. eapply list_elem_of_lookup_2. exact Hl.
  - split; [congruence|]. intros Hex. exfalso. now apply (proj1 H).
Qed.

(** C8, as amended.  [RegisterType] always returns, and its checks are made
    in this order: a registry that holds [MAX_RESOURCE_TYPES] entries gives
    [OUT_OF_RESOURCES] whatever the arguments; otherwise an extension with a
    dot or an absent create or destroy callback gives [INVAL]; otherwise an
    extension that has an entry gives [ALREADY_REGISTERED]; otherwise the
    entry is appended and the result is [OK].  Nothing is logged, and the
    factory changes in the last case only. *)
Theorem RegisterType_checks_in_order (f : SResourceFactory) (t : list Event)
    (extension : string) (context create destroy recreate : Z) :
  exists res f',
    RegisterType extension context create destroy recreate (f, t)
      = Some (res, (f', t))
    /\ (m_ResourceTypesCount f = MAX_RESOURCE_TYPES ->
        res = FACTORY_RESULT_OUT_OF_RESOURCES /\ f' = f)
    /\ (m_ResourceTypesCount f <> MAX_RESOURCE_TYPES ->
        contains_dot extension \/ create = 0 \/ destroy = 0 ->
        res = FACTORY_RESULT_INVAL /\ f' = f)
    /\ (m_ResourceTypesCount f <> MAX_RESOURCE_TYPES ->
        ~ (contains_dot extension \/ create = 0 \/ destroy = 0) ->
        has_entry f extension ->
        res = FACTORY_RESULT_ALREADY_REGISTERED /\ f' = f)
    /\ (m_ResourceTypesCount f <> MAX_RESOURCE_TYPES ->
        ~ (contains_dot extension \/ create = 0 \/ destroy = 0) ->
        ~ has_entry f extension ->
        res = FACTORY_RESULT_OK
        /\ f' = set_ResourceTypes
                  (m_ResourceTypes f
                   ++ [{| m_Extension := extension; m_Context := context;
                          m_CreateFunction := create;
                          m_DestroyFunction := destroy;
                          m_RecreateFunction := recreate |}]) f).
Proof.
  unfold RegisterType, bind, factory, ret, update. simpl.
  destruct (Z.eqb_spec (m_ResourceTypesCount f) MAX_RESOURCE_TYPES) as [Hfull|Hfull].
  { eexists _, _. split; [reflexivity|]. tauto. }
  pose proof (strrchr_found extension dot) as Hdot.
  pose proof (FindResourceType_found f extension) as Hfind.
  unfold contains_dot.
  case_bool_decide.
  { eexists _, _. split; [reflexivity|]. tauto. }
  destruct (Z.eqb_spec create 0) as [Hc|Hc]; simpl.
  { eexists _, _. split; [reflexivity|]. tauto. }
  destruct (Z.eqb_spec destroy 0) as [Hd|Hd]; simpl.
  { eexists _, _. split; [reflexivity|]. tauto. }
  case_bool_decide.
  - eexists _, _. split; [reflexivity|]. tauto.
  - eexists _, _. split; [reflexivity|]. tauto.
Qed.

(** C8 as it is written fails on a full registry: after 128 registrations an
    extension with a dot and without callbacks is answered with
    [OUT_OF_RESOURCES], not [INVAL]; and on a registry with room, an
    extension that has an entry is answered with [INVAL], not
    [ALREADY_REGISTERED], when a callback is absent. *)
Lemma RegisterType_full_registry_hides_invalid :
  exists f f1,
    register_many 128 (sample_factory "/tmp/data" 0 64 false None, [])
      = Some (tt, (f, []))
    /\ m_ResourceTypesCount f = MAX_RESOURCE_TYPES
    /\ contains_dot "a.b"
    /\ RegisterType "a.b" 0 0 0 0 (f, [])
       = Some (FACTORY_RESULT_OUT_OF_RESOURCES, (f, []))
    /\ register_many 1 (sample_factory "/tmp/data" 0 64 false None, [])
       = Some (tt, (f1, []))
    /\ has_entry f1 "x"
    /\ RegisterType "x" 0 0 2 0 (f1, []) = Some (FACTORY_RESULT_INVAL, (f1, [])).
Proof.
  eexists _, _.
  split; [vm_compute; reflexivity|].
  split; [vm_compute; reflexivity|].
  split; [unfold contains_dot; simpl; auto|].
  split; [vm_compute; reflexivity|].
  split; [vm_compute; reflexivity|].
  split; [|vm_compute; reflexivity].
  eexists. split; [left; reflexivity | reflexivity].
Qed.

(** ** Frame of the transport loader *)

Lemma loader_frame_refl (f : SResourceFactory) : loader_frame f f.
Proof. constructor; reflexivity. Qed.

Lemma loader_frame_trans (f1 f2 f3 : SResourceFactory) :
  loader_frame f1 f2 -> loader_frame f2 f3 -> loader_frame f1 f3.
Proof. intros [] []. constructor; congruence. Qed.

Lemma machine_frame_refl (P : Event -> Prop) (m : Machine) : machine_frame P m m.
Proof.
  split; [apply loader_frame_refl|]. exists []. now rewrite app_nil_r.
Qed.

Lemma machine_frame_trans (P : Event -> Prop) (m1 m2 m3 : Machine) :
  machine_frame P m1 m2 -> machine_frame P m2 m3 -> machine_frame P m1 m3.
Proof.
  intros [H1 (e1 & E1 & F1)] [H2 (e2 & E2 & F2)]. split.
  - eapply loader_frame_trans; eassumption.
  - exists (e1 ++ e2). rewrite E2, E1, app_assoc. split; [reflexivity|].
    apply Forall_app. auto.
Qed.

Lemma preserves_ret {A} (P : Event -> Prop) (a : A) :
  preserves (machine_frame P) (ret a).
Proof. intros m a' m' [= _ <-]. apply machine_frame_refl. Qed.

Lemma preserves_abort {A} (R : Machine -> Machine -> Prop) :
  preserves R (@abort A).
Proof. intros m a m' [=]. Qed.

Lemma preserves_bind {A B} (P : Event -> Prop) (c : M A) (k : A -> M B) :
  preserves (machine_frame P) c ->
  (forall a, preserves (machine_frame P) (k a)) ->
  preserves (machine_frame P) (bind c k).
Proof.
  intros Hc Hk m b m' H. apply bind_Some in H. destruct H as (a & m1 & H1 & H2).
  eapply machine_frame_trans; [eapply Hc | eapply Hk]; eassumption.
Qed.

Lemma preserves_factory (P : Event -> Prop) : preserves (machine_frame P) factory.
Proof. intros m a m' [= _ <-]. apply machine_frame_refl. Qed.

Lemma preserves_emit (P : Event -> Prop) (e : Event) :
  P e -> preserves (machine_frame P) (emit e).
Proof.
  intros He [f t] a m' [= _ <-]. split; [apply loader_frame_refl|].
  exists [e]. split; [reflexivity|]. now constructor.
Qed.

Lemma preserves_c_assert (P : Event -> Prop) (b : bool) :
  preserves (machine_frame P) (c_assert b).
Proof. destruct b; [apply preserves_ret | apply preserves_abort]. Qed.

Lemma preserves_update (P : Event -> Prop)
    (g : SResourceFactory -> SResourceFactory) :
  (forall f, loader_frame f (g f)) -> preserves (machine_frame P) (update g).
Proof.
  intros Hg [f t] a m' [= _ <-]. split; [apply Hg|].
  exists []. now rewrite app_nil_r.
Qed.

Lemma buffer_write_length (offset : Z) (data buf buf' : list byte) :
  buffer_write offset data buf = Some buf' -> length buf' = length buf.
Proof.
  unfold buffer_write.
  destruct (0 <=? offset) eqn:H0; [|discriminate].
  destruct (offset + Z.of_nat (length data) <=? Z.of_nat (length buf)) eqn:H1;
    [|discriminate].
  simpl. intros [= <-]. rewrite !length_app, length_take, length_drop. lia.
Qed.

Lemma preserves_store (P : Event -> Prop) (offset : Z) (data : list byte) :
  preserves (machine_frame P) (store offset data).
Proof.
  intros [f t] a m' H. unfold store, bind, factory, update, abort in H.
  simpl in H.
  destruct (buffer_write offset data (m_StreamBuffer f)) as [buf|] eqn:E;
    [|discriminate].
  injection H as _ <-. split.
  - constructor; try reflexivity. simpl. eapply buffer_write_length, E.
  - exists []. now rewrite app_nil_r.
Qed.

Ltac frame_step :=
  first
    [ apply preserves_ret
    | apply preserves_abort
    | apply preserves_factory
    | apply preserves_c_assert
    | apply preserves_store
    | apply preserves_emit; exact I
    | apply preserves_update; intros ?; constructor; reflexivity
    | apply preserves_bind; [|intros ?] ].

Ltac frame_run :=
  repeat first
    [ frame_step
    | match goal with
      | |- preserves _ (if ?b then _ else _) => destruct b
      | |- preserves _ (match ?x with _ => _ end) => destruct x
      end ].

Lemma preserves_HttpHeader (w : World) (status : Z) (key value : string) :
  preserves (machine_frame transport_event) (HttpHeader w status key value).
Proof. unfold HttpHeader, skip. frame_run. Qed.

Lemma preserves_HttpContent (status : Z) (data : list byte) :
  preserves (machine_frame transport_event) (HttpContent status data).
Proof. unfold HttpContent. frame_run. Qed.

Lemma preserves_http_callbacks (w : World) (cbs : list HttpCallback) :
  preserves (machine_frame transport_event) (http_callbacks w cbs).
Proof.
  induction cbs as [|cb cbs IH]; simpl; [apply preserves_ret|].
  apply preserves_bind; [|intros _; exact IH].
  destruct cb; [apply preserves_HttpHeader | apply preserves_HttpContent].
Qed.

Lemma preserves_LoadFromArchive (path name : string) :
  preserves (machine_frame transport_event) (LoadFromArchive path name).
Proof. unfold LoadFromArchive, dmLogError. frame_run. Qed.

Lemma preserves_LoadOverHttp (w : World) (path : string) :
  preserves (machine_frame transport_event) (LoadOverHttp w path).
Proof.
  unfold LoadOverHttp, dmHttpClient_Get, dmLogError, dmLogWarning, skip.
  apply preserves_bind; [frame_run|]. intros _.
  apply preserves_bind.
  { apply preserves_bind; [frame_run|]. intros _.
    apply preserves_bind; [apply preserves_http_callbacks|]. intros _.
    frame_run. }
  intros r. frame_run.
Qed.

Lemma preserves_LoadFromFile (w : World) (path : string) :
  preserves (machine_frame transport_event) (LoadFromFile w path).
Proof. unfold LoadFromFile, dmLogError. frame_run. Qed.

Lemma preserves_LoadResource (w : World) (path name : string) :
  preserves (machine_frame transport_event) (LoadResource w path name).
Proof.
  unfold LoadResource.
  apply preserves_bind; [apply preserves_LoadFromArchive|]. intros [r|].
  - apply preserves_ret.
  - apply preserves_bind; [apply preserves_factory|]. intros f.
    destruct (negb (m_HttpClient f =? 0));
      [apply preserves_LoadOverHttp | apply preserves_LoadFromFile].
Qed.

(** ** Acquire *)

Ltac run_in H :=
  repeat (progress (unfold bind, factory, ret, update, emit, c_assert, abort,
                      skip, dmLogError, dmLogWarning in H; simpl in H)).

Ltac bools :=
  repeat match goal with
    | H : bool_decide _ = true |- _ => apply bool_decide_eq_true in H
    | H : bool_decide _ = false |- _ => apply bool_decide_eq_false in H
    | H : negb _ = true |- _ => apply negb_true_iff in H
    | H : negb _ = false |- _ => apply negb_false_iff in H
    | H : (_ =? _) = true |- _ => apply Z.eqb_eq in H
    | H : (_ =? _) = false |- _ => apply Z.eqb_neq in H
    | H : (_ <? _) = true |- _ => apply Z.ltb_lt in H
    | H : (_ <? _) = false |- _ => apply Z.ltb_ge in H
    | H : (_ <=? _) = true |- _ => apply Z.leb_le in H
    | H : (_ <=? _) = false |- _ => apply Z.leb_gt in H
    end.

Section FactoryProperties.

Variable dmHashBuffer64 : string -> Z.

Lemma type_at_inv (i : nat) (m m' : Machine) (rt : SResourceType) :
  type_at i m = Some (rt, m') -> m' = m /\ m_ResourceTypes (fst m) !! i = Some rt.
Proof.
  unfold type_at, bind, factory, ret, abort. simpl.
  destruct (m_ResourceTypes (fst m) !! i); [|discriminate].
  intros [= -> ->]. auto.
Qed.

(** The three ways in which [Get] returns: a hit, an error on a miss, or a
    new descriptor. *)
Lemma Get_inv (w : World) (name : string) (f f' : SResourceFactory)
    (t t' : list Event) (res : FactoryResult) (resource : Z) :
  Get dmHashBuffer64 w name (f, t) = Some ((res, resource), (f', t')) ->
  let canonical_path := GetCanonicalPath (m_Path f) name in
  let h := dmHashBuffer64 canonical_path in
  (exists rd,
      m_Resources f !! h = Some rd
      /\ is_Some (m_ResourceToHash f !! m_Resource rd)
      /\ res = FACTORY_RESULT_OK /\ resource = m_Resource rd
      /\ f' = set_Resources
                (<[h := set_ReferenceCount (wrap32 (m_ReferenceCount rd + 1)) rd]>
                   (m_Resources f)) f
      /\ t' = t)
  \/ (m_Resources f !! h = None
      /\ res <> FACTORY_RESULT_OK /\ resource = 0
      /\ loader_frame f f'
      /\ exists evs, t' = t ++ evs /\ Forall (fun e => ~ is_destroy e) evs)
  \/ (m_Resources f !! h = None
      /\ res = FACTORY_RESULT_OK
      /\ exists ext resource_type rt size f1 t1,
          strrchr name dot = Some ext
          /\ FindResourceType f (str_next ext) = Some resource_type
          /\ LoadResource w canonical_path name (f, t)
             = Some ((FACTORY_RESULT_OK, size), (f1, t1))
          /\ m_ResourceTypes f1 !! resource_type = Some rt
          /\ call_create w (m_CreateFunction rt) (m_Context rt)
               (m_StreamBuffer f1) size name = (CREATE_RESULT_OK, resource)
          /\ resource <> 0
          /\ f' = interned h
                    {| m_NameHash := h; m_Resource := resource;
                       m_ReferenceCount := 1; m_ResourceType := resource_type |}
                    canonical_path f1
          /\ t' = t1 ++ [EvCreate (m_CreateFunction rt) (m_Context rt)
                           (m_StreamBuffer f1) size name]).
Proof.
  intros H canonical_path h. unfold Get in H. run_in H. fold canonical_path h in H.
  destruct (m_Resources f !! h) as [rd|] eqn:Hrd.
  { left. exists rd.
    destruct (bool_decide (is_Some (m_ResourceToHash f !! m_Resource rd))) eqn:Hb;
      run_in H; [|discriminate].
    bools. injection H as <- <- <- <-. auto 10. }
  right.
  assert (Hlog : forall (m : Machine) e,
             transport_event e ->
             exists evs, snd m ++ [e] = snd m ++ evs
                         /\ Forall (fun e => ~ is_destroy e) evs).
  { intros m e He. exists [e]. split; [reflexivity|]. constructor; [|constructor].
    destruct e; simpl in *; tauto. }
  destruct (strrchr name dot) as [ext|] eqn:Hext; run_in H;
    [|left; injection H as <- <- <- <-; split; [reflexivity|];
      split; [discriminate|];
      split; [reflexivity|]; split;
      [apply loader_frame_refl | apply (Hlog (f, t)); exact I]].
  destruct (FindResourceType f (str_next ext)) as [resource_type|] eqn:Hfind;
    run_in H;
    [|left; injection H as <- <- <- <-; split; [reflexivity|];
      split; [discriminate|];
      split; [reflexivity|]; split;
      [apply loader_frame_refl | apply (Hlog (f, t)); exact I]].
  destruct (LoadResource w canonical_path name (f, t))
    as [[[result size] [f1 t1]]|] eqn:Hload; [|discriminate].
  destruct (preserves_LoadResource _ _ _ _ _ _ Hload) as [Hframe (evs & Ht1 & Hevs)].
  simpl in Hframe, Ht1, H.
  assert (Hnd : Forall (fun e => ~ is_destroy e) evs).
  { eapply Forall_impl; [exact Hevs|]. intros e He. destruct e; simpl in *; tauto. }
  case_bool_decide as Hres; run_in H.
  { left. injection H as <- <- <- <-. split; [reflexivity|]. split; [assumption|].
    split; [reflexivity|]. split; [assumption|]. eauto. }
  subst result.
  destruct (type_at resource_type (f1, t1)) as [[rt m1]|] eqn:Hrt; [|discriminate].
  apply type_at_inv in Hrt. destruct Hrt as [-> Hrt]. simpl in Hrt, H.
  destruct (call_create w (m_CreateFunction rt) (m_Context rt) (m_StreamBuffer f1)
              size name) as [create_error created] eqn:Hcreate.
  simpl in H.
  case_bool_decide as Hok; run_in H.
  - right. subst create_error.
    destruct (Z.eqb_spec created 0) as [Hz|Hz]; run_in H; [discriminate|].
    split; [reflexivity|].
    assert (Hf' : f' = interned h
                         {| m_NameHash := h; m_Resource := created;
                            m_ReferenceCount := 1;
                            m_ResourceType := resource_type |}
                         canonical_path f1
                  /\ t' = t1 ++ [EvCreate (m_CreateFunction rt) (m_Context rt)
                                   (m_StreamBuffer f1) size name]
                  /\ res = FACTORY_RESULT_OK /\ resource = created).
    { unfold interned. simpl.
      destruct (m_ResourceHashToFilename f1); run_in H;
        injection H as <- <- <- <-; auto. }
    destruct Hf' as (-> & -> & -> & ->).
    split; [reflexivity|]. exists ext, resource_type, rt, size, f1, t1. auto 10.
  - left. injection H as <- <- <- <-. split; [reflexivity|]. split; [discriminate|].
    split; [reflexivity|]. split; [assumption|].
    exists (evs ++ [EvCreate (m_CreateFunction rt) (m_Context rt)
                      (m_StreamBuffer f1) size name;
                    EvLog LOG_SEVERITY_WARNING "Unable to create resource: %s"
                      [ArgS canonical_path]]).
    split; [subst t1; now rewrite <- !app_assoc|].
    apply Forall_app. split; [exact Hnd|].
    constructor; [simpl; tauto|]. constructor; [simpl; tauto|]. constructor.
Qed.

Lemma interned_tables (h : Z) (rd : SResourceDescriptor) (path : string)
    (f : SResourceFactory) :
  m_Resources (interned h rd path f) = <[h := rd]> (m_Resources f)
  /\ m_ResourceToHash (interned h rd path f)
     = <[m_Resource rd := h]> (m_ResourceToHash f)
  /\ m_ResourceHashToFilename (interned h rd path f)
     = (fun filenames => <[h := path]> filenames) <$> m_ResourceHashToFilename f
  /\ m_ResourceTypes (interned h rd path f) = m_ResourceTypes f
  /\ m_ResourceReloadedCallbacks (interned h rd path f)
     = m_ResourceReloadedCallbacks f
  /\ m_Path (interned h rd path f) = m_Path f.
Proof.
  unfold interned. simpl.
  destruct (m_ResourceHashToFilename f) eqn:E; simpl; rewrite ?E;
    repeat split; reflexivity.
Qed.

(** C2.  Whenever [Get] returns a result other than [OK], the three tables
    are what they were before the call; whenever it returns [OK] on a miss,
    the new descriptor is in [m_Resources] under the hash of the canonical
    path with one reference, its address is in [m_ResourceToHash], and the
    canonical path is in [m_ResourceHashToFilename] when the factory has
    that table (reload support). *)
Theorem Get_is_atomic (w : World) (name : string) (f f' : SResourceFactory)
    (t t' : list Event) (res : FactoryResult) (resource : Z) :
  Get dmHashBuffer64 w name (f, t) = Some ((res, resource), (f', t')) ->
  (res <> FACTORY_RESULT_OK ->
   m_Resources f' = m_Resources f
   /\ m_ResourceToHash f' = m_ResourceToHash f
   /\ m_ResourceHashToFilename f' = m_ResourceHashToFilename f)
  /\ (res = FACTORY_RESULT_OK ->
      m_Resources f !! dmHashBuffer64 (GetCanonicalPath (m_Path f) name) = None ->
      exists resource_type,
        m_Resources f'
        = <[dmHashBuffer64 (GetCanonicalPath (m_Path f) name) :=
              {| m_NameHash := dmHashBuffer64 (GetCanonicalPath (m_Path f) name);
                 m_Resource := resource;
                 m_ReferenceCount := 1;
                 m_ResourceType := resource_type |}]> (m_Resources f)
        /\ m_ResourceToHash f'
           = <[resource := dmHashBuffer64 (GetCanonicalPath (m_Path f) name)]>
               (m_ResourceToHash f)
        /\ m_ResourceHashToFilename f'
           = (fun filenames =>
                <[dmHashBuffer64 (GetCanonicalPath (m_Path f) name) :=
                    GetCanonicalPath (m_Path f) name]> filenames)
             <$> m_ResourceHashToFilename f).
Proof.
  intros H. apply Get_inv in H. simpl in H.
  destruct H as [(rd & Hrd & _ & -> & _)|[(Hrd & Hres & _ & Hframe & _)|Hnew]].
  - split; [congruence|]. intros _ Hmiss. congruence.
  - split; [|contradiction]. intros _. destruct Hframe. auto.
  - destruct Hnew as (Hrd & -> & ext & resource_type & rt & size & f1 & t1
                      & _ & _ & Hload & _ & _ & _ & -> & _).
    split; [congruence|]. intros _ _. exists resource_type.
    destruct (preserves_LoadResource _ _ _ _ _ _ Hload) as [[] _]. simpl in *.
    destruct (interned_tables
                (dmHashBuffer64 (GetCanonicalPath (m_Path f) name))
                {| m_NameHash := dmHashBuffer64 (GetCanonicalPath (m_Path f) name);
                   m_Resource := resource; m_ReferenceCount := 1;
                   m_ResourceType := resource_type |}
                (GetCanonicalPath (m_Path f) name) f1) as (-> & -> & -> & _).
    simpl. repeat split; congruence.
Qed.


(** ** Hits and releases *)

Lemma with_count_tables (h : Z) (rd : SResourceDescriptor) (k : Z)
    (f : SResourceFactory) :
  m_Resources (with_count h rd k f) !! h = Some (set_ReferenceCount k rd)
  /\ m_ResourceToHash (with_count h rd k f) = m_ResourceToHash f
  /\ m_ResourceHashToFilename (with_count h rd k f) = m_ResourceHashToFilename f
  /\ m_ResourceTypes (with_count h rd k f) = m_ResourceTypes f
  /\ m_Path (with_count h rd k f) = m_Path f.
Proof. unfold with_count. simpl. rewrite lookup_insert_eq. auto. Qed.

Lemma with_count_again (h : Z) (rd : SResourceDescriptor) (k k' : Z)
    (f : SResourceFactory) :
  with_count h (set_ReferenceCount k rd) k' (with_count h rd k f)
  = with_count h rd k' f.
Proof.
  unfold with_count, set_Resources. simpl. now rewrite insert_insert_eq.
Qed.

(** A hit: the descriptor is found, its address is asserted to be known, the
    count goes up by one and nothing is logged. *)
Lemma Get_hit (w : World) (name : string) (f : SResourceFactory)
    (t : list Event) (rd : SResourceDescriptor) :
  m_Resources f !! dmHashBuffer64 (GetCanonicalPath (m_Path f) name) = Some rd ->
  is_Some (m_ResourceToHash f !! m_Resource rd) ->
  Get dmHashBuffer64 w name (f, t)
  = Some ((FACTORY_RESULT_OK, m_Resource rd),
          (with_count (dmHashBuffer64 (GetCanonicalPath (m_Path f) name)) rd
             (wrap32 (m_ReferenceCount rd + 1)) f, t)).
Proof.
  intros Hrd Haddr. unfold Get, bind, factory. simpl. rewrite Hrd.
  unfold c_assert. rewrite bool_decide_eq_true_2 by exact Haddr.
  reflexivity.
Qed.

(** A release that leaves references behind only lowers the count. *)
Lemma Release_decrement (resource h : Z) (f : SResourceFactory) (t : list Event)
    (rd : SResourceDescriptor) :
  m_ResourceToHash f !! resource = Some h ->
  m_Resources f !! h = Some rd ->
  1 < m_ReferenceCount rd ->
  Release resource (f, t)
  = Some (tt, (with_count h rd (m_ReferenceCount rd - 1) f, t)).
Proof.
  intros Haddr Hrd Hcount. unfold Release, bind, factory. simpl.
  rewrite Haddr, Hrd. unfold c_assert.
  destruct (Z.ltb_spec 0 (m_ReferenceCount rd)); [|lia]. simpl.
  destruct (Z.eqb_spec (m_ReferenceCount rd - 1) 0); [lia|]. reflexivity.
Qed.

(** The last release: the handler's destroy callback is called with the
    descriptor, then the entries are erased. *)
Lemma Release_last (resource h : Z) (f : SResourceFactory) (t : list Event)
    (rd : SResourceDescriptor) (rt : SResourceType) :
  m_ResourceToHash f !! resource = Some h ->
  m_Resources f !! h = Some rd ->
  m_ReferenceCount rd = 1 ->
  m_ResourceTypes f !! m_ResourceType rd = Some rt ->
  (forall filenames,
      m_ResourceHashToFilename f = Some filenames -> is_Some (filenames !! h)) ->
  Release resource (f, t)
  = Some (tt, (erased h resource f,
               t ++ [EvDestroy (m_DestroyFunction rt) (m_Context rt)
                       (set_ReferenceCount 0 rd)])).
Proof.
  intros Haddr Hrd Hcount Hrt Hname. unfold Release, bind, factory. simpl.
  rewrite Haddr, Hrd, Hcount. simpl.
  unfold type_at, bind, factory. simpl. rewrite Hrt. simpl.
  unfold erased.
  destruct (m_ResourceHashToFilename f) as [filenames|] eqn:E; simpl.
  - unfold c_assert. rewrite bool_decide_eq_true_2 by (now apply Hname).
    unfold ret, bind, update, emit. simpl.
    unfold set_ResourceHashToFilename, set_Resources, set_ResourceToHash. simpl.
    rewrite delete_insert_eq. reflexivity.
  - unfold set_ResourceHashToFilename, set_Resources, set_ResourceToHash. simpl.
    rewrite delete_insert_eq, E. reflexivity.
Qed.

Lemma with_count_id (h : Z) (rd : SResourceDescriptor) (f : SResourceFactory) :
  m_Resources f !! h = Some rd ->
  with_count h rd (m_ReferenceCount rd) f = f.
Proof.
  intros Hrd. unfold with_count.
  replace (set_ReferenceCount (m_ReferenceCount rd) rd) with rd
    by (now destruct rd).
  rewrite insert_id by exact Hrd. now destruct f.
Qed.

Lemma wrap32_small (z : Z) : 0 <= z < 2 ^ 32 -> wrap32 z = z.
Proof. intros H. unfold wrap32. now apply Z.mod_small. Qed.

Lemma acquire_all_hits (ws : list World) (name : string) (f : SResourceFactory)
    (t : list Event) (rd : SResourceDescriptor) :
  m_Resources f !! dmHashBuffer64 (GetCanonicalPath (m_Path f) name) = Some rd ->
  is_Some (m_ResourceToHash f !! m_Resource rd) ->
  0 <= m_ReferenceCount rd ->
  m_ReferenceCount rd + Z.of_nat (length ws) < 2 ^ 32 ->
  acquire_all dmHashBuffer64 ws name (f, t)
  = Some (repeat (FACTORY_RESULT_OK, m_Resource rd) (length ws),
          (with_count (dmHashBuffer64 (GetCanonicalPath (m_Path f) name)) rd
             (m_ReferenceCount rd + Z.of_nat (length ws)) f, t)).
Proof.
  revert f rd. induction ws as [|w ws IH]; intros f rd Hrd Haddr H0 Hbound.
  - simpl. rewrite Z.add_0_r, with_count_id by exact Hrd. reflexivity.
  - simpl length in *. cbn [acquire_all]. unfold bind at 1.
    rewrite (Get_hit w name f t rd Hrd Haddr).
    rewrite wrap32_small by lia.
    set (h := dmHashBuffer64 (GetCanonicalPath (m_Path f) name)) in *.
    pose proof (with_count_tables h rd (m_ReferenceCount rd + 1) f)
      as (Hrd' & Haddr' & _ & _ & Hpath).
    unfold bind.
    rewrite (IH (with_count h rd (m_ReferenceCount rd + 1) f)
               (set_ReferenceCount (m_ReferenceCount rd + 1) rd)).
    + rewrite Hpath. fold h. rewrite with_count_again. simpl.
      unfold ret. do 4 f_equal. lia.
    + rewrite Hpath. exact Hrd'.
    + rewrite Haddr'. exact Haddr.
    + simpl. lia.
    + simpl. lia.
Qed.

Lemma release_n_decrements (n : nat) (resource h : Z) (f : SResourceFactory)
    (t : list Event) (rd : SResourceDescriptor) :
  m_ResourceToHash f !! resource = Some h ->
  m_Resources f !! h = Some rd ->
  Z.of_nat n < m_ReferenceCount rd ->
  release_n resource n (f, t)
  = Some (tt, (with_count h rd (m_ReferenceCount rd - Z.of_nat n) f, t)).
Proof.
  revert f rd. induction n as [|n IH]; intros f rd Haddr Hrd Hcount.
  - simpl. rewrite Z.sub_0_r, with_count_id by exact Hrd. reflexivity.
  - cbn [release_n]. unfold bind.
    rewrite (Release_decrement resource h f t rd Haddr Hrd) by lia.
    pose proof (with_count_tables h rd (m_ReferenceCount rd - 1) f)
      as (Hrd' & Haddr' & _).
    rewrite (IH (with_count h rd (m_ReferenceCount rd - 1) f)
               (set_ReferenceCount (m_ReferenceCount rd - 1) rd)).
    + rewrite with_count_again. simpl. do 4 f_equal. lia.
    + rewrite Haddr'. exact Haddr.
    + exact Hrd'.
    + simpl. lia.
Qed.

(** Where the bound of the lifecycle comes from: a hit on a descriptor whose
    count is [2 ^ 32 - 1] wraps the count to zero, and the next release
    fails its assertion. *)
Lemma Get_hit_wraps_count (w : World) (name : string) (f : SResourceFactory)
    (t : list Event) (rd : SResourceDescriptor) :
  m_Resources f !! dmHashBuffer64 (GetCanonicalPath (m_Path f) name) = Some rd ->
  m_ResourceToHash f !! m_Resource rd
    = Some (dmHashBuffer64 (GetCanonicalPath (m_Path f) name)) ->
  m_ReferenceCount rd = 2 ^ 32 - 1 ->
  exists f',
    Get dmHashBuffer64 w name (f, t)
      = Some ((FACTORY_RESULT_OK, m_Resource rd), (f', t))
    /\ m_Resources f' !! dmHashBuffer64 (GetCanonicalPath (m_Path f) name)
       = Some (set_ReferenceCount 0 rd)
    /\ Release (m_Resource rd) (f', t) = None.
Proof.
  intros Hrd Haddr Hcount. eexists. split.
  - apply Get_hit; [exact Hrd | eauto].
  - rewrite Hcount. change (wrap32 (2 ^ 32 - 1 + 1)) with 0.
    destruct (with_count_tables
                (dmHashBuffer64 (GetCanonicalPath (m_Path f) name)) rd 0 f)
      as (Hrd' & Haddr' & _).
    split; [exact Hrd'|].
    unfold Release, bind at 1, factory at 1.
    cbn beta iota delta [fst snd].
    rewrite Haddr', Haddr, Hrd'. reflexivity.
Qed.

Lemma erased_tables (h resource : Z) (f : SResourceFactory) :
  m_Resources (erased h resource f) !! h = None
  /\ m_ResourceToHash (erased h resource f) !! resource = None
  /\ (forall filenames,
         m_ResourceHashToFilename (erased h resource f) = Some filenames ->
         filenames !! h = None).
Proof.
  unfold erased. simpl. rewrite !lookup_delete_eq. split; [reflexivity|].
  split; [reflexivity|]. intros filenames.
  destruct (m_ResourceHashToFilename f); simpl; [|discriminate].
  intros [= <-]. apply lookup_delete_eq.
Qed.

(** C1, as amended.  Let the first [Get] of a name that is not interned
    succeed with [resource].  Then every further [Get] of the name is a hit
    that returns [resource] and raises the reference count by one, as long
    as the count fits its 32 bits; after as many releases as acquires the
    three tables have no entry for the name; the releases before the last
    only lower the count and call nothing, and the last one, which finds the
    count at one, calls the destroy callback once.  The callback and the
    context it is given are those of the handler the descriptor names, which
    is the handler registered for the extension of the name.  No destroy
    callback is called before. *)
Theorem intern_lifecycle (w : World) (ws : list World) (name : string)
    (f f1 : SResourceFactory) (t t1 : list Event) (resource : Z) :
  m_Resources f !! dmHashBuffer64 (GetCanonicalPath (m_Path f) name) = None ->
  Get dmHashBuffer64 w name (f, t)
    = Some ((FACTORY_RESULT_OK, resource), (f1, t1)) ->
  Z.of_nat (length ws) + 1 < 2 ^ 32 ->
  exists rd rt f2 f3 f4,
    acquire_all dmHashBuffer64 ws name (f1, t1)
      = Some (repeat (FACTORY_RESULT_OK, resource) (length ws), (f2, t1))
    /\ m_Resources f2 !! dmHashBuffer64 (GetCanonicalPath (m_Path f) name)
       = Some rd
    /\ m_Resource rd = resource
    /\ m_ReferenceCount rd = Z.of_nat (length ws) + 1
    /\ m_ResourceTypes f !! m_ResourceType rd = Some rt
    /\ (exists ext,
           strrchr name dot = Some ext
           /\ FindResourceType f (str_next ext) = Some (m_ResourceType rd))
    /\ release_n resource (length ws) (f2, t1) = Some (tt, (f3, t1))
    /\ m_Resources f3 !! dmHashBuffer64 (GetCanonicalPath (m_Path f) name)
       = Some (set_ReferenceCount 1 rd)
    /\ Release resource (f3, t1)
       = Some (tt, (f4, t1 ++ [EvDestroy (m_DestroyFunction rt) (m_Context rt)
                                 (set_ReferenceCount 0 rd)]))
    /\ m_Resources f4 !! dmHashBuffer64 (GetCanonicalPath (m_Path f) name) = None
    /\ m_ResourceToHash f4 !! resource = None
    /\ (forall filenames,
           m_ResourceHashToFilename f4 = Some filenames ->
           filenames !! dmHashBuffer64 (GetCanonicalPath (m_Path f) name) = None)
    /\ exists evs, t1 = t ++ evs /\ Forall (fun e => ~ is_destroy e) evs.
Proof.
  intros Hmiss Hget Hbound. apply Get_inv in Hget. simpl in Hget.
  destruct Hget as [(rd & Hrd & _)|[(_ & Hres & _)|Hnew]];
    [congruence | congruence |].
  destruct Hnew as (_ & _ & ext & resource_type & rt & size & fL & tL
                    & Hext & Hfind & Hload & Hrt & _ & _ & -> & ->).
  destruct (preserves_LoadResource _ _ _ _ _ _ Hload)
    as [Hframe (evs & HtL & Hevs)].
  simpl in Hframe, HtL.
  set (path := GetCanonicalPath (m_Path f) name) in *.
  set (h := dmHashBuffer64 path) in *.
  set (rd0 := {| m_NameHash := h; m_Resource := resource;
                 m_ReferenceCount := 1; m_ResourceType := resource_type |}).
  set (f1 := interned h rd0 path fL).
  set (t1 := tL ++ [EvCreate (m_CreateFunction rt) (m_Context rt)
                      (m_StreamBuffer fL) size name]).
  destruct (interned_tables h rd0 path fL)
    as (Hres1 & Haddr1 & Hnames1 & Htypes1 & _ & Hpath1).
  fold f1 in Hres1, Haddr1, Hnames1, Htypes1, Hpath1.
  assert (Hpath : GetCanonicalPath (m_Path f1) name = path).
  { unfold path. now rewrite Hpath1, (frame_Path _ _ Hframe). }
  (* the hits *)
  assert (Hrd1 : m_Resources f1 !! h = Some rd0)
    by (rewrite Hres1; apply lookup_insert_eq).
  assert (Ha1 : m_ResourceToHash f1 !! resource = Some h)
    by (rewrite Haddr1; apply lookup_insert_eq).
  pose proof (acquire_all_hits ws name f1 t1 rd0) as Hhits.
  rewrite Hpath in Hhits. fold h in Hhits.
  specialize (Hhits Hrd1 (ex_intro _ h Ha1) ltac:(simpl; lia) ltac:(simpl; lia)).
  simpl m_ReferenceCount in Hhits. simpl m_Resource in Hhits.
  set (n := Z.of_nat (length ws)) in *.
  set (f2 := with_count h rd0 (1 + n) f1) in *.
  set (rd := set_ReferenceCount (1 + n) rd0).
  destruct (with_count_tables h rd0 (1 + n) f1)
    as (Hrd2 & Haddr2 & Hnames2 & Htypes2 & _).
  fold f2 rd in Hrd2, Haddr2, Hnames2, Htypes2.
  (* the releases before the last *)
  pose proof (release_n_decrements (length ws) resource h f2 t1 rd) as Hrel.
  rewrite Haddr2 in Hrel.
  specialize (Hrel Ha1 Hrd2 ltac:(simpl; lia)).
  simpl m_ReferenceCount in Hrel. fold n in Hrel.
  replace (1 + n - n) with 1 in Hrel by lia.
  set (f3 := with_count h rd 1 f2) in *.
  destruct (with_count_tables h rd 1 f2)
    as (Hrd3 & Haddr3 & Hnames3 & Htypes3 & _).
  fold f3 in Hrd3, Haddr3, Hnames3, Htypes3.
  (* the last release *)
  pose proof (Release_last resource h f3 t1 (set_ReferenceCount 1 rd) rt) as Hlast.
  rewrite Haddr3, Haddr2, Htypes3, Htypes2, Htypes1, Hnames3, Hnames2, Hnames1
    in Hlast.
  specialize (Hlast Ha1 Hrd3 eq_refl Hrt).
  assert (Hnames : forall filenames : gmap Z string,
             (fun filenames => <[h := path]> filenames)
               <$> m_ResourceHashToFilename fL = Some filenames ->
             is_Some (filenames !! h)).
  { intros filenames. destruct (m_ResourceHashToFilename fL); simpl;
      [|discriminate].
    intros [= <-]. rewrite lookup_insert_eq. eauto. }
  specialize (Hlast Hnames).
  destruct (erased_tables h resource f3) as (He1 & He2 & He3).
  exists rd, rt, f2, f3, (erased h resource f3).
  split; [exact Hhits|]. split; [exact Hrd2|]. split; [reflexivity|].
  split; [simpl; lia|].
  split; [simpl; rewrite <- (frame_ResourceTypes _ _ Hframe); exact Hrt|].
  split; [exists ext; split; [exact Hext | exact Hfind]|].
  split; [exact Hrel|]. split; [exact Hrd3|].
  split; [exact Hlast|]. split; [exact He1|]. split; [exact He2|].
  split; [exact He3|].
  exists (evs ++ [EvCreate (m_CreateFunction rt) (m_Context rt)
                    (m_StreamBuffer fL) size name]).
  split; [unfold t1; rewrite HtL; now rewrite app_assoc|].
  apply Forall_app. split.
  - eapply Forall_impl; [exact Hevs|]. intros e He. destruct e; simpl in *; tauto.
  - constructor; [simpl; tauto | constructor].
Qed.

(** The 32 bits of the reference count bound the lifecycle: after a first
    [Get] and [2 ^ 32 - 2] hits the count is [2 ^ 32 - 1]; one more [Get]
    still returns the resource, wraps the count to zero, and the very next
    [Release] of the handle fails its assertion. *)
Lemma acquire_wraps_after_4G (w : World) (ws : list World) (name : string)
    (f f1 : SResourceFactory) (t t1 : list Event) (resource : Z) :
  m_Resources f !! dmHashBuffer64 (GetCanonicalPath (m_Path f) name) = None ->
  Get dmHashBuffer64 w name (f, t)
    = Some ((FACTORY_RESULT_OK, resource), (f1, t1)) ->
  Z.of_nat (length ws) = 2 ^ 32 - 2 ->
  exists f2 f3 rd,
    acquire_all dmHashBuffer64 ws name (f1, t1)
      = Some (repeat (FACTORY_RESULT_OK, resource) (length ws), (f2, t1))
    /\ Get dmHashBuffer64 w name (f2, t1)
       = Some ((FACTORY_RESULT_OK, resource), (f3, t1))
    /\ m_Resources f3 !! dmHashBuffer64 (GetCanonicalPath (m_Path f) name)
       = Some rd
    /\ m_Resource rd = resource
    /\ m_ReferenceCount rd = 0
    /\ Release resource (f3, t1) = None.
Proof.
  intros Hmiss Hget Hlen. apply Get_inv in Hget. simpl in Hget.
  destruct Hget as [(rd & Hrd & _)|[(_ & Hres & _)|Hnew]];
    [congruence | congruence |].
  destruct Hnew as (_ & _ & ext & resource_type & rt & size & fL & tL
                    & _ & _ & Hload & _ & _ & _ & -> & ->).
  destruct (preserves_LoadResource _ _ _ _ _ _ Hload) as [Hframe _].
  simpl in Hframe.
  set (path := GetCanonicalPath (m_Path f) name) in *.
  set (h := dmHashBuffer64 path) in *.
  set (rd0 := {| m_NameHash := h; m_Resource := resource;
                 m_ReferenceCount := 1; m_ResourceType := resource_type |}).
  set (f1 := interned h rd0 path fL).
  set (t1 := tL ++ [EvCreate (m_CreateFunction rt) (m_Context rt)
                      (m_StreamBuffer fL) size name]).
  destruct (interned_tables h rd0 path fL)
    as (Hres1 & Haddr1 & _ & _ & _ & Hpath1).
  fold f1 in Hres1, Haddr1, Hpath1.
  assert (Hpath : GetCanonicalPath (m_Path f1) name = path).
  { unfold path. now rewrite Hpath1, (frame_Path _ _ Hframe). }
  assert (Hrd1 : m_Resources f1 !! h = Some rd0)
    by (rewrite Hres1; apply lookup_insert_eq).
  assert (Ha1 : m_ResourceToHash f1 !! resource = Some h)
    by (rewrite Haddr1; apply lookup_insert_eq).
  pose proof (acquire_all_hits ws name f1 t1 rd0) as Hhits.
  rewrite Hpath in Hhits. fold h in Hhits.
  specialize (Hhits Hrd1 (ex_intro _ h Ha1) ltac:(simpl; lia) ltac:(simpl; lia)).
  simpl m_ReferenceCount in Hhits. simpl m_Resource in Hhits.
  set (n := Z.of_nat (length ws)) in *.
  set (f2 := with_count h rd0 (1 + n) f1) in *.
  set (rd := set_ReferenceCount (1 + n) rd0).
  destruct (with_count_tables h rd0 (1 + n) f1)
    as (Hrd2 & Haddr2 & _ & _ & Hpath2).
  fold f2 rd in Hrd2, Haddr2, Hpath2.
  assert (Hpath' : GetCanonicalPath (m_Path f2) name = path)
    by (now rewrite Hpath2).
  pose proof (Get_hit_wraps_count w name f2 t1 rd) as Hwrap.
  rewrite Hpath' in Hwrap. fold h in Hwrap.
  destruct Hwrap as (f3 & Hget3 & Hrd3 & Hrel3).
  - exact Hrd2.
  - rewrite Haddr2. exact Ha1.
  - simpl. lia.
  - exists f2, f3, (set_ReferenceCount 0 rd).
    split; [exact Hhits|]. split; [exact Hget3|]. split; [exact Hrd3|].
    split; [reflexivity|]. split; [reflexivity|]. exact Hrel3.
Qed.

(** ** Reload *)

Lemma notify_trace (callbacks : list ResourceReloadedCallbackPair)
    (rd : SResourceDescriptor) (name : string) (f : SResourceFactory)
    (t : list Event) :
  notify callbacks rd name (f, t)
  = Some (tt, (f, t ++ map (fun cb => EvReloaded (m_Callback cb) (m_UserData cb)
                                        rd name) callbacks)).
Proof.
  revert t. induction callbacks as [|cb callbacks IH]; intros t; simpl.
  - now rewrite app_nil_r.
  - unfold bind, emit. simpl. rewrite IH. now rewrite <- app_assoc.
Qed.

(** The ways in which [ReloadResource] returns. *)
Lemma ReloadResource_inv (w : World) (name : string) (f f' : SResourceFactory)
    (t t' : list Event) (res : ReloadResult)
    (out_descriptor : option SResourceDescriptor) :
  ReloadResource dmHashBuffer64 w name (f, t)
    = Some ((res, out_descriptor), (f', t')) ->
  let canonical_path := GetCanonicalPath (m_Path f) name in
  let h := dmHashBuffer64 canonical_path in
  (m_Resources f !! h = None
   /\ res = RELOAD_RESULT_NOT_FOUND /\ out_descriptor = None
   /\ f' = f /\ t' = t)
  \/ exists rd rt,
      m_Resources f !! h = Some rd
      /\ m_ResourceTypes f !! m_ResourceType rd = Some rt
      /\ out_descriptor = Some rd
      /\ ((m_RecreateFunction rt = 0
           /\ res = RELOAD_RESULT_NOT_SUPPORTED /\ f' = f /\ t' = t)
          \/ (m_RecreateFunction rt <> 0
              /\ exists result size t1,
                  LoadResource w canonical_path name (f, t)
                    = Some ((result, size), (f', t1))
                  /\ ((result <> FACTORY_RESULT_OK
                       /\ res = RELOAD_RESULT_LOAD_ERROR /\ t' = t1)
                      \/ (result = FACTORY_RESULT_OK
                          /\ exists create_result,
                              call_recreate w (m_RecreateFunction rt)
                                (m_Context rt) (m_StreamBuffer f') size rd name
                                = create_result
                              /\ ((create_result = CREATE_RESULT_OK
                                   /\ res = RELOAD_RESULT_OK
                                   /\ t' = (t1 ++ [EvRecreate (m_RecreateFunction rt)
                                                     (m_Context rt)
                                                     (m_StreamBuffer f') size rd
                                                     name])
                                           ++ map (fun cb =>
                                                     EvReloaded (m_Callback cb)
                                                       (m_UserData cb) rd name)
                                                (observers f'))
                                  \/ (create_result <> CREATE_RESULT_OK
                                      /\ res = reload_result_of create_result
                                      /\ t' = t1 ++ [EvRecreate
                                                       (m_RecreateFunction rt)
                                                       (m_Context rt)
                                                       (m_StreamBuffer f') size
                                                       rd name])))))).
Proof.
  intros H canonical_path h. unfold ReloadResource in H.
  unfold bind at 1, factory at 1 in H. simpl in H.
  fold canonical_path h in H.
  destruct (m_Resources f !! h) as [rd|] eqn:Hrd;
    [|left; injection H as <- <- <- <-; auto].
  right. exists rd.
  unfold bind at 1 in H.
  destruct (type_at (m_ResourceType rd) (f, t)) as [[rt m1]|] eqn:Hrt;
    [|discriminate].
  apply type_at_inv in Hrt. destruct Hrt as [-> Hrt]. simpl in Hrt.
  exists rt. split; [reflexivity|]. split; [exact Hrt|].
  destruct (Z.eqb_spec (m_RecreateFunction rt) 0) as [Hz|Hz].
  { injection H as <- <- <- <-. auto 10. }
  unfold bind at 1 in H.
  destruct (LoadResource w canonical_path name (f, t))
    as [[[result size] [f1 t1]]|] eqn:Hload; [|discriminate].
  simpl in H.
  case_bool_decide as Hres.
  { injection H as <- <- <- <-. split; [reflexivity|]. right.
    split; [exact Hz|]. exists result, size, t1. split; [reflexivity|]. auto. }
  run_in H.
  case_bool_decide as Hok.
  - assert (E : f' = f1
                /\ t' = (t1 ++ [EvRecreate (m_RecreateFunction rt) (m_Context rt)
                                  (m_StreamBuffer f1) size rd name])
                        ++ map (fun cb => EvReloaded (m_Callback cb)
                                            (m_UserData cb) rd name)
                             (observers f1)
                /\ res = RELOAD_RESULT_OK /\ out_descriptor = Some rd).
    { unfold observers.
      destruct (m_ResourceReloadedCallbacks f1) as [callbacks|].
      - rewrite notify_trace in H. injection H as <- <- <- <-. auto.
      - simpl. rewrite app_nil_r. injection H as <- <- <- <-. auto. }
    destruct E as (-> & -> & -> & ->). split; [reflexivity|]. right.
    split; [exact Hz|]. exists result, size, t1. split; [reflexivity|].
    right. split; [exact Hres|]. eexists. split; [reflexivity|]. left. auto.
  - injection H as <- <- <- <-. split; [reflexivity|]. right.
    split; [exact Hz|]. exists result, size, t1. split; [reflexivity|].
    right. split; [exact Hres|]. eexists. split; [reflexivity|]. right. auto.
Qed.

(** C9.  Whenever [ReloadResource] returns, with whatever result, the three
    tables are what they were before the call: nothing is inserted, nothing
    is erased, and the descriptors, their hashes and their counts are
    unchanged.  The descriptor stored through [out_descriptor] is the one
    found under the hash of the name; the call adds no create and no destroy
    event to the trace, and the recreate callback and the observers are
    handed that descriptor and the name. *)
Theorem ReloadResource_keeps_tables (w : World) (name : string)
    (f f' : SResourceFactory) (t t' : list Event) (res : ReloadResult)
    (out_descriptor : option SResourceDescriptor) :
  ReloadResource dmHashBuffer64 w name (f, t)
    = Some ((res, out_descriptor), (f', t')) ->
  m_Resources f' = m_Resources f
  /\ m_ResourceToHash f' = m_ResourceToHash f
  /\ m_ResourceHashToFilename f' = m_ResourceHashToFilename f
  /\ out_descriptor
     = m_Resources f !! dmHashBuffer64 (GetCanonicalPath (m_Path f) name)
  /\ exists evs,
      t' = t ++ evs /\ Forall (reload_event out_descriptor name) evs.
Proof.
  intros H. apply ReloadResource_inv in H. simpl in H.
  assert (Hnil : forall o, exists evs : list Event,
               t = t ++ evs /\ Forall (reload_event o name) evs).
  { intros o. exists []. now rewrite app_nil_r. }
  destruct H as [(Hrd & -> & -> & -> & ->)|(rd & rt & Hrd & Hrt & -> & H)].
  { auto 10. }
  destruct H as [(_ & _ & -> & ->)|(_ & result & size & t1 & Hload & H)].
  { auto 10. }
  destruct (preserves_LoadResource _ _ _ _ _ _ Hload)
    as [Hframe (evs & Ht1 & Hevs)].
  simpl in Hframe, Ht1. destruct Hframe.
  assert (Hevs' : Forall (reload_event (Some rd) name) evs).
  { eapply Forall_impl; [exact Hevs|]. intros e He. destruct e; simpl in *; tauto. }
  do 4 (split; [congruence|]).
  destruct H as [(_ & _ & ->)|(_ & cr & _ & [(_ & _ & ->)|(_ & _ & ->)])].
  - eauto.
  - eexists. rewrite Ht1, <- !app_assoc. split; [reflexivity|].
    apply Forall_app. split; [exact Hevs'|].
    apply Forall_app. split; [constructor; [simpl; auto | constructor]|].
    apply Forall_forall. intros e He. apply list_elem_of_In, in_map_iff in He.
    destruct He as (cb & <- & _). simpl. auto.
  - eexists. rewrite Ht1, <- !app_assoc. split; [reflexivity|].
    apply Forall_app. split; [exact Hevs'|].
    constructor; [simpl; auto | constructor].
Qed.

(** C6.  When the name is interned and its handler has no recreate callback,
    [ReloadResource] returns [NOT_SUPPORTED] and leaves the factory and the
    trace as they were: no transport is tried, the stream buffer is not
    written, no observer is called. *)
Theorem ReloadResource_not_supported (w : World) (name : string)
    (f : SResourceFactory) (t : list Event) (rd : SResourceDescriptor)
    (rt : SResourceType) :
  m_Resources f !! dmHashBuffer64 (GetCanonicalPath (m_Path f) name) = Some rd ->
  m_ResourceTypes f !! m_ResourceType rd = Some rt ->
  m_RecreateFunction rt = 0 ->
  ReloadResource dmHashBuffer64 w name (f, t)
  = Some ((RELOAD_RESULT_NOT_SUPPORTED, Some rd), (f, t)).
Proof.
  intros Hrd Hrt Hz. unfold ReloadResource, bind, factory. simpl.
  rewrite Hrd. unfold type_at, bind, factory. simpl. rewrite Hrt. simpl.
  rewrite Hz. reflexivity.
Qed.

(** ** Failures of the callbacks *)

(** C10.  Let the create or recreate callback answer [create_error], any
    result but [OK].  In [Get] (a miss whose extension has a handler and
    whose load succeeded) the result is [FACTORY_RESULT_UNKNOWN] whatever
    [create_error] is, after a warning; in [ReloadResource] the result is
    [reload_result_of create_error], which sends the four errors to four
    different reload results. *)
Theorem create_errors_collapse_in_Get (create_error : CreateResult) :
  create_error <> CREATE_RESULT_OK ->
  (forall (w : World) (name ext : string) (f f1 : SResourceFactory)
          (t t1 : list Event) (resource_type : nat) (rt : SResourceType)
          (size created : Z),
      m_Resources f !! dmHashBuffer64 (GetCanonicalPath (m_Path f) name) = None ->
      strrchr name dot = Some ext ->
      FindResourceType f (str_next ext) = Some resource_type ->
      m_ResourceTypes f !! resource_type = Some rt ->
      LoadResource w (GetCanonicalPath (m_Path f) name) name (f, t)
        = Some ((FACTORY_RESULT_OK, size), (f1, t1)) ->
      call_create w (m_CreateFunction rt) (m_Context rt) (m_StreamBuffer f1)
        size name = (create_error, created) ->
      Get dmHashBuffer64 w name (f, t)
      = Some ((FACTORY_RESULT_UNKNOWN, 0),
              (f1, (t1 ++ [EvCreate (m_CreateFunction rt) (m_Context rt)
                             (m_StreamBuffer f1) size name])
                   ++ [EvLog LOG_SEVERITY_WARNING "Unable to create resource: %s"
                         [ArgS (GetCanonicalPath (m_Path f) name)]])))
  /\ (forall (w : World) (name : string) (f f1 : SResourceFactory)
             (t t1 : list Event) (rd : SResourceDescriptor)
             (rt : SResourceType) (size : Z),
         m_Resources f !! dmHashBuffer64 (GetCanonicalPath (m_Path f) name)
           = Some rd ->
         m_ResourceTypes f !! m_ResourceType rd = Some rt ->
         m_RecreateFunction rt <> 0 ->
         LoadResource w (GetCanonicalPath (m_Path f) name) name (f, t)
           = Some ((FACTORY_RESULT_OK, size), (f1, t1)) ->
         call_recreate w (m_RecreateFunction rt) (m_Context rt)
           (m_StreamBuffer f1) size rd name = create_error ->
         ReloadResource dmHashBuffer64 w name (f, t)
         = Some ((reload_result_of create_error, Some rd),
                 (f1, t1 ++ [EvRecreate (m_RecreateFunction rt) (m_Context rt)
                               (m_StreamBuffer f1) size rd name])))
  /\ reload_result_of CREATE_RESULT_OUT_OF_MEMORY = RELOAD_RESULT_OUT_OF_MEMORY
  /\ reload_result_of CREATE_RESULT_FORMAT_ERROR = RELOAD_RESULT_FORMAT_ERROR
  /\ reload_result_of CREATE_RESULT_CONSTANT_ERROR = RELOAD_RESULT_CONSTANT_ERROR
  /\ reload_result_of CREATE_RESULT_UNKNOWN = RELOAD_RESULT_UNKNOWN
  /\ (forall other,
         other <> CREATE_RESULT_OK ->
         reload_result_of other = reload_result_of create_error ->
         other = create_error).
Proof.
  intros Herr. split; [|split].
  - intros w name ext f f1 t t1 resource_type rt size created
      Hmiss Hext Hfind Hrt Hload Hcreate.
    destruct (preserves_LoadResource _ _ _ _ _ _ Hload) as [Hframe _].
    simpl in Hframe.
    unfold Get, bind at 1, factory at 1. simpl.
    rewrite Hmiss, Hext, Hfind. unfold bind at 1. rewrite Hload. simpl.
    unfold bind at 1, type_at, bind at 1, factory at 1. simpl.
    rewrite (frame_ResourceTypes _ _ Hframe), Hrt.
    unfold ret at 1. unfold bind at 1, factory at 1. simpl.
    rewrite Hcreate. simpl.
    rewrite bool_decide_eq_false_2 by exact Herr. reflexivity.
  - intros w name f f1 t t1 rd rt size Hrd Hrt Hz Hload Hrecreate.
    unfold ReloadResource, bind at 1, factory at 1. simpl.
    rewrite Hrd. unfold bind at 1, type_at, bind at 1, factory at 1. simpl.
    rewrite Hrt. unfold ret at 1.
    destruct (Z.eqb_spec (m_RecreateFunction rt) 0) as [|_]; [contradiction|].
    unfold bind at 1. rewrite Hload. simpl.
    unfold bind at 1, factory at 1. simpl. rewrite Hrecreate.
    rewrite bool_decide_eq_false_2 by exact Herr. reflexivity.
  - repeat split; try reflexivity.
    intros other Hother. destruct other, create_error; simpl;
      congruence.
Qed.

(** ** The observer registry *)

Lemma EraseSwap_last {A} (pre : list A) (x : A) :
  EraseSwap (length pre) (pre ++ [x]) = pre.
Proof.
  unfold EraseSwap. rewrite last_snoc, length_app. simpl.
  replace (length pre + 1 - 1)%nat with (length pre) by lia.
  rewrite insert_app_r_alt by lia. rewrite Nat.sub_diag. simpl.
  rewrite take_app_length'; [reflexivity | reflexivity].
Qed.

Lemma EraseSwap_middle {A} (pre suf : list A) (x y : A) :
  EraseSwap (length pre) (pre ++ x :: suf ++ [y]) = pre ++ y :: suf.
Proof.
  unfold EraseSwap.
  replace (pre ++ x :: suf ++ [y]) with ((pre ++ x :: suf) ++ [y])
    by (now rewrite <- app_assoc).
  rewrite last_snoc, length_app. simpl.
  replace (length (pre ++ x :: suf) + 1 - 1)%nat with (length (pre ++ x :: suf))
    by lia.
  rewrite <- app_assoc. simpl.
  rewrite insert_app_r_alt by lia. rewrite Nat.sub_diag. simpl.
  replace (pre ++ y :: suf ++ [y]) with ((pre ++ y :: suf) ++ [y])
    by (now rewrite <- app_assoc).
  apply take_app_length'. rewrite !length_app. reflexivity.
Qed.

Lemma snoc_case {A} (l : list A) : l = [] \/ exists l' x, l = l' ++ [x].
Proof.
  induction l as [|x l' _] using rev_ind; [now left | right; eauto].
Qed.

(** The loop leaves, in some order, the entries before [i] and the entries
    from [i] on that do not match. *)
Lemma unregister_loop_perm (turns i : nat) (callback user_data : Z)
    (callbacks : list ResourceReloadedCallbackPair) :
  (length callbacks - i <= turns)%nat ->
  unregister_loop turns i callback user_data callbacks
  ≡ₚ take i callbacks
     ++ List.filter (fun cb => negb (same_observer callback user_data cb))
          (drop i callbacks).
Proof.
  revert i callbacks. induction turns as [|turns IH]; intros i callbacks Hturns.
  - simpl. rewrite take_ge, drop_ge by lia. simpl. now rewrite app_nil_r.
  - simpl. destruct (callbacks !! i) as [cb|] eqn:Hcb.
    + pose proof (lookup_lt_Some _ _ _ Hcb) as Hlt.
      pose proof (take_drop_middle _ _ _ Hcb) as Hsplit.
      assert (Hi : length (take i callbacks) = i) by (rewrite length_take; lia).
      revert Hsplit Hi.
      generalize (take i callbacks) (drop (S i) callbacks). intros pre suf <- <-.
      clear Hcb Hlt. rewrite length_app in Hturns. simpl in Hturns.
      rewrite drop_app_length. simpl.
      fold (same_observer callback user_data cb).
      destruct (same_observer callback user_data cb) eqn:Hsame; simpl.
      * (* the entry is overwritten by the last one *)
        destruct (snoc_case suf) as [->|(suf' & z & ->)].
        -- rewrite EraseSwap_last. rewrite IH by lia.
           rewrite firstn_all, drop_all. reflexivity.
        -- rewrite EraseSwap_middle.
           rewrite length_app in Hturns. simpl in Hturns.
           rewrite IH by (rewrite length_app; simpl; lia).
           rewrite take_app_length, drop_app_length.
           apply Permutation_app_head.
           rewrite List.filter_app. simpl.
           destruct (negb (same_observer callback user_data z)); simpl.
           ++ rewrite Permutation_app_comm. reflexivity.
           ++ now rewrite app_nil_r.
      * rewrite IH by (rewrite length_app; simpl; lia).
        replace (pre ++ cb :: suf) with ((pre ++ [cb]) ++ suf)
          by (now rewrite <- app_assoc).
        replace (S (length pre)) with (length (pre ++ [cb]))
          by (rewrite length_app; simpl; lia).
        rewrite take_app_length, drop_app_length, <- app_assoc. reflexivity.
    + apply lookup_ge_None in Hcb.
      rewrite take_ge, drop_ge by lia. simpl. now rewrite app_nil_r.
Qed.

Lemma List_filter_perm {A} (p : A -> bool) (l1 l2 : list A) :
  l1 ≡ₚ l2 -> List.filter p l1 ≡ₚ List.filter p l2.
Proof.
  induction 1 as [|x l1 l2 _ IH|x y l|l1 l2 l3 _ IH1 _ IH2]; simpl.
  - reflexivity.
  - destruct (p x); [now constructor | exact IH].
  - destruct (p x), (p y); try reflexivity. apply perm_swap.
  - now rewrite IH1.
Qed.

(** A history of registrations and unregistrations always runs to its end;
    the array then holds, in some order, the observers of the
    specification's registry, and in the same order when the history
    unregistered nothing. *)
Lemma observer_calls_registry (cs : list ObserverCall) (f : SResourceFactory)
    (t : list Event) (callbacks registered : list ResourceReloadedCallbackPair) :
  m_ResourceReloadedCallbacks f = Some callbacks ->
  callbacks ≡ₚ registered ->
  exists f' t' callbacks',
    observer_calls cs (f, t) = Some (tt, (f', t'))
    /\ m_ResourceReloadedCallbacks f' = Some callbacks'
    /\ callbacks' ≡ₚ registered_in_order cs registered
    /\ (Forall is_register cs -> callbacks = registered ->
        callbacks' = registered_in_order cs registered).
Proof.
  revert f t callbacks registered.
  induction cs as [|c cs IH]; intros f t callbacks registered Hcbs Hperm.
  - exists f, t, callbacks. simpl. auto.
  - cbn [observer_calls registered_in_order]. unfold bind at 1.
    destruct c as [callback user_data|callback user_data]; simpl observer_call.
    + unfold RegisterResourceReloadedCallback, bind at 1, factory at 1. simpl.
      rewrite Hcbs. rewrite <- (Permutation_length Hperm).
      destruct (Z.of_nat (length callbacks) =? MAX_CALLBACKS) eqn:Hfull; simpl.
      * destruct (IH f (t ++ [EvLog LOG_SEVERITY_WARNING
          "Resource reloaded callback could not be registered since the maximum capacity of callbacks has been reached (%d)."
          [ArgD MAX_CALLBACKS]]) callbacks registered Hcbs Hperm)
          as (f' & t' & l' & Hrun & Hl' & Hp' & Heq').
        exists f', t', l'. split; [exact Hrun|]. split; [exact Hl'|].
        split; [exact Hp'|]. intros Hreg. inversion Hreg; subst. auto.
      * set (cb := {| m_Callback := callback; m_UserData := user_data |}).
        destruct (IH (set_ResourceReloadedCallbacks (Some (callbacks ++ [cb])) f)
                    t (callbacks ++ [cb]) (registered ++ [cb]) eq_refl)
          as (f' & t' & l' & Hrun & Hl' & Hp' & Heq').
        { now rewrite Hperm. }
        exists f', t', l'. split; [exact Hrun|]. split; [exact Hl'|].
        split; [exact Hp'|]. intros Hreg Heq. inversion Hreg; subst. auto.
    + unfold UnregisterResourceReloadedCallback, bind at 1, factory at 1. simpl.
      rewrite Hcbs. simpl.
      destruct (IH (set_ResourceReloadedCallbacks
                      (Some (unregister_loop (length callbacks) 0 callback
                               user_data callbacks)) f)
                  t (unregister_loop (length callbacks) 0 callback user_data
                       callbacks)
                  (List.filter
                     (fun cb => negb (same_observer callback user_data cb))
                     registered) eq_refl)
        as (f' & t' & l' & Hrun & Hl' & Hp' & Heq').
      { rewrite unregister_loop_perm by lia. rewrite take_0, drop_0. simpl.
        now apply List_filter_perm. }
      exists f', t', l'. split; [exact Hrun|]. split; [exact Hl'|].
      split; [exact Hp'|]. intros Hreg. inversion Hreg; subst. contradiction.
Qed.

(** C5, as amended.  After a history of registrations and unregistrations on
    a factory with reload support, a reload that succeeds first tries the
    transports, then calls the recreate callback, and only then calls the
    observers: one call for each entry of the observer array, in the order
    of the array, each with the descriptor and the name given to the reload.
    The array holds exactly the observers that were registered while there
    was room and not unregistered since; it holds them in the order of
    their registration when nothing was unregistered.  A reload with any
    other result calls no observer at all, and a recreate callback it has
    called did not return success. *)
Theorem observers_notified_in_array_order (cs : list ObserverCall)
    (w : World) (name : string) (f0 f f' : SResourceFactory)
    (t0 t t' : list Event) (registered : list ResourceReloadedCallbackPair)
    (res : ReloadResult) (out_descriptor : option SResourceDescriptor) :
  m_ResourceReloadedCallbacks f0 = Some registered ->
  observer_calls cs (f0, t0) = Some (tt, (f, t)) ->
  ReloadResource dmHashBuffer64 w name (f, t)
    = Some ((res, out_descriptor), (f', t')) ->
  observers f ≡ₚ registered_in_order cs registered
  /\ (Forall is_register cs ->
      observers f = registered_in_order cs registered)
  /\ (res = RELOAD_RESULT_OK ->
      exists rd rt size evs,
        out_descriptor = Some rd
        /\ Forall transport_event evs
        /\ call_recreate w (m_RecreateFunction rt) (m_Context rt)
             (m_StreamBuffer f') size rd name = CREATE_RESULT_OK
        /\ t' = (t ++ evs)
                ++ [EvRecreate (m_RecreateFunction rt) (m_Context rt)
                      (m_StreamBuffer f') size rd name]
                ++ notifications (observers f) rd name)
  /\ (res <> RELOAD_RESULT_OK ->
      exists evs,
        t' = t ++ evs
        /\ Forall (fun e => ~ is_notification e) evs
        /\ forall fn ctx buffer size rd n,
             In (EvRecreate fn ctx buffer size rd n) evs ->
             call_recreate w fn ctx buffer size rd n <> CREATE_RESULT_OK).
Proof.
  intros Hcbs Hcalls Hreload.
  destruct (observer_calls_registry cs f0 t0 registered registered Hcbs
              (Permutation_refl _))
    as (f1 & t1 & l & Hrun & Hl & Hperm & Heq).
  rewrite Hcalls in Hrun. injection Hrun as <- <-.
  assert (Hobs : observers f = l) by (unfold observers; now rewrite Hl).
  split; [rewrite Hobs; exact Hperm|]. split; [rewrite Hobs; auto|].
  assert (Hquiet : res <> RELOAD_RESULT_OK ->
            exists evs,
              t = t ++ evs
              /\ Forall (fun e => ~ is_notification e) evs
              /\ forall fn ctx buffer size rd n,
                   In (EvRecreate fn ctx buffer size rd n) evs ->
                   call_recreate w fn ctx buffer size rd n <> CREATE_RESULT_OK).
  { intros _. exists []. split; [now rewrite app_nil_r|].
    split; [constructor|]. intros fn ctx buffer size rd n []. }
  assert (Htransport : forall evs, Forall transport_event evs ->
            Forall (fun e => ~ is_notification e) evs
            /\ forall fn ctx buffer size rd n,
                 ~ In (EvRecreate fn ctx buffer size rd n) evs).
  { intros evs Hevs. split.
    - eapply Forall_impl; [exact Hevs|].
      intros e He. destruct e; simpl in *; tauto.
    - intros fn ctx buffer size rd n Hin.
      rewrite List.Forall_forall in Hevs. apply (Hevs _ Hin). }
  apply ReloadResource_inv in Hreload. simpl in Hreload.
  destruct Hreload as [(_ & Hres & _ & _ & ->)|(rd & rt & _ & _ & -> & H)].
  { split; [intros Hok; congruence | exact Hquiet]. }
  destruct H as [(_ & Hres & _ & ->)|(_ & result & size & tL & Hload & H)].
  { split; [intros Hok; congruence | exact Hquiet]. }
  clear Hquiet.
  destruct (preserves_LoadResource _ _ _ _ _ _ Hload)
    as [Hframe (evs & HtL & Hevs)].
  simpl in Hframe, HtL.
  destruct (Htransport evs Hevs) as (Hnone & Hnorecreate).
  destruct H as [(_ & Hres & ->)|(_ & cr & Hcr & [(-> & Hres & ->)|(Hne & Hres & ->)])].
  - split; [intros Hok; congruence|]. intros _. exists evs.
    split; [exact HtL|]. split; [exact Hnone|].
    intros fn ctx buffer size' rd' n Hin. now apply Hnorecreate in Hin.
  - split.
    + intros _. exists rd, rt, size, evs. split; [reflexivity|].
      split; [exact Hevs|]. split; [exact Hcr|].
      unfold notifications, observers.
      rewrite (frame_ResourceReloadedCallbacks _ _ Hframe), HtL.
      now rewrite <- !app_assoc.
    + intros Hno. contradiction.
  - split.
    + intros Hok. rewrite Hok in Hres. destruct cr; simpl in Hres; congruence.
    + intros _.
      exists (evs ++ [EvRecreate (m_RecreateFunction rt) (m_Context rt)
                        (m_StreamBuffer f') size rd name]).
      split; [rewrite HtL; now rewrite app_assoc|]. split.
      * apply Forall_app. split; [exact Hnone|].
        constructor; [simpl; tauto | constructor].
      * intros fn ctx buffer size' rd' n Hin. apply in_app_or in Hin.
        destruct Hin as [Hin|[Hin|[]]]; [now apply Hnorecreate in Hin|].
        injection Hin as <- <- <- <- <- <-. rewrite Hcr. exact Hne.
Qed.

End FactoryProperties.

(** ** The order of the transports *)

Lemma FindEntry_size (archive : HArchive) (name : string) (entry : EntryInfo) :
  FindEntry archive name = Some entry ->
  m_Size entry = Z.of_nat (length (m_EntryResource entry)).
Proof.
  induction archive as [|[n data] archive IH]; simpl; [discriminate|].
  destruct (String.eqb n name); [|exact IH]. intros [= <-]. reflexivity.
Qed.

Lemma buffer_write_front (data buf : list byte) :
  (length data <= length buf)%nat ->
  buffer_write 0 data buf = Some (data ++ drop (length data) buf).
Proof.
  intros H. unfold buffer_write.
  destruct (Z.leb_spec (0 + Z.of_nat (length data)) (Z.of_nat (length buf)));
    [|lia].
  reflexivity.
Qed.

Lemma buffer_write_nul (data rest : list byte) :
  (1 <= length rest)%nat ->
  buffer_write (Z.of_nat (length data)) [x00] (data ++ rest)
  = Some (data ++ x00 :: drop 1 rest).
Proof.
  intros H. unfold buffer_write. rewrite length_app.
  destruct (Z.leb_spec 0 (Z.of_nat (length data))); [|lia].
  destruct (Z.leb_spec (Z.of_nat (length data) + Z.of_nat (length [x00]))
              (Z.of_nat (length data + length rest))); [|simpl in *; lia].
  simpl. rewrite Nat2Z.id, take_app_length.
  rewrite drop_app_ge by lia.
  replace (length data + 1 - length data)%nat with 1%nat by lia. reflexivity.
Qed.

(** The archive has the entry: the result is decided by the archive alone. *)
Lemma LoadResource_archive_hit (w : World) (path original_name : string)
    (f : SResourceFactory) (t : list Event) (archive : HArchive)
    (entry : EntryInfo) :
  m_BuiltinsArchive f = Some archive ->
  FindEntry archive original_name = Some entry ->
  (m_StreamBufferSize f <= wrap32 (m_Size entry + 1) ->
   LoadResource w path original_name (f, t)
   = Some ((FACTORY_RESULT_STREAMBUFFER_TOO_SMALL, 0),
           (f, (t ++ [EvFindEntry original_name])
               ++ [EvLog LOG_SEVERITY_ERROR
                     "Resource too large for streambuffer: %s" [ArgS path]])))
  /\ (buffer_ok f -> m_Size entry + 1 < m_StreamBufferSize f ->
      LoadResource w path original_name (f, t)
      = Some ((FACTORY_RESULT_OK, m_Size entry),
              (set_StreamBuffer
                 (m_EntryResource entry
                  ++ x00 :: drop (S (length (m_EntryResource entry)))
                              (m_StreamBuffer f)) f,
               t ++ [EvFindEntry original_name]))).
Proof.
  intros Harchive Hentry.
  pose proof (FindEntry_size _ _ _ Hentry) as Hsize.
  split.
  - intros Hsmall.
    unfold LoadResource, bind at 1, LoadFromArchive, bind at 1, factory at 1.
    simpl. rewrite Harchive. unfold bind at 1, emit at 1. simpl.
    rewrite Hentry.
    destruct (Z.leb_spec (m_StreamBufferSize f) (wrap32 (m_Size entry + 1)));
      [|lia].
    reflexivity.
  - intros [Hrange Hlen] Hfits.
    unfold LoadResource, bind at 1, LoadFromArchive, bind at 1, factory at 1.
    simpl. rewrite Harchive. unfold bind at 1, emit at 1. simpl.
    rewrite Hentry.
    rewrite wrap32_small by lia.
    destruct (Z.leb_spec (m_StreamBufferSize f) (m_Size entry + 1)); [lia|].
    rewrite Hsize, Nat2Z.id, firstn_all.
    unfold bind at 1, store at 1, bind at 1, factory at 1. simpl.
    rewrite buffer_write_front by lia.
    unfold update at 1. simpl.
    unfold bind at 1, store at 1, bind at 1, factory at 1. simpl.
    rewrite buffer_write_nul by (rewrite length_drop; lia).
    rewrite drop_drop. unfold update, ret. simpl.
    replace (length (m_EntryResource entry) + 1)%nat
      with (S (length (m_EntryResource entry))) by lia.
    reflexivity.
Qed.

(** The archive is absent or misses: the load falls through, to HTTP when
    the factory has a client and to the file system otherwise. *)
Lemma LoadResource_fall_through (w : World) (path original_name : string)
    (f : SResourceFactory) (t : list Event) :
  archive_misses f original_name ->
  LoadResource w path original_name (f, t)
  = if negb (m_HttpClient f =? 0)
    then LoadOverHttp w path (f, t ++ archive_lookup f original_name)
    else LoadFromFile w path (f, t ++ archive_lookup f original_name).
Proof.
  unfold archive_misses, archive_lookup. intros Hmiss.
  unfold LoadResource, bind at 1, LoadFromArchive, bind at 1, factory at 1.
  simpl. destruct (m_BuiltinsArchive f) as [archive|].
  - unfold bind at 1, emit at 1. simpl. rewrite Hmiss. simpl.
    unfold bind, factory. simpl. now destruct (negb (m_HttpClient f =? 0)).
  - simpl. unfold bind, factory. simpl. rewrite app_nil_r.
    now destruct (negb (m_HttpClient f =? 0)).
Qed.

Lemma http_callbacks_log (w : World) (cbs : list HttpCallback) :
  preserves (machine_frame is_log) (http_callbacks w cbs).
Proof.
  induction cbs as [|cb cbs IH]; simpl; [apply preserves_ret|].
  apply preserves_bind; [|intros _; exact IH].
  destruct cb; simpl; [unfold HttpHeader, skip | unfold HttpContent]; frame_run.
Qed.

(** What the HTTP path adds to the trace: the request, then log records. *)
Lemma LoadOverHttp_trace (w : World) (path : string) (f f' : SResourceFactory)
    (t t' : list Event) (r : FactoryResult * Z) :
  LoadOverHttp w path (f, t) = Some (r, (f', t')) ->
  exists logs, t' = t ++ EvHttpGet path :: logs /\ Forall is_log logs.
Proof.
  unfold LoadOverHttp, dmHttpClient_Get. intros H.
  unfold bind at 1, update at 1 in H. simpl in H.
  unfold bind at 1, bind at 1, bind at 1, emit at 1 in H. simpl in H.
  unfold bind at 1 in H.
  destruct (http_callbacks w (http_get w path).1
              (set_Http 0 0 (-1) FACTORY_RESULT_OK f, t ++ [EvHttpGet path]))
    as [[[] m1]|] eqn:Hcbs; [|discriminate].
  destruct (http_callbacks_log _ _ _ _ _ Hcbs) as [_ (l1 & E1 & F1)].
  simpl in E1. unfold ret at 1 in H.
  assert (Hrest : preserves (machine_frame is_log)
            (f0 <- factory;;
             (if bool_decide ((http_get w path).2 <> HTTP_RESULT_OK)
              then
               dmLogError "Resource not found: %s" [ArgS path];;
               (if m_HttpStatus f0 =? 404
                then ret (FACTORY_RESULT_RESOURCE_NOT_FOUND, 0)
                else
                 (if bool_decide ((http_get w path).2 = HTTP_RESULT_NOT_200_OK)
                  then
                   dmLogWarning "Unexpected http status code: %d"
                     [ArgD (m_HttpStatus f0)]
                  else skip);;
                 ret (FACTORY_RESULT_IO_ERROR, 0))
              else
               if bool_decide (m_HttpFactoryResult f0 <> FACTORY_RESULT_OK)
               then ret (m_HttpFactoryResult f0, 0)
               else
                (if
                  bool_decide
                    (m_HttpContentLength f0 <> m_HttpTotalBytesStreamed f0)
                 then
                  dmLogError
                    "Expected content length differs from actually streamed for resource %s (%d != %d)"
                    [ArgS path; ArgD (m_HttpContentLength f0);
                     ArgD (m_HttpTotalBytesStreamed f0)]
                 else skip);;
                (if m_StreamBufferSize f0 <=? wrap32 (m_HttpTotalBytesStreamed f0 + 1)
                 then
                  dmLogError "Resource too large for streambuffer: %s"
                    [ArgS path]
                 else skip);;
                store (m_HttpTotalBytesStreamed f0) [x00];;
                ret (FACTORY_RESULT_OK, m_HttpTotalBytesStreamed f0)))%fac).
  { unfold dmLogError, dmLogWarning, skip. frame_run. }
  destruct (Hrest _ _ _ H) as [_ (l2 & E2 & F2)]. simpl in E2.
  exists (l1 ++ l2). rewrite E2, E1, <- !app_assoc. split; [reflexivity|].
  apply Forall_app. auto.
Qed.

(** What the file system path adds to the trace: the [fopen], then log
    records. *)
Lemma LoadFromFile_trace (w : World) (path : string) (f f' : SResourceFactory)
    (t t' : list Event) (r : FactoryResult * Z) :
  LoadFromFile w path (f, t) = Some (r, (f', t')) ->
  exists logs, t' = t ++ EvFopen path :: logs /\ Forall is_log logs.
Proof.
  unfold LoadFromFile. intros H.
  unfold bind at 1, emit at 1 in H. simpl in H.
  assert (Hrest : preserves (machine_frame is_log)
            (match fopen w path with
             | Some file =>
                 f0 <- factory;;
                 (if wrap_long (m_StreamBufferSize f0)
                     <=? wrap_long (file_size file + 1)
                  then
                   dmLogError "Resource too large for streambuffer: %s"
                     [ArgS path];;
                   ret (FACTORY_RESULT_STREAMBUFFER_TOO_SMALL,
                        wrap32 (file_size file))
                  else
                   store (file_size file) [x00];;
                   store 0 (take (Z.to_nat (file_size file)) (file_data file));;
                   (if bool_decide
                         (Z.of_nat
                            (length
                               (take (Z.to_nat (file_size file))
                                  (file_data file)))
                          <> file_size file)
                    then ret (FACTORY_RESULT_IO_ERROR, wrap32 (file_size file))
                    else ret (FACTORY_RESULT_OK, wrap32 (file_size file))))
             | None =>
                 dmLogError "Resource not found: %s" [ArgS path];;
                 ret (FACTORY_RESULT_RESOURCE_NOT_FOUND, 0)
             end)%fac).
  { unfold dmLogError. frame_run. }
  destruct (Hrest _ _ _ H) as [_ (l & E & F)]. simpl in E.
  exists l. rewrite E, <- app_assoc. auto.
Qed.

(** C3, as amended.  On a factory whose stream buffer is the allocation of
    [NewFactory]:
    - when the archive has the name, the result is decided by the archive
      alone, whatever the HTTP server and the files are: the entry and a
      terminator are copied to the stream buffer and its size is returned
      when [size + 1] is below the buffer size, and the result is
      [STREAMBUFFER_TOO_SMALL] when the 32-bit [size + 1] reaches the buffer
      size; the trace shows the archive lookup and no other transport;
    - when the archive is absent or misses and the factory has an HTTP
      client, the load is the HTTP load: after the archive lookup the trace
      shows the GET and log records only;
    - when the archive is absent or misses and there is no client, the load
      is the file system load: the trace shows the [fopen] and log records
      only. *)
Theorem LoadResource_transport_order (w : World) (path original_name : string)
    (f : SResourceFactory) (t : list Event) :
  buffer_ok f ->
  (forall archive entry,
      m_BuiltinsArchive f = Some archive ->
      FindEntry archive original_name = Some entry ->
      (m_StreamBufferSize f <= wrap32 (m_Size entry + 1) ->
       LoadResource w path original_name (f, t)
       = Some ((FACTORY_RESULT_STREAMBUFFER_TOO_SMALL, 0),
               (f, (t ++ [EvFindEntry original_name])
                   ++ [EvLog LOG_SEVERITY_ERROR
                         "Resource too large for streambuffer: %s"
                         [ArgS path]])))
      /\ (m_Size entry + 1 < m_StreamBufferSize f ->
          LoadResource w path original_name (f, t)
          = Some ((FACTORY_RESULT_OK, m_Size entry),
                  (set_StreamBuffer
                     (m_EntryResource entry
                      ++ x00 :: drop (S (length (m_EntryResource entry)))
                                  (m_StreamBuffer f)) f,
                   t ++ [EvFindEntry original_name]))))
  /\ (archive_misses f original_name -> m_HttpClient f <> 0 ->
      LoadResource w path original_name (f, t)
      = LoadOverHttp w path (f, t ++ archive_lookup f original_name)
      /\ forall r f' t',
          LoadResource w path original_name (f, t) = Some (r, (f', t')) ->
          exists logs,
            t' = (t ++ archive_lookup f original_name) ++ EvHttpGet path :: logs
            /\ Forall is_log logs)
  /\ (archive_misses f original_name -> m_HttpClient f = 0 ->
      LoadResource w path original_name (f, t)
      = LoadFromFile w path (f, t ++ archive_lookup f original_name)
      /\ forall r f' t',
          LoadResource w path original_name (f, t) = Some (r, (f', t')) ->
          exists logs,
            t' = (t ++ archive_lookup f original_name) ++ EvFopen path :: logs
            /\ Forall is_log logs).
Proof.
  intros Hbuf. split; [|split].
  - intros archive entry Harchive Hentry.
    destruct (LoadResource_archive_hit w path original_name f t archive entry
                Harchive Hentry) as [Hsmall Hfits].
    split; [exact Hsmall|]. intros H. now apply Hfits.
  - intros Hmiss Hclient.
    rewrite (LoadResource_fall_through w path original_name f t Hmiss).
    destruct (Z.eqb_spec (m_HttpClient f) 0) as [|_]; [contradiction|]. simpl.
    split; [reflexivity|]. intros r f' t' H. eapply LoadOverHttp_trace, H.
  - intros Hmiss Hclient.
    rewrite (LoadResource_fall_through w path original_name f t Hmiss).
    rewrite Hclient. simpl.
    split; [reflexivity|]. intros r f' t' H. eapply LoadFromFile_trace, H.
Qed.

(** ** The HTTP path *)

Lemma HttpHeader_total (w : World) (status : Z) (key value : string)
    (f : SResourceFactory) (t : list Event) :
  http_ok f ->
  exists f', HttpHeader w status key value (f, t) = Some (tt, (f', t))
             /\ http_ok f'.
Proof.
  intros Hok. unfold HttpHeader, bind, update, skip, ret. simpl.
  destruct (String.eqb key "Content-Length"); eexists; (split; [reflexivity|]);
    exact Hok.
Qed.

Lemma HttpContent_total (status : Z) (data : list byte) (f : SResourceFactory)
    (t : list Event) :
  http_ok f ->
  exists f', HttpContent status data (f, t) = Some (tt, (f', t)) /\ http_ok f'.
Proof.
  intros [[Hrange Hlen] Hstreamed].
  unfold HttpContent, bind at 1, factory at 1. simpl.
  unfold bind at 1, c_assert.
  destruct (Z.leb_spec (m_HttpTotalBytesStreamed f) (m_StreamBufferSize f));
    [|lia].
  simpl. rewrite wrap32_small by lia.
  destruct (Z.ltb_spec (m_StreamBufferSize f - m_HttpTotalBytesStreamed f)
              (Z.of_nat (length data))).
  - eexists. split; [reflexivity|]. repeat split; simpl; lia.
  - unfold bind at 1, store, bind at 1, factory at 1. simpl.
    destruct (buffer_write (m_HttpTotalBytesStreamed f) data (m_StreamBuffer f))
      as [buf|] eqn:Hw.
    + pose proof (buffer_write_length _ _ _ _ Hw) as Hl.
      eexists. split; [reflexivity|].
      rewrite wrap32_small by lia. repeat split; simpl; lia.
    + exfalso. unfold buffer_write in Hw.
      destruct (Z.leb_spec 0 (m_HttpTotalBytesStreamed f)); [|lia].
      destruct (Z.leb_spec (m_HttpTotalBytesStreamed f + Z.of_nat (length data))
                  (Z.of_nat (length (m_StreamBuffer f)))); [|lia].
      discriminate.
Qed.

Lemma http_callbacks_total (w : World) (cbs : list HttpCallback)
    (f : SResourceFactory) (t : list Event) :
  http_ok f ->
  exists f', http_callbacks w cbs (f, t) = Some (tt, (f', t)) /\ http_ok f'.
Proof.
  revert f. induction cbs as [|cb cbs IH]; intros f Hok; simpl.
  - exists f. auto.
  - unfold bind.
    destruct cb as [status key value|status data]; simpl.
    + destruct (HttpHeader_total w status key value f t Hok) as (f1 & -> & Hok1).
      apply IH, Hok1.
    + destruct (HttpContent_total status data f t Hok) as (f1 & -> & Hok1).
      apply IH, Hok1.
Qed.

(** From the allocation of [NewFactory] a GET runs all its callbacks. *)
Lemma dmHttpClient_Get_total (w : World) (path : string) (f : SResourceFactory)
    (t : list Event) :
  http_ok f ->
  exists f',
    dmHttpClient_Get w path (f, t)
      = Some (snd (http_get w path), (f', t ++ [EvHttpGet path]))
    /\ http_ok f'.
Proof.
  intros Hok. unfold dmHttpClient_Get, bind at 1, emit at 1. simpl.
  unfold bind at 1.
  destruct (http_callbacks_total w (http_get w path).1 f (t ++ [EvHttpGet path])
              Hok) as (f' & -> & Hok').
  exists f'. auto.
Qed.

Lemma buffer_write_one (offset : Z) (buf : list byte) :
  0 <= offset < Z.of_nat (length buf) ->
  buffer_write offset [x00] buf
  = Some (take (Z.to_nat offset) buf ++ x00 :: drop (Z.to_nat offset + 1) buf).
Proof.
  intros H. unfold buffer_write.
  destruct (Z.leb_spec 0 offset); [|lia].
  destruct (Z.leb_spec (offset + Z.of_nat (length [x00])) (Z.of_nat (length buf)));
    [|simpl in *; lia].
  reflexivity.
Qed.

(** C7, as amended.  Let the archive be absent or miss and the factory have
    an HTTP client.  The GET runs its callbacks, and then:
    - when the GET failed and the status is 404 the result is
      [RESOURCE_NOT_FOUND]; when it failed with another status the result is
      [IO_ERROR]; both after an error record;
    - when the GET succeeded and a chunk was dropped, the result is the
      recorded [m_HttpFactoryResult];
    - otherwise the result is [OK] with the streamed byte count as the
      size and a terminator after the streamed bytes; when the announced
      length differs from the streamed length the load still succeeds, and
      what it logs is a record of severity error. *)
Theorem LoadResource_over_http (w : World) (path original_name : string)
    (f : SResourceFactory) (t : list Event) :
  buffer_ok f ->
  archive_misses f original_name ->
  m_HttpClient f <> 0 ->
  exists f1,
    dmHttpClient_Get w path
      (set_Http 0 0 (-1) FACTORY_RESULT_OK f,
       t ++ archive_lookup f original_name)
    = Some (snd (http_get w path),
            (f1, (t ++ archive_lookup f original_name) ++ [EvHttpGet path]))
    /\ (snd (http_get w path) <> HTTP_RESULT_OK ->
        m_HttpStatus f1 = 404 ->
        LoadResource w path original_name (f, t)
        = Some ((FACTORY_RESULT_RESOURCE_NOT_FOUND, 0),
                (f1, ((t ++ archive_lookup f original_name) ++ [EvHttpGet path])
                     ++ [EvLog LOG_SEVERITY_ERROR "Resource not found: %s"
                           [ArgS path]])))
    /\ (snd (http_get w path) <> HTTP_RESULT_OK ->
        m_HttpStatus f1 <> 404 ->
        LoadResource w path original_name (f, t)
        = Some ((FACTORY_RESULT_IO_ERROR, 0),
                (f1, (((t ++ archive_lookup f original_name) ++ [EvHttpGet path])
                      ++ [EvLog LOG_SEVERITY_ERROR "Resource not found: %s"
                            [ArgS path]])
                     ++ (if bool_decide
                              (snd (http_get w path) = HTTP_RESULT_NOT_200_OK)
                         then [EvLog LOG_SEVERITY_WARNING
                                 "Unexpected http status code: %d"
                                 [ArgD (m_HttpStatus f1)]]
                         else []))))
    /\ (snd (http_get w path) = HTTP_RESULT_OK ->
        m_HttpFactoryResult f1 <> FACTORY_RESULT_OK ->
        LoadResource w path original_name (f, t)
        = Some ((m_HttpFactoryResult f1, 0),
                (f1, (t ++ archive_lookup f original_name) ++ [EvHttpGet path])))
    /\ (snd (http_get w path) = HTTP_RESULT_OK ->
        m_HttpFactoryResult f1 = FACTORY_RESULT_OK ->
        LoadResource w path original_name (f, t)
        = Some ((FACTORY_RESULT_OK, m_HttpTotalBytesStreamed f1),
                (set_StreamBuffer
                   (take (Z.to_nat (m_HttpTotalBytesStreamed f1))
                      (m_StreamBuffer f1)
                    ++ x00 :: drop (Z.to_nat (m_HttpTotalBytesStreamed f1) + 1)
                                (m_StreamBuffer f1)) f1,
                 (((t ++ archive_lookup f original_name) ++ [EvHttpGet path])
                  ++ length_mismatch_log path f1)
                 ++ too_large_log path f1))
        /\ (m_HttpContentLength f1 <> m_HttpTotalBytesStreamed f1 ->
            length_mismatch_log path f1
            = [EvLog LOG_SEVERITY_ERROR
                 "Expected content length differs from actually streamed for resource %s (%d != %d)"
                 [ArgS path; ArgD (m_HttpContentLength f1);
                  ArgD (m_HttpTotalBytesStreamed f1)]]
            /\ Forall (fun e => ~ is_warning e)
                 (length_mismatch_log path f1 ++ too_large_log path f1))).
Proof.
  intros Hbuf Hmiss Hclient.
  assert (Hok : http_ok (set_Http 0 0 (-1) FACTORY_RESULT_OK f)).
  { destruct Hbuf as [Hrange Hlen]. repeat split; simpl; lia. }
  destruct (dmHttpClient_Get_total w path _ (t ++ archive_lookup f original_name)
              Hok) as (f1 & Hget & [[Hrange Hlen] Hstreamed]).
  exists f1. split; [exact Hget|].
  rewrite (LoadResource_fall_through w path original_name f t Hmiss).
  destruct (Z.eqb_spec (m_HttpClient f) 0) as [|_]; [contradiction|]. simpl.
  assert (Hstart : forall k : HttpClientResult -> SResourceFactory
                               -> M (FactoryResult * Z),
             (update (set_Http 0 0 (-1) FACTORY_RESULT_OK);;
              http_result <- dmHttpClient_Get w path;;
              f0 <- factory;; k http_result f0)%fac
               (f, t ++ archive_lookup f original_name)
             = k (snd (http_get w path)) f1
                 (f1, (t ++ archive_lookup f original_name) ++ [EvHttpGet path])).
  { intros k. unfold bind at 1, update at 1. simpl.
    unfold bind at 1. now rewrite Hget. }
  unfold LoadOverHttp. rewrite Hstart. clear Hstart.
  split; [|split; [|split]].
  - intros Hres H404. rewrite (bool_decide_eq_true_2 _ Hres).
    unfold dmLogError, bind, emit. simpl.
    destruct (Z.eqb_spec (m_HttpStatus f1) 404); [|contradiction]. reflexivity.
  - intros Hres H404. rewrite (bool_decide_eq_true_2 _ Hres).
    unfold dmLogError, dmLogWarning, bind, emit, skip, ret. simpl.
    destruct (Z.eqb_spec (m_HttpStatus f1) 404); [contradiction|].
    case_bool_decide; simpl; [reflexivity | now rewrite app_nil_r].
  - intros Hres Hfac.
    rewrite (bool_decide_eq_false_2 (snd (http_get w path) <> HTTP_RESULT_OK))
      by (intros H; now apply H).
    rewrite (bool_decide_eq_true_2 _ Hfac). reflexivity.
  - intros Hres Hfac. split.
    + rewrite (bool_decide_eq_false_2 (snd (http_get w path) <> HTTP_RESULT_OK))
        by (intros H; now apply H).
      rewrite (bool_decide_eq_false_2
                 (m_HttpFactoryResult f1 <> FACTORY_RESULT_OK))
        by (intros H; now apply H).
      unfold length_mismatch_log, too_large_log.
      unfold store, dmLogError, skip, bind, emit, ret, factory, update. simpl.
      case_bool_decide; simpl;
        destruct (m_StreamBufferSize f1
                  <=? wrap32 (m_HttpTotalBytesStreamed f1 + 1));
        simpl; rewrite buffer_write_one by lia; simpl;
        rewrite ?app_nil_r; reflexivity.
    + intros Hne. unfold length_mismatch_log, too_large_log.
      rewrite bool_decide_eq_true_2 by exact Hne. split; [reflexivity|].
      destruct (m_StreamBufferSize f1
                <=? wrap32 (m_HttpTotalBytesStreamed f1 + 1));
        repeat (constructor; [simpl; tauto|]); constructor.
Qed.

(** ** The scenarios of the specification *)

Lemma RegisterType_txt (client size : Z) (reload : bool)
    (archive : option HArchive) (recreate : Z) :
  RegisterType "txt" 0 11 12 recreate
    (sample_factory "/tmp/data" client size reload archive, [])
  = Some (FACTORY_RESULT_OK, (txt_factory client size reload archive recreate, [])).
Proof. reflexivity. Qed.

(** S1: three acquires of ["a.txt"] and three releases. *)
Lemma intern_lifecycle_witness :
  exists f1 t1,
    Get sample_hash disk_world "a.txt" (txt_factory 0 64 true None 13, [])
      = Some ((FACTORY_RESULT_OK, 4096), (f1, t1))
    /\ exists rd rt f2 f3 f4,
        acquire_all sample_hash [disk_world; disk_world] "a.txt" (f1, t1)
          = Some ([(FACTORY_RESULT_OK, 4096); (FACTORY_RESULT_OK, 4096)], (f2, t1))
        /\ m_Resources f2 !! sample_hash "/tmp/data/a.txt" = Some rd
        /\ m_Resource rd = 4096
        /\ m_ReferenceCount rd = 3
        /\ m_ResourceTypes (txt_factory 0 64 true None 13) !! m_ResourceType rd
           = Some rt
        /\ (exists ext,
               strrchr "a.txt" dot = Some ext
               /\ FindResourceType (txt_factory 0 64 true None 13) (str_next ext)
                  = Some (m_ResourceType rd))
        /\ release_n 4096 2 (f2, t1) = Some (tt, (f3, t1))
        /\ m_Resources f3 !! sample_hash "/tmp/data/a.txt"
           = Some (set_ReferenceCount 1 rd)
        /\ Release 4096 (f3, t1)
           = Some (tt, (f4, t1 ++ [EvDestroy (m_DestroyFunction rt) (m_Context rt)
                                     (set_ReferenceCount 0 rd)]))
        /\ m_Resources f4 !! sample_hash "/tmp/data/a.txt" = None
        /\ m_ResourceToHash f4 !! 4096 = None
        /\ (forall filenames,
               m_ResourceHashToFilename f4 = Some filenames ->
               filenames !! sample_hash "/tmp/data/a.txt" = None)
        /\ exists evs, t1 = [] ++ evs /\ Forall (fun e => ~ is_destroy e) evs.
Proof.
  eexists _, _. split; [vm_compute; reflexivity|].
  apply (intern_lifecycle sample_hash disk_world [disk_world; disk_world] "a.txt"
           (txt_factory 0 64 true None 13) _ [] _ 4096).
  - vm_compute. reflexivity.
  - vm_compute. reflexivity.
  - vm_compute. reflexivity.
Defined.

(** C1 as it was stated, for any number of acquires, fails at the 32 bits of
    the reference count: a first [Get] and [2 ^ 32 - 2] hits bring the count
    to [2 ^ 32 - 1]; the next [Get], the [2 ^ 32]-th of the name, returns the
    resource like the others and leaves the count at zero, so that of the
    releases that should follow the first one already fails its assertion
    and no destroy callback is called. *)
Lemma intern_lifecycle_count_wraps :
  exists f1 t1 f2 f3 rd,
    m_Resources (txt_factory 0 64 true None 13) !! sample_hash "/tmp/data/a.txt"
      = None
    /\ Get sample_hash disk_world "a.txt" (txt_factory 0 64 true None 13, [])
       = Some ((FACTORY_RESULT_OK, 4096), (f1, t1))
    /\ acquire_all sample_hash (repeat disk_world (Z.to_nat (2 ^ 32 - 2)))
         "a.txt" (f1, t1)
       = Some (repeat (FACTORY_RESULT_OK, 4096)
                 (length (repeat disk_world (Z.to_nat (2 ^ 32 - 2)))),
               (f2, t1))
    /\ Z.of_nat (length (repeat disk_world (Z.to_nat (2 ^ 32 - 2)))) + 2 = 2 ^ 32
    /\ Get sample_hash disk_world "a.txt" (f2, t1)
       = Some ((FACTORY_RESULT_OK, 4096), (f3, t1))
    /\ m_Resources f3 !! sample_hash "/tmp/data/a.txt" = Some rd
    /\ m_Resource rd = 4096
    /\ m_ReferenceCount rd = 0
    /\ Release 4096 (f3, t1) = None.
Proof.
  assert (Hlen : Z.of_nat (length (repeat disk_world (Z.to_nat (2 ^ 32 - 2))))
                 = 2 ^ 32 - 2) by (rewrite repeat_length; lia).
  assert (Hmiss : m_Resources (txt_factory 0 64 true None 13)
                    !! sample_hash "/tmp/data/a.txt" = None)
    by (vm_compute; reflexivity).
  assert (Hget : exists f1 t1,
             Get sample_hash disk_world "a.txt" (txt_factory 0 64 true None 13, [])
             = Some ((FACTORY_RESULT_OK, 4096), (f1, t1)))
    by (eexists _, _; vm_compute; reflexivity).
  destruct Hget as (f1 & t1 & Hget).
  destruct (acquire_wraps_after_4G sample_hash disk_world
              (repeat disk_world (Z.to_nat (2 ^ 32 - 2))) "a.txt"
              (txt_factory 0 64 true None 13) f1 [] t1 4096 Hmiss Hget Hlen)
    as (f2 & f3 & rd & Hall & Hget3 & Hrd & Hres & Hcount & Hrel).
  exists f1, t1, f2, f3, rd.
  split; [exact Hmiss|]. split; [exact Hget|]. split; [exact Hall|].
  split; [lia|]. split; [exact Hget3|]. split; [exact Hrd|].
  split; [exact Hres|]. split; [exact Hcount|]. exact Hrel.
Qed.

(** S1 and S5: a successful acquire on a miss, and an acquire of a name
    without extension. *)
Lemma Get_is_atomic_witness :
  exists f1 t1 f2 t2,
    Get sample_hash disk_world "a.txt" (txt_factory 0 64 true None 13, [])
      = Some ((FACTORY_RESULT_OK, 4096), (f1, t1))
    /\ (exists resource_type,
           m_Resources f1
           = <[sample_hash "/tmp/data/a.txt" :=
                 {| m_NameHash := sample_hash "/tmp/data/a.txt";
                    m_Resource := 4096; m_ReferenceCount := 1;
                    m_ResourceType := resource_type |}]> ∅
           /\ m_ResourceToHash f1 = <[4096 := sample_hash "/tmp/data/a.txt"]> ∅
           /\ m_ResourceHashToFilename f1
              = Some (<[sample_hash "/tmp/data/a.txt" := "/tmp/data/a.txt"]> ∅))
    /\ Get sample_hash disk_world "a" (f1, t1)
       = Some ((FACTORY_RESULT_MISSING_FILE_EXTENSION, 0), (f2, t2))
    /\ m_Resources f2 = m_Resources f1
    /\ m_ResourceToHash f2 = m_ResourceToHash f1
    /\ m_ResourceHashToFilename f2 = m_ResourceHashToFilename f1.
Proof.
  eexists _, _, _, _.
  lazymatch goal with
  | |- ?G /\ _ => assert (H1 : G) by (vm_compute; reflexivity)
  end.
  split; [exact H1|].
  split.
  { refine (proj2 (Get_is_atomic _ _ _ _ _ _ _ _ _ H1) eq_refl _).
    vm_compute. reflexivity. }
  lazymatch goal with
  | |- ?G /\ _ => assert (H2 : G) by (vm_compute; reflexivity)
  end.
  split; [exact H2|].
  refine (proj1 (Get_is_atomic _ _ _ _ _ _ _ _ _ H2) _). discriminate.
Defined.

(** S4: the archive shadows the file on disk; without archive and client
    the file is read. *)
Lemma LoadResource_transport_order_witness :
  LoadResource disk_world "/tmp/data/a.txt" "a.txt"
    (txt_factory 0 16 false (Some embedded_archive) 13, [])
  = Some ((FACTORY_RESULT_OK, 8),
          (set_StreamBuffer
             (list_byte_of_string "embedded" ++ repeat x00 9)
             (txt_factory 0 16 false (Some embedded_archive) 13),
           [EvFindEntry "a.txt"]))
  /\ LoadResource disk_world "/tmp/data/a.txt" "a.txt"
       (txt_factory 0 16 false None 13, [])
     = LoadFromFile disk_world "/tmp/data/a.txt" (txt_factory 0 16 false None 13, []).
Proof.
  split.
  - assert (Hbuf : buffer_ok (txt_factory 0 16 false (Some embedded_archive) 13))
      by (repeat split; by vm_compute).
    destruct (LoadResource_transport_order disk_world "/tmp/data/a.txt" "a.txt"
                (txt_factory 0 16 false (Some embedded_archive) 13) [] Hbuf)
      as [Harchive _].
    destruct (Harchive embedded_archive
                {| m_EntryResource := list_byte_of_string "embedded";
                   m_Size := 8 |} eq_refl eq_refl) as [_ Hfits].
    exact (Hfits eq_refl).
  - assert (Hbuf : buffer_ok (txt_factory 0 16 false None 13))
      by (repeat split; by vm_compute).
    destruct (LoadResource_transport_order disk_world "/tmp/data/a.txt" "a.txt"
                (txt_factory 0 16 false None 13) [] Hbuf)
      as (_ & _ & Hfile).
    destruct (Hfile I eq_refl) as [Heq _]. exact Heq.
Defined.

(** C3 as it is written fails on an entry that does not fit the stream
    buffer: the archive has the name, and the load returns
    [STREAMBUFFER_TOO_SMALL] instead of the bytes of the entry. *)
Lemma LoadResource_archive_entry_too_large :
  buffer_ok (txt_factory 0 8 false (Some large_archive) 13)
  /\ FindEntry large_archive "a.txt"
     = Some {| m_EntryResource := list_byte_of_string "0123456789abcdef";
               m_Size := 16 |}
  /\ LoadResource disk_world "/tmp/data/a.txt" "a.txt"
       (txt_factory 0 8 false (Some large_archive) 13, [])
     = Some ((FACTORY_RESULT_STREAMBUFFER_TOO_SMALL, 0),
             (txt_factory 0 8 false (Some large_archive) 13,
              [EvFindEntry "a.txt";
               EvLog LOG_SEVERITY_ERROR "Resource too large for streambuffer: %s"
                 [ArgS "/tmp/data/a.txt"]]))
  /\ Get sample_hash disk_world "a.txt"
       (txt_factory 0 8 false (Some large_archive) 13, [])
     = Some ((FACTORY_RESULT_STREAMBUFFER_TOO_SMALL, 0),
             (txt_factory 0 8 false (Some large_archive) 13,
              [EvFindEntry "a.txt";
               EvLog LOG_SEVERITY_ERROR "Resource too large for streambuffer: %s"
                 [ArgS "/tmp/data/a.txt"]])).
Proof.
  split; [repeat split; by vm_compute|].
  split; [reflexivity|]. split; vm_compute; reflexivity.
Qed.

(** S3: the handler has no recreate callback. *)
Lemma ReloadResource_not_supported_witness :
  exists f t rd,
    Get sample_hash disk_world "a.txt" (txt_factory 0 64 true None 0, [])
      = Some ((FACTORY_RESULT_OK, 4096), (f, t))
    /\ m_Resources f !! sample_hash "/tmp/data/a.txt" = Some rd
    /\ ReloadResource sample_hash disk_world "a.txt" (f, t)
       = Some ((RELOAD_RESULT_NOT_SUPPORTED, Some rd), (f, t)).
Proof.
  eexists _, _, _.
  split; [vm_compute; reflexivity|].
  lazymatch goal with
  | |- ?G /\ _ => assert (H1 : G) by (vm_compute; reflexivity)
  end.
  split; [exact H1|].
  apply (ReloadResource_not_supported sample_hash disk_world "a.txt" _ _ _
           (txt_type 0)); [vm_compute; reflexivity | reflexivity | reflexivity].
Defined.

(** S2: a reload that succeeds. *)
Lemma ReloadResource_keeps_tables_witness :
  exists f t f' t' rd,
    Get sample_hash disk_world "a.txt" (txt_factory 0 64 true None 13, [])
      = Some ((FACTORY_RESULT_OK, 4096), (f, t))
    /\ ReloadResource sample_hash disk_world "a.txt" (f, t)
       = Some ((RELOAD_RESULT_OK, Some rd), (f', t'))
    /\ m_Resources f' = m_Resources f
    /\ m_ResourceToHash f' = m_ResourceToHash f
    /\ m_ResourceHashToFilename f' = m_ResourceHashToFilename f
    /\ Some rd = m_Resources f !! sample_hash "/tmp/data/a.txt"
    /\ exists evs, t' = t ++ evs /\ Forall (reload_event (Some rd) "a.txt") evs.
Proof.
  eexists _, _, _, _, _.
  split; [vm_compute; reflexivity|].
  lazymatch goal with
  | |- ?G /\ _ => assert (H1 : G) by (vm_compute; reflexivity)
  end.
  split; [exact H1|].
  exact (ReloadResource_keeps_tables _ _ _ _ _ _ _ _ _ H1).
Defined.

(** Two observers are registered, then the resource is reloaded. *)
Lemma observers_notified_in_array_order_witness :
  exists f0 t0 f t f' t' out,
    Get sample_hash disk_world "a.txt" (txt_factory 0 64 true None 13, [])
      = Some ((FACTORY_RESULT_OK, 4096), (f0, t0))
    /\ m_ResourceReloadedCallbacks f0 = Some []
    /\ observer_calls [CallRegister 1 0; CallRegister 2 0] (f0, t0)
       = Some (tt, (f, t))
    /\ ReloadResource sample_hash disk_world "a.txt" (f, t)
       = Some ((RELOAD_RESULT_OK, out), (f', t'))
    /\ exists rd rt size evs,
        out = Some rd
        /\ Forall transport_event evs
        /\ call_recreate disk_world (m_RecreateFunction rt) (m_Context rt)
             (m_StreamBuffer f') size rd "a.txt" = CREATE_RESULT_OK
        /\ t' = (t ++ evs)
                ++ [EvRecreate (m_RecreateFunction rt) (m_Context rt)
                      (m_StreamBuffer f') size rd "a.txt"]
                ++ notifications (observers f) rd "a.txt"
        /\ observers f
           ≡ₚ registered_in_order [CallRegister 1 0; CallRegister 2 0] []
        /\ (Forall is_register [CallRegister 1 0; CallRegister 2 0] ->
            observers f
            = registered_in_order [CallRegister 1 0; CallRegister 2 0] []).
Proof.
  eexists _, _, _, _, _, _, _.
  split; [vm_compute; reflexivity|].
  lazymatch goal with
  | |- ?G /\ _ => assert (H0 : G) by (vm_compute; reflexivity)
  end.
  split; [exact H0|].
  lazymatch goal with
  | |- ?G /\ _ => assert (H1 : G) by (vm_compute; reflexivity)
  end.
  split; [exact H1|].
  lazymatch goal with
  | |- ?G /\ _ => assert (H2 : G) by (vm_compute; reflexivity)
  end.
  split; [exact H2|].
  destruct (observers_notified_in_array_order sample_hash _ _ _ _ _ _ _ _ _ _ _ _
              H0 H1 H2) as (Hperm & Heq & Hok & _).
  destruct (Hok eq_refl) as (rd & rt & size & evs & Hout & Hevs & Hcr & Ht).
  exists rd, rt, size, evs. auto 10.
Defined.

(** C5 as it is written fails after an unregistration: of three observers
    the first is unregistered; [EraseSwap] moves the third into its slot, so
    the reload calls the third before the second, while the second was
    registered before the third. *)
Lemma observers_not_in_registration_order :
  exists f0 t0 f t f' t' rd,
    Get sample_hash disk_world "a.txt" (txt_factory 0 64 true None 13, [])
      = Some ((FACTORY_RESULT_OK, 4096), (f0, t0))
    /\ observer_calls
         [CallRegister 1 0; CallRegister 2 0; CallRegister 3 0;
          CallUnregister 1 0] (f0, t0)
       = Some (tt, (f, t))
    /\ ReloadResource sample_hash disk_world "a.txt" (f, t)
       = Some ((RELOAD_RESULT_OK, Some rd), (f', t'))
    /\ registered_in_order
         [CallRegister 1 0; CallRegister 2 0; CallRegister 3 0;
          CallUnregister 1 0] []
       = [{| m_Callback := 2; m_UserData := 0 |};
          {| m_Callback := 3; m_UserData := 0 |}]
    /\ List.filter
         (fun e => match e with EvReloaded _ _ _ _ => true | _ => false end)
         (drop (length t) t')
       = [EvReloaded 3 0 rd "a.txt"; EvReloaded 2 0 rd "a.txt"]
    /\ List.filter
         (fun e => match e with EvReloaded _ _ _ _ => true | _ => false end)
         (drop (length t) t')
       <> notifications
            (registered_in_order
               [CallRegister 1 0; CallRegister 2 0; CallRegister 3 0;
                CallUnregister 1 0] []) rd "a.txt".
Proof.
  eexists _, _, _, _, _, _, _.
  split; [vm_compute; reflexivity|].
  split; [vm_compute; reflexivity|].
  split; [vm_compute; reflexivity|].
  split; [vm_compute; reflexivity|].
  split; [vm_compute; reflexivity|].
  vm_compute. discriminate.
Qed.

(** A server that announces ten bytes and streams three; a server that
    answers 404. *)
Lemma LoadResource_over_http_witness :
  exists f2,
    LoadResource short_http_world "/data/a.txt" "a.txt"
      (txt_factory 7 64 false None 13, [])
    = Some ((FACTORY_RESULT_OK, 3),
            (f2, [EvHttpGet "/data/a.txt";
                  EvLog LOG_SEVERITY_ERROR
                    "Expected content length differs from actually streamed for resource %s (%d != %d)"
                    [ArgS "/data/a.txt"; ArgD 10; ArgD 3]]))
    /\ take 4 (m_StreamBuffer f2) = list_byte_of_string "abc" ++ [x00].
Proof.
  assert (Hbuf : buffer_ok (txt_factory 7 64 false None 13))
    by (repeat split; by vm_compute).
  assert (Hclient : m_HttpClient (txt_factory 7 64 false None 13) <> 0)
    by discriminate.
  destruct (LoadResource_over_http short_http_world "/data/a.txt" "a.txt"
              (txt_factory 7 64 false None 13) [] Hbuf I Hclient)
    as (f1 & Hget & _ & _ & _ & Hok).
  vm_compute in Hget. injection Hget as <-.
  destruct (Hok eq_refl eq_refl) as [Hload _].
  eexists. split; [rewrite Hload; vm_compute; reflexivity|].
  vm_compute. reflexivity.
Defined.

(** C7 as it is written fails on the severity of the record: the load of a
    resource whose announced length differs from the streamed length
    returns [OK] with the streamed size, and the only record it logs has
    severity error; no warning is logged. *)
Lemma LoadResource_length_mismatch_is_logged_as_error :
  exists f2 t2,
    LoadResource short_http_world "/data/a.txt" "a.txt"
      (txt_factory 7 64 false None 13, [])
    = Some ((FACTORY_RESULT_OK, 3), (f2, t2))
    /\ m_HttpContentLength f2 = 10
    /\ m_HttpTotalBytesStreamed f2 = 3
    /\ t2 = [EvHttpGet "/data/a.txt";
             EvLog LOG_SEVERITY_ERROR
               "Expected content length differs from actually streamed for resource %s (%d != %d)"
               [ArgS "/data/a.txt"; ArgD 10; ArgD 3]]
    /\ Forall (fun e => ~ is_warning e) t2
    /\ severity_level LOG_SEVERITY_ERROR <> severity_level LOG_SEVERITY_WARNING.
Proof.
  eexists _, _.
  split; [vm_compute; reflexivity|].
  split; [reflexivity|]. split; [reflexivity|]. split; [reflexivity|].
  split; [|discriminate].
  repeat (constructor; [simpl; tauto|]). constructor.
Qed.

(** The handlers answer a format error: [Get] says [UNKNOWN], a reload of
    the interned resource says [FORMAT_ERROR]. *)
Lemma create_errors_collapse_in_Get_witness :
  exists f1 t1 f t f2 t2 rd,
    Get sample_hash failing_world "a.txt" (txt_factory 0 64 true None 13, [])
      = Some ((FACTORY_RESULT_UNKNOWN, 0), (f1, t1))
    /\ Get sample_hash disk_world "a.txt" (txt_factory 0 64 true None 13, [])
       = Some ((FACTORY_RESULT_OK, 4096), (f, t))
    /\ ReloadResource sample_hash failing_world "a.txt" (f, t)
       = Some ((RELOAD_RESULT_FORMAT_ERROR, Some rd), (f2, t2)).
Proof.
  destruct (create_errors_collapse_in_Get sample_hash CREATE_RESULT_FORMAT_ERROR
              ltac:(discriminate)) as (HGet & HReload & _).
  eexists _, _, _, _, _, _, _.
  split.
  { eapply (HGet failing_world "a.txt" ".txt" (txt_factory 0 64 true None 13) _
              [] _ 0%nat (txt_type 13) 5 4096);
      vm_compute; reflexivity. }
  split; [vm_compute; reflexivity|].
  eapply (HReload failing_world "a.txt" _ _ _ _ _ (txt_type 13) 5).
  - vm_compute. reflexivity.
  - reflexivity.
  - discriminate.
  - vm_compute. reflexivity.
  - reflexivity.
Defined.
(** * Further properties *)

(** ** Canonical paths *)

Lemma str_take_length (n : nat) (s : string) :
  (String.length (str_take n s) <= n)%nat.
Proof.
  revert s. induction n as [|n IH]; intros [|a s]; simpl; try lia.
  specialize (IH s). lia.
Qed.

Lemma collapse_loop_keeps (c : ascii) (s : string) :
  List.filter (fun a => negb (Ascii.eqb a slash))
    (list_ascii_of_string (collapse_loop c s))
  = List.filter (fun a => negb (Ascii.eqb a slash)) (list_ascii_of_string s).
Proof.
  revert c. induction s as [|a s IH]; intros c; simpl; [reflexivity|].
  destruct (Ascii.eqb a slash) eqn:Ha; simpl.
  - destruct (Ascii.eqb c slash); simpl; rewrite ?Ha; simpl; apply IH.
  - rewrite Ha. simpl. f_equal. apply IH.
Qed.

(** Collapsing after a collapse that started behind a slash only if this
    one does. *)
Lemma collapse_loop_absorbs (c d : ascii) (s : string) :
  (Ascii.eqb d slash = true -> Ascii.eqb c slash = true) ->
  collapse_loop c (collapse_loop d s) = collapse_loop c s.
Proof.
  intros Hcd. destruct s as [|a s]; [reflexivity|].
  cbn [collapse_loop].
  destruct (Ascii.eqb a slash) eqn:Ha; cbn [negb orb andb].
  - destruct (Ascii.eqb d slash) eqn:Hd; cbn [negb orb andb].
    + pose proof (Hcd eq_refl) as Hc. rewrite Hc. cbn [negb orb andb].
      apply Ascii.eqb_eq in Ha, Hc. subst a c. apply collapse_loop_idem.
    + cbn [collapse_loop]. rewrite Ha. cbn [negb orb andb].
      destruct (Ascii.eqb c slash); cbn [negb orb andb].
      * apply collapse_loop_idem.
      * f_equal. apply collapse_loop_idem.
  - cbn [collapse_loop]. rewrite Ha. cbn [negb orb andb].
    f_equal. apply collapse_loop_idem.
Qed.

(** X1.  Whatever the base and the name are, also when their concatenation
    is cut at the limit: the canonical path has at most
    [RESOURCE_PATH_MAX - 1] characters and no two consecutive slashes, and
    its other characters are those of the formatted text, in their order:
    the loop drops slashes and nothing else. *)
Theorem GetCanonicalPath_is_canonical (base_dir relative_dir : string) :
  Z.of_nat (String.length (GetCanonicalPath base_dir relative_dir))
    <= RESOURCE_PATH_MAX - 1
  /\ no_slash_run (GetCanonicalPath base_dir relative_dir)
  /\ List.filter (fun a => negb (Ascii.eqb a slash))
       (list_ascii_of_string (GetCanonicalPath base_dir relative_dir))
     = List.filter (fun a => negb (Ascii.eqb a slash))
         (list_ascii_of_string
            (DM_SNPRINTF RESOURCE_PATH_MAX
               (base_dir +:+ "/" +:+ relative_dir))).
Proof.
  unfold GetCanonicalPath, no_slash_run. split; [|split].
  - pose proof (collapse_loop_length
                  (DM_SNPRINTF RESOURCE_PATH_MAX
                     (base_dir +:+ "/" +:+ relative_dir)) zero) as H1.
    pose proof (str_take_length (Z.to_nat (RESOURCE_PATH_MAX - 1))
                  (base_dir +:+ "/" +:+ relative_dir)) as H2.
    unfold DM_SNPRINTF in *. unfold RESOURCE_PATH_MAX in *. lia.
  - rewrite <- collapse_loop_runs. apply collapse_loop_idem.
  - apply collapse_loop_keeps.
Qed.

(** Names that are equal once they stand behind a slash and their runs of
    slashes are collapsed have one canonical path. *)
Lemma GetCanonicalPath_variants (base name1 name2 : string) :
  Z.of_nat (String.length base) + 1 + Z.of_nat (String.length name1)
    < RESOURCE_PATH_MAX ->
  Z.of_nat (String.length base) + 1 + Z.of_nat (String.length name2)
    < RESOURCE_PATH_MAX ->
  collapse_runs ("/" +:+ name1) = collapse_runs ("/" +:+ name2) ->
  GetCanonicalPath base name1 = GetCanonicalPath base name2.
Proof.
  intros H1 H2 Heq.
  rewrite !GetCanonicalPath_prefix by assumption. f_equal.
  rewrite <- (collapse_loop_absorbs (last_char zero base) zero ("/" +:+ name1))
    by (intros H; discriminate H).
  rewrite <- (collapse_loop_absorbs (last_char zero base) zero ("/" +:+ name2))
    by (intros H; discriminate H).
  now rewrite !collapse_loop_runs, Heq.
Qed.

(** ** The registry and the type ids *)

Lemma find_type_from_app (i : nat) (types : list SResourceType)
    (rt : SResourceType) (extension : string) :
  find_type_from i (types ++ [rt]) extension
  = match find_type_from i types extension with
    | Some j => Some j
    | None => if String.eqb extension (m_Extension rt)
              then Some (i + length types)%nat else None
    end.
Proof.
  revert i. induction types as [|rt' types IH]; intros i; simpl.
  - now rewrite Nat.add_0_r.
  - destruct (String.eqb extension (m_Extension rt')); [reflexivity|].
    rewrite IH. now rewrite Nat.add_succ_comm.
Qed.

Lemma find_type_from_at (i j : nat) (types : list SResourceType)
    (rt : SResourceType) :
  NoDup (map m_Extension types) ->
  types !! j = Some rt ->
  find_type_from i types (m_Extension rt) = Some (i + j)%nat.
Proof.
  revert i j. induction types as [|rt' types IH]; intros i j Hnd Hj;
    [discriminate|].
  simpl in Hnd. apply NoDup_cons in Hnd. destruct Hnd as [Hnotin Hnd].
  destruct j as [|j]; simpl in *.
  - injection Hj as ->. rewrite String.eqb_refl. now rewrite Nat.add_0_r.
  - destruct (String.eqb_spec (m_Extension rt) (m_Extension rt')) as [Heq|_].
    + exfalso. apply Hnotin. rewrite <- Heq.
      apply list_elem_of_In, in_map, list_elem_of_In.
      eapply list_elem_of_lookup_2, Hj.
    + rewrite (IH (S i) j Hnd Hj). f_equal. lia.
Qed.

Lemma extension_from_Some (lay : Layout) (i : nat) (types : list SResourceType)
    (type : Z) (extension : string) :
  extension_from lay i types type = Some extension ->
  exists j rt,
    types !! j = Some rt
    /\ type_address lay (i + j) = type
    /\ m_Extension rt = extension.
Proof.
  revert i. induction types as [|rt types IH]; intros i; simpl; [discriminate|].
  destruct (Z.eqb_spec (type_address lay i) type) as [Heq|_].
  - intros [= <-]. exists 0%nat, rt. now rewrite Nat.add_0_r.
  - intros H. destruct (IH _ H) as (j & rt' & Hj & Ha & He).
    exists (S j), rt'. simpl. rewrite <- Nat.add_succ_comm. auto.
Qed.

Lemma extension_from_None (lay : Layout) (i : nat) (types : list SResourceType)
    (type : Z) :
  (forall j, (j < length types)%nat -> type_address lay (i + j) <> type) ->
  extension_from lay i types type = None.
Proof.
  revert i. induction types as [|rt types IH]; intros i H; simpl; [reflexivity|].
  destruct (Z.eqb_spec (type_address lay i) type) as [Heq|_].
  - exfalso. apply (H 0%nat); [simpl; lia|]. now rewrite Nat.add_0_r.
  - apply IH. intros j Hj. rewrite Nat.add_succ_comm. apply H. simpl. lia.
Qed.

Lemma extension_from_at (lay : Layout) (i j : nat) (types : list SResourceType)
    (rt : SResourceType) :
  sizeof_SResourceType lay <> 0 ->
  types !! j = Some rt ->
  extension_from lay i types (type_address lay (i + j)) = Some (m_Extension rt).
Proof.
  intros Hsize. revert i j. induction types as [|rt' types IH]; intros i j Hj;
    [discriminate|].
  destruct j as [|j]; simpl in *.
  - injection Hj as ->. rewrite Nat.add_0_r, Z.eqb_refl. reflexivity.
  - destruct (Z.eqb_spec (type_address lay i) (type_address lay (i + S j)))
      as [Heq|_].
    + exfalso. unfold type_address in Heq. nia.
    + rewrite <- Nat.add_succ_comm. now apply IH.
Qed.

(** The ways in which [RegisterType] returns. *)
Lemma RegisterType_inv (extension : string) (context create destroy recreate : Z)
    (f f' : SResourceFactory) (t t' : list Event) (res : FactoryResult) :
  RegisterType extension context create destroy recreate (f, t)
    = Some (res, (f', t')) ->
  t' = t
  /\ ((res <> FACTORY_RESULT_OK /\ f' = f)
      \/ (res = FACTORY_RESULT_OK
          /\ m_ResourceTypesCount f <> MAX_RESOURCE_TYPES
          /\ strrchr extension dot = None
          /\ create <> 0 /\ destroy <> 0
          /\ FindResourceType f extension = None
          /\ f' = set_ResourceTypes
                    (m_ResourceTypes f
                     ++ [{| m_Extension := extension; m_Context := context;
                            m_CreateFunction := create;
                            m_DestroyFunction := destroy;
                            m_RecreateFunction := recreate |}]) f)).
Proof.
  unfold RegisterType. intros H. run_in H.
  destruct (Z.eqb_spec (m_ResourceTypesCount f) MAX_RESOURCE_TYPES) as [|Hcount];
    [injection H as <- <- <-; split; [reflexivity|]; left; split;
       [discriminate | reflexivity]|].
  case_bool_decide as Hdot;
    [injection H as <- <- <-; split; [reflexivity|]; left; split;
       [discriminate | reflexivity]|].
  destruct (Z.eqb_spec create 0) as [|Hc]; simpl in H;
    [injection H as <- <- <-; split; [reflexivity|]; left; split;
       [discriminate | reflexivity]|].
  destruct (Z.eqb_spec destroy 0) as [|Hd]; simpl in H;
    [injection H as <- <- <-; split; [reflexivity|]; left; split;
       [discriminate | reflexivity]|].
  case_bool_decide as Hfound;
    [injection H as <- <- <-; split; [reflexivity|]; left; split;
       [discriminate | reflexivity]|].
  run_in H. injection H as <- <- <-. split; [reflexivity|]. right.
  split; [reflexivity|]. split; [exact Hcount|].
  split; [exact Hdot|].
  split; [exact Hc|]. split; [exact Hd|].
  split; [exact Hfound|].
  reflexivity.
Qed.

(** X2.  The registry only grows at its end.  Whatever [RegisterType]
    returns, every extension that had a type id keeps it; when it returns
    [OK] the new extension gets the id of the entry behind the old ones, and
    registering the same extension again changes nothing and does not return
    [OK]; when it returns another result the factory is unchanged.  Nothing
    is logged. *)
Theorem RegisterType_keeps_type_ids (lay : Layout) (extension : string)
    (context create destroy recreate : Z) (f f' : SResourceFactory)
    (t t' : list Event) (res : FactoryResult) :
  RegisterType extension context create destroy recreate (f, t)
    = Some (res, (f', t')) ->
  t' = t
  /\ (forall e type,
         GetTypeFromExtension lay f e = (FACTORY_RESULT_OK, type) ->
         GetTypeFromExtension lay f' e = (FACTORY_RESULT_OK, type))
  /\ (res = FACTORY_RESULT_OK ->
      GetTypeFromExtension lay f extension
        = (FACTORY_RESULT_UNKNOWN_RESOURCE_TYPE, 0)
      /\ GetTypeFromExtension lay f' extension
         = (FACTORY_RESULT_OK,
            wrap32 (type_address lay (length (m_ResourceTypes f))))
      /\ m_ResourceTypesCount f' = m_ResourceTypesCount f + 1
      /\ forall context' create' destroy' recreate',
          exists res',
            RegisterType extension context' create' destroy' recreate' (f', t')
              = Some (res', (f', t'))
            /\ res' <> FACTORY_RESULT_OK)
  /\ (res <> FACTORY_RESULT_OK -> f' = f).
Proof.
  intros H. apply RegisterType_inv in H. destruct H as [-> H].
  split; [reflexivity|].
  destruct H as [[Hres ->]|(-> & Hcount & Hdot & Hc & Hd & Hfind & ->)].
  - split; [auto|]. split; [contradiction | reflexivity].
  - unfold GetTypeFromExtension, FindResourceType in *. simpl.
    split; [|split; [|congruence]].
    + intros e type. rewrite find_type_from_app.
      destruct (find_type_from 0 (m_ResourceTypes f) e); [auto | discriminate].
    + intros _. rewrite Hfind, find_type_from_app, Hfind. simpl.
      rewrite String.eqb_refl. split; [reflexivity|]. split; [reflexivity|].
      split.
      { unfold m_ResourceTypesCount. simpl. rewrite length_app. simpl. lia. }
      intros context' create' destroy' recreate'.
      unfold RegisterType, bind, factory, ret. simpl.
      destruct (m_ResourceTypesCount _ =? MAX_RESOURCE_TYPES);
        [eexists; split; [reflexivity | discriminate]|].
      rewrite bool_decide_eq_false_2 by (rewrite Hdot; auto).
      destruct ((create' =? 0) || (destroy' =? 0));
        [eexists; split; [reflexivity | discriminate]|].
      rewrite bool_decide_eq_true_2.
      * eexists; split; [reflexivity | discriminate].
      * unfold FindResourceType. simpl. rewrite find_type_from_app, Hfind.
        simpl. rewrite String.eqb_refl. discriminate.
Qed.

Lemma RegisterType_keeps_type_ids_witness :
  exists f',
    RegisterType "png" 0 21 22 0 (txt_factory 0 64 true None 13, [])
      = Some (FACTORY_RESULT_OK, (f', []))
    /\ GetTypeFromExtension layout32 f' "txt" = (FACTORY_RESULT_OK, 4096)
    /\ GetTypeFromExtension layout32 f' "png" = (FACTORY_RESULT_OK, 4116).
Proof.
  eexists.
  lazymatch goal with
  | |- ?G /\ _ => assert (H1 : G) by (vm_compute; reflexivity)
  end.
  split; [exact H1|].
  destruct (RegisterType_keeps_type_ids layout32 _ _ _ _ _ _ _ _ _ _ H1)
    as (_ & Hold & Hnew & _).
  split.
  - apply Hold. reflexivity.
  - apply (proj1 (proj2 (Hnew eq_refl))).
Defined.

(** X3.  In a process whose registry lies below [2 ^ 32], type ids and
    extensions are in one-to-one correspondence: [GetExtensionFromType]
    gives back the extension whose id [GetTypeFromExtension] returned, and
    the other way round. *)
Theorem type_id_round_trip (lay : Layout) (f : SResourceFactory)
    (extension : string) (type : Z) :
  layout_32bit lay ->
  registry_ok f ->
  GetTypeFromExtension lay f extension = (FACTORY_RESULT_OK, type)
  <-> GetExtensionFromType lay f type = (FACTORY_RESULT_OK, Some extension).
Proof.
  intros (Hbase & Hsize & Hfit) [Hcount Hnd _].
  unfold GetTypeFromExtension, GetExtensionFromType, FindResourceType.
  unfold m_ResourceTypesCount, MAX_RESOURCE_TYPES in *.
  assert (Hsmall : forall i rt,
             m_ResourceTypes f !! i = Some rt ->
             wrap32 (type_address lay i) = type_address lay i).
  { intros i rt Hi. apply lookup_lt_Some in Hi.
    apply wrap32_small. unfold type_address. nia. }
  split.
  - destruct (find_type_from 0 (m_ResourceTypes f) extension) as [i|] eqn:Hfind;
      [|discriminate].
    intros [= <-].
    destruct (find_type_from_Some _ _ _ _ Hfind) as (rt & Hi & <- & _).
    rewrite Nat.sub_0_r in Hi. rewrite (Hsmall _ _ Hi).
    rewrite (extension_from_at lay 0 i _ rt) by (auto; lia). reflexivity.
  - destruct (extension_from lay 0 (m_ResourceTypes f) type) as [e|] eqn:Hext;
      [|discriminate].
    intros [= ->].
    destruct (extension_from_Some _ _ _ _ _ Hext) as (j & rt & Hj & <- & <-).
    rewrite (find_type_from_at 0 j _ rt Hnd Hj). simpl.
    now rewrite (Hsmall _ _ Hj).
Qed.

Lemma type_id_round_trip_witness :
  layout_32bit layout32
  /\ registry_ok two_types_factory
  /\ GetTypeFromExtension layout32 two_types_factory "png"
     = (FACTORY_RESULT_OK, 4116)
  /\ GetExtensionFromType layout32 two_types_factory 4116
     = (FACTORY_RESULT_OK, Some "png").
Proof.
  assert (Hlay : layout_32bit layout32) by (vm_compute; repeat split; congruence).
  assert (Hreg : registry_ok two_types_factory).
  { constructor.
    - vm_compute. congruence.
    - simpl. repeat constructor; simpl; intros H;
        repeat (apply elem_of_cons in H; destruct H as [H|H]; [discriminate|]);
        inversion H.
    - intros rt [<-|[<-|[]]]; simpl; repeat split; try lia;
        unfold contains_dot; simpl; intros H;
        repeat (destruct H as [H|H]; [discriminate|]); exact H. }
  split; [exact Hlay|]. split; [exact Hreg|].
  split; [reflexivity|].
  apply (proj1 (type_id_round_trip layout32 two_types_factory "png" 4116
                  Hlay Hreg)).
  reflexivity.
Defined.

(** X4.  The type ids are not 64-bit friendly: when the registry lies at
    or above [2 ^ 32], the id that [GetTypeFromExtension] returns for a
    registered extension is the address cut to 32 bits, and
    [GetExtensionFromType], which compares it with the whole address, finds
    no entry for it. *)
Theorem type_id_lost_above_4G (lay : Layout) (f : SResourceFactory)
    (extension : string) (type : Z) :
  2 ^ 32 <= types_base lay ->
  0 <= sizeof_SResourceType lay ->
  GetTypeFromExtension lay f extension = (FACTORY_RESULT_OK, type) ->
  GetExtensionFromType lay f type = (FACTORY_RESULT_UNKNOWN_RESOURCE_TYPE, None).
Proof.
  intros Hbase Hsize.
  unfold GetTypeFromExtension, GetExtensionFromType, FindResourceType.
  destruct (find_type_from 0 (m_ResourceTypes f) extension) as [i|];
    [|discriminate].
  intros [= <-]. rewrite extension_from_None; [reflexivity|].
  intros j _. unfold type_address, wrap32.
  pose proof (Z.mod_pos_bound (types_base lay + Z.of_nat i * sizeof_SResourceType lay)
                (2 ^ 32) ltac:(lia)) as Hmod.
  nia.
Qed.

Lemma type_id_lost_above_4G_witness :
  GetTypeFromExtension layout64 two_types_factory "png"
    = (FACTORY_RESULT_OK, 4136)
  /\ GetExtensionFromType layout64 two_types_factory 4136
     = (FACTORY_RESULT_UNKNOWN_RESOURCE_TYPE, None).
Proof.
  split; [reflexivity|].
  apply (type_id_lost_above_4G layout64 two_types_factory "png" 4136).
  - vm_compute. congruence.
  - vm_compute. congruence.
  - reflexivity.
Defined.

(** ** The stream buffer *)

Lemma buffer_write_inv (offset : Z) (data buf buf' : list byte) :
  buffer_write offset data buf = Some buf' ->
  0 <= offset
  /\ offset + Z.of_nat (length data) <= Z.of_nat (length buf)
  /\ buf' = take (Z.to_nat offset) buf ++ data
            ++ drop (Z.to_nat offset + length data) buf.
Proof.
  unfold buffer_write.
  destruct (Z.leb_spec 0 offset); [|discriminate].
  destruct (Z.leb_spec (offset + Z.of_nat (length data)) (Z.of_nat (length buf)));
    [|discriminate].
  simpl. intros [= <-]. auto.
Qed.

Lemma buffer_write_Some (offset : Z) (data buf : list byte) :
  0 <= offset ->
  offset + Z.of_nat (length data) <= Z.of_nat (length buf) ->
  buffer_write offset data buf
  = Some (take (Z.to_nat offset) buf ++ data
          ++ drop (Z.to_nat offset + length data) buf).
Proof.
  intros H0 H1. unfold buffer_write.
  destruct (Z.leb_spec 0 offset); [|lia].
  destruct (Z.leb_spec (offset + Z.of_nat (length data)) (Z.of_nat (length buf)));
    [|lia].
  reflexivity.
Qed.

(** A store changes the bytes it writes and no others. *)
Lemma buffer_write_lookup (offset : Z) (data buf buf' : list byte) (i : nat) :
  buffer_write offset data buf = Some buf' ->
  buf' !! i
  = if (Z.to_nat offset <=? i)%nat && (i <? Z.to_nat offset + length data)%nat
    then data !! (i - Z.to_nat offset)%nat
    else buf !! i.
Proof.
  intros H. apply buffer_write_inv in H. destruct H as (H0 & H1 & ->).
  assert (Hl : length (take (Z.to_nat offset) buf) = Z.to_nat offset)
    by (rewrite length_take; lia).
  destruct (Nat.leb_spec (Z.to_nat offset) i) as [Hge|Hlt]; simpl.
  - rewrite lookup_app_r by lia. rewrite Hl.
    destruct (Nat.ltb_spec i (Z.to_nat offset + length data)) as [Hin|Hout].
    + rewrite lookup_app_l by lia. reflexivity.
    + rewrite lookup_app_r by lia. rewrite lookup_drop. f_equal. lia.
  - rewrite lookup_app_l by lia. apply lookup_take_lt. lia.
Qed.

Lemma store_inv (offset : Z) (data : list byte) (f f' : SResourceFactory)
    (t t' : list Event) :
  store offset data (f, t) = Some (tt, (f', t')) ->
  exists buf,
    buffer_write offset data (m_StreamBuffer f) = Some buf
    /\ f' = set_StreamBuffer buf f /\ t' = t.
Proof.
  unfold store, bind, factory, update, abort. simpl.
  destruct (buffer_write offset data (m_StreamBuffer f)) as [buf|];
    [|discriminate].
  intros [= <- <-]. eauto.
Qed.

Lemma store_run (offset : Z) (data buf : list byte) (f : SResourceFactory)
    (t : list Event) :
  buffer_write offset data (m_StreamBuffer f) = Some buf ->
  store offset data (f, t) = Some (tt, (set_StreamBuffer buf f, t)).
Proof.
  intros H. unfold store, bind, factory, update. simpl. now rewrite H.
Qed.

(** ** Streaming over HTTP *)

(** A chunk that fits is appended to what has been streamed. *)
Lemma HttpContent_fits (status : Z) (data : list byte) (f : SResourceFactory)
    (t : list Event) :
  http_ok f ->
  m_HttpTotalBytesStreamed f + Z.of_nat (length data) <= m_StreamBufferSize f ->
  exists f',
    HttpContent status data (f, t) = Some (tt, (f', t))
    /\ http_ok f'
    /\ m_HttpTotalBytesStreamed f'
       = m_HttpTotalBytesStreamed f + Z.of_nat (length data)
    /\ m_StreamBuffer f'
       = take (Z.to_nat (m_HttpTotalBytesStreamed f)) (m_StreamBuffer f) ++ data
         ++ drop (Z.to_nat (m_HttpTotalBytesStreamed f) + length data)
              (m_StreamBuffer f)
    /\ m_HttpFactoryResult f' = m_HttpFactoryResult f
    /\ m_StreamBufferSize f' = m_StreamBufferSize f.
Proof.
  intros [[Hrange Hlen] Hstreamed] Hfits.
  unfold HttpContent, bind at 1, factory at 1. simpl.
  unfold bind at 1, c_assert.
  destruct (Z.leb_spec (m_HttpTotalBytesStreamed f) (m_StreamBufferSize f));
    [|lia].
  simpl. rewrite wrap32_small by lia.
  destruct (Z.ltb_spec (m_StreamBufferSize f - m_HttpTotalBytesStreamed f)
              (Z.of_nat (length data))); [lia|].
  unfold bind at 1.
  pose proof (buffer_write_Some (m_HttpTotalBytesStreamed f) data
                (m_StreamBuffer f) ltac:(lia) ltac:(lia)) as Hw.
  rewrite (store_run _ _ _ f t Hw).
  unfold update. simpl. rewrite wrap32_small by lia.
  eexists. split; [reflexivity|]. simpl.
  split; [|auto].
  repeat split; simpl; try lia.
  rewrite !length_app, length_take, length_drop. lia.
Qed.

(** A chunk that does not fit is dropped, and the drop is recorded. *)
Lemma HttpContent_dropped (status : Z) (data : list byte) (f : SResourceFactory)
    (t : list Event) :
  http_ok f ->
  m_StreamBufferSize f < m_HttpTotalBytesStreamed f + Z.of_nat (length data) ->
  HttpContent status data (f, t)
  = Some (tt, (set_HttpFactoryResult FACTORY_RESULT_STREAMBUFFER_TOO_SMALL f, t)).
Proof.
  intros [[Hrange Hlen] Hstreamed] Hover.
  unfold HttpContent, bind at 1, factory at 1. simpl.
  unfold bind at 1, c_assert.
  destruct (Z.leb_spec (m_HttpTotalBytesStreamed f) (m_StreamBufferSize f));
    [|lia].
  simpl. rewrite wrap32_small by lia.
  destruct (Z.ltb_spec (m_StreamBufferSize f - m_HttpTotalBytesStreamed f)
              (Z.of_nat (length data))); [|lia].
  reflexivity.
Qed.

(** The callbacks never reset the record of a dropped chunk, and record
    nothing else. *)
Lemma http_callbacks_result (w : World) (cbs : list HttpCallback)
    (f f' : SResourceFactory) (t t' : list Event) :
  http_callbacks w cbs (f, t) = Some (tt, (f', t')) ->
  m_HttpFactoryResult f' = m_HttpFactoryResult f
  \/ m_HttpFactoryResult f' = FACTORY_RESULT_STREAMBUFFER_TOO_SMALL.
Proof.
  revert f t. induction cbs as [|cb cbs IH]; intros f t H; simpl in H.
  - injection H as <- <-. now left.
  - apply bind_Some in H. destruct H as ([] & [f1 t1] & Hcb & Hrest).
    assert (H1 : m_HttpFactoryResult f1 = m_HttpFactoryResult f
                 \/ m_HttpFactoryResult f1 = FACTORY_RESULT_STREAMBUFFER_TOO_SMALL).
    { destruct cb as [status key value|status data]; simpl in Hcb.
      - unfold HttpHeader in Hcb. run_in Hcb.
        destruct (String.eqb key "Content-Length"); run_in Hcb;
          injection Hcb as <- <-; now left.
      - unfold HttpContent in Hcb. run_in Hcb.
        destruct (m_HttpTotalBytesStreamed f <=? m_StreamBufferSize f);
          run_in Hcb; [|discriminate].
        destruct (wrap32 (m_StreamBufferSize f - m_HttpTotalBytesStreamed f)
                  <? Z.of_nat (length data)); run_in Hcb.
        + injection Hcb as <- <-. now right.
        + apply bind_Some in Hcb. destruct Hcb as ([] & [f2 t2] & Hst & Hup).
          apply store_inv in Hst. destruct Hst as (buf & _ & -> & ->).
          run_in Hup. injection Hup as <- <-. now left. }
    destruct (IH _ _ Hrest) as [H2|H2]; [|now right].
    rewrite H2. exact H1.
Qed.

Lemma http_callbacks_sticky (w : World) (cbs : list HttpCallback)
    (f f' : SResourceFactory) (t t' : list Event) :
  http_callbacks w cbs (f, t) = Some (tt, (f', t')) ->
  m_HttpFactoryResult f = FACTORY_RESULT_STREAMBUFFER_TOO_SMALL ->
  m_HttpFactoryResult f' = FACTORY_RESULT_STREAMBUFFER_TOO_SMALL.
Proof.
  intros H Hf. destruct (http_callbacks_result _ _ _ _ _ _ H); congruence.
Qed.

(** A body that fits behind what has been streamed ends up there, chunk
    after chunk. *)
Lemma http_callbacks_stream (w : World) (cbs : list HttpCallback)
    (f : SResourceFactory) (t : list Event) :
  http_ok f ->
  m_HttpTotalBytesStreamed f + Z.of_nat (length (http_body cbs))
    <= m_StreamBufferSize f ->
  exists f',
    http_callbacks w cbs (f, t) = Some (tt, (f', t))
    /\ http_ok f'
    /\ m_HttpTotalBytesStreamed f'
       = m_HttpTotalBytesStreamed f + Z.of_nat (length (http_body cbs))
    /\ take (Z.to_nat (m_HttpTotalBytesStreamed f')) (m_StreamBuffer f')
       = take (Z.to_nat (m_HttpTotalBytesStreamed f)) (m_StreamBuffer f)
         ++ http_body cbs
    /\ m_HttpFactoryResult f' = m_HttpFactoryResult f
    /\ m_StreamBufferSize f' = m_StreamBufferSize f.
Proof.
  revert f. induction cbs as [|cb cbs IH]; intros f Hok Hfits; simpl in *.
  - exists f. rewrite Z.add_0_r, app_nil_r. auto 10.
  - unfold bind. destruct cb as [status key value|status data]; simpl.
    + destruct (HttpHeader_total w status key value f t Hok) as (f1 & E & Hok1).
      rewrite E.
      assert (Hsame : m_HttpTotalBytesStreamed f1 = m_HttpTotalBytesStreamed f
                      /\ m_StreamBuffer f1 = m_StreamBuffer f
                      /\ m_HttpFactoryResult f1 = m_HttpFactoryResult f
                      /\ m_StreamBufferSize f1 = m_StreamBufferSize f).
      { unfold HttpHeader in E. run_in E.
        destruct (String.eqb key "Content-Length"); run_in E;
          injection E as <-; auto. }
      destruct Hsame as (E1 & E2 & E3 & E4).
      destruct (IH f1 Hok1) as (f' & Hrun & Hok' & Hs & Hb & Hr & Hz);
        [rewrite E1, E4; exact Hfits|].
      exists f'. split; [exact Hrun|]. split; [exact Hok'|].
      split; [now rewrite Hs, E1|]. split; [now rewrite Hb, E1, E2|].
      split; congruence.
    + rewrite length_app in Hfits.
      destruct (HttpContent_fits status data f t Hok)
        as (f1 & E & Hok1 & E1 & E2 & E3 & E4); [lia|].
      rewrite E.
      destruct (IH f1 Hok1) as (f' & Hrun & Hok' & Hs & Hb & Hr & Hz);
        [rewrite E1, E4; lia|].
      exists f'. split; [exact Hrun|]. split; [exact Hok'|].
      split; [rewrite Hs, E1, length_app; lia|].
      split; [|split; congruence].
      rewrite Hb, E1, E2.
      destruct Hok as [[Hrange Hlen] Hstreamed].
      replace (Z.to_nat (m_HttpTotalBytesStreamed f + Z.of_nat (length data)))
        with (length (take (Z.to_nat (m_HttpTotalBytesStreamed f))
                        (m_StreamBuffer f) ++ data))
        by (rewrite length_app, length_take; lia).
      rewrite app_assoc, take_app_length, <- app_assoc. reflexivity.
Qed.

(** A body that does not fit behind what has been streamed leaves the
    record of a dropped chunk. *)
Lemma http_callbacks_overflow (w : World) (cbs : list HttpCallback)
    (f : SResourceFactory) (t : list Event) :
  http_ok f ->
  m_StreamBufferSize f
    < m_HttpTotalBytesStreamed f + Z.of_nat (length (http_body cbs)) ->
  exists f',
    http_callbacks w cbs (f, t) = Some (tt, (f', t))
    /\ http_ok f'
    /\ m_HttpFactoryResult f' = FACTORY_RESULT_STREAMBUFFER_TOO_SMALL.
Proof.
  revert f. induction cbs as [|cb cbs IH]; intros f Hok Hover; simpl in *.
  - destruct Hok as [_ Hs]. lia.
  - unfold bind. destruct cb as [status key value|status data]; simpl.
    + destruct (HttpHeader_total w status key value f t Hok) as (f1 & E & Hok1).
      rewrite E.
      assert (Hsame : m_HttpTotalBytesStreamed f1 = m_HttpTotalBytesStreamed f
                      /\ m_StreamBufferSize f1 = m_StreamBufferSize f).
      { unfold HttpHeader in E. run_in E.
        destruct (String.eqb key "Content-Length"); run_in E;
          injection E as <-; auto. }
      destruct Hsame as (E1 & E4).
      apply IH; [exact Hok1|]. now rewrite E1, E4.
    + rewrite length_app in Hover.
      destruct (Z.le_gt_cases
                  (m_HttpTotalBytesStreamed f + Z.of_nat (length data))
                  (m_StreamBufferSize f)) as [Hfits|Hdrop].
      * destruct (HttpContent_fits status data f t Hok Hfits)
          as (f1 & E & Hok1 & E1 & _ & _ & E4).
        rewrite E. apply IH; [exact Hok1|]. rewrite E1, E4. lia.
      * rewrite (HttpContent_dropped status data f t Hok) by lia.
        assert (Hok1 : http_ok (set_HttpFactoryResult
                                  FACTORY_RESULT_STREAMBUFFER_TOO_SMALL f))
          by exact Hok.
        destruct (http_callbacks_total w cbs _ t Hok1) as (f' & Hrun & Hok').
        exists f'. split; [exact Hrun|]. split; [exact Hok'|].
        eapply http_callbacks_sticky; [exact Hrun | reflexivity].
Qed.

Lemma dmHttpClient_Get_run (w : World) (path : string) (f f1 : SResourceFactory)
    (t t1 : list Event) :
  http_callbacks w (fst (http_get w path)) (f, t ++ [EvHttpGet path])
    = Some (tt, (f1, t1)) ->
  dmHttpClient_Get w path (f, t) = Some (snd (http_get w path), (f1, t1)).
Proof.
  intros H. unfold dmHttpClient_Get, bind at 1, emit at 1. simpl.
  unfold bind at 1. now rewrite H.
Qed.

(** The HTTP load after a GET that succeeded. *)
Lemma LoadOverHttp_after_get (w : World) (path : string)
    (f f1 : SResourceFactory) (t t1 : list Event) :
  dmHttpClient_Get w path (set_Http 0 0 (-1) FACTORY_RESULT_OK f, t)
    = Some (HTTP_RESULT_OK, (f1, t1)) ->
  http_ok f1 ->
  (m_HttpFactoryResult f1 <> FACTORY_RESULT_OK ->
   LoadOverHttp w path (f, t) = Some ((m_HttpFactoryResult f1, 0), (f1, t1)))
  /\ (m_HttpFactoryResult f1 = FACTORY_RESULT_OK ->
      LoadOverHttp w path (f, t)
      = Some ((FACTORY_RESULT_OK, m_HttpTotalBytesStreamed f1),
              (set_StreamBuffer
                 (take (Z.to_nat (m_HttpTotalBytesStreamed f1)) (m_StreamBuffer f1)
                  ++ x00 :: drop (Z.to_nat (m_HttpTotalBytesStreamed f1) + 1)
                              (m_StreamBuffer f1)) f1,
               (t1 ++ length_mismatch_log path f1) ++ too_large_log path f1))).
Proof.
  intros Hget [[Hrange Hlen] Hstreamed].
  assert (Hstart : forall k : HttpClientResult -> SResourceFactory
                               -> M (FactoryResult * Z),
             (update (set_Http 0 0 (-1) FACTORY_RESULT_OK);;
              http_result <- dmHttpClient_Get w path;;
              f0 <- factory;; k http_result f0)%fac (f, t)
             = k HTTP_RESULT_OK f1 (f1, t1)).
  { intros k. unfold bind at 1, update at 1. simpl.
    unfold bind at 1. now rewrite Hget. }
  unfold LoadOverHttp. rewrite Hstart. clear Hstart.
  rewrite (bool_decide_eq_false_2 (HTTP_RESULT_OK <> HTTP_RESULT_OK))
    by (intros H; now apply H).
  split.
  - intros Hfac. rewrite (bool_decide_eq_true_2 _ Hfac). reflexivity.
  - intros Hfac.
    rewrite (bool_decide_eq_false_2 (m_HttpFactoryResult f1 <> FACTORY_RESULT_OK))
      by (intros H; now apply H).
    unfold length_mismatch_log, too_large_log.
    unfold store, dmLogError, skip, bind, emit, ret, factory, update. simpl.
    case_bool_decide; simpl;
      destruct (m_StreamBufferSize f1 <=? wrap32 (m_HttpTotalBytesStreamed f1 + 1));
      simpl; rewrite buffer_write_one by lia; simpl;
      rewrite ?app_nil_r; reflexivity.
Qed.

(** X5.  What is streamed over HTTP is what the load delivers.  On a
    factory whose stream buffer is the allocation of [NewFactory], let the
    archive be absent or miss, the factory have an HTTP client and the GET
    succeed with a body sent in any number of chunks.  When the body is not
    longer than the stream buffer size, the load returns [OK] and the length
    of the body, and the stream buffer holds the body followed by a
    terminator; a body that leaves no room for the terminator before the
    buffer size is still accepted, with an error record (as long as its
    length plus one fits in 32 bits).  When the body is longer, the load
    returns [STREAMBUFFER_TOO_SMALL]. *)
Theorem LoadResource_http_body (w : World) (path original_name : string)
    (f : SResourceFactory) (t : list Event) (cbs : list HttpCallback) :
  buffer_ok f ->
  archive_misses f original_name ->
  m_HttpClient f <> 0 ->
  http_get w path = (cbs, HTTP_RESULT_OK) ->
  (Z.of_nat (length (http_body cbs)) <= m_StreamBufferSize f ->
   exists f' t',
     LoadResource w path original_name (f, t)
       = Some ((FACTORY_RESULT_OK, Z.of_nat (length (http_body cbs))), (f', t'))
     /\ take (length (http_body cbs)) (m_StreamBuffer f') = http_body cbs
     /\ m_StreamBuffer f' !! length (http_body cbs) = Some x00
     /\ (m_StreamBufferSize f <= Z.of_nat (length (http_body cbs)) + 1 ->
         Z.of_nat (length (http_body cbs)) + 1 < 2 ^ 32 ->
         In (EvLog LOG_SEVERITY_ERROR "Resource too large for streambuffer: %s"
               [ArgS path]) t'))
  /\ (m_StreamBufferSize f < Z.of_nat (length (http_body cbs)) ->
      exists f' t',
        LoadResource w path original_name (f, t)
          = Some ((FACTORY_RESULT_STREAMBUFFER_TOO_SMALL, 0), (f', t'))).
Proof.
  intros Hbuf Hmiss Hclient Hhttp.
  assert (Hok : http_ok (set_Http 0 0 (-1) FACTORY_RESULT_OK f)).
  { destruct Hbuf as [Hrange Hlen]. repeat split; simpl; lia. }
  rewrite (LoadResource_fall_through w path original_name f t Hmiss).
  destruct (Z.eqb_spec (m_HttpClient f) 0) as [|_]; [contradiction|]. simpl.
  split.
  - intros Hfits.
    destruct (http_callbacks_stream w cbs _
                ((t ++ archive_lookup f original_name) ++ [EvHttpGet path]) Hok)
      as (f1 & Hrun & Hok1 & Hs & Hb & Hr & Hz); [simpl; lia|].
    simpl in Hs, Hb, Hr, Hz.
    assert (Hget : dmHttpClient_Get w path
                     (set_Http 0 0 (-1) FACTORY_RESULT_OK f,
                      t ++ archive_lookup f original_name)
                   = Some (HTTP_RESULT_OK,
                           (f1, (t ++ archive_lookup f original_name)
                                ++ [EvHttpGet path]))).
    { rewrite (dmHttpClient_Get_run w path _ f1 _
                 ((t ++ archive_lookup f original_name) ++ [EvHttpGet path]));
        rewrite Hhttp; [reflexivity | exact Hrun]. }
    destruct (LoadOverHttp_after_get w path f f1 _ _ Hget Hok1) as [_ Hload].
    destruct Hok1 as [[Hrange1 Hlen1] Hstreamed1].
    assert (Hsz : Z.of_nat (length (http_body cbs)) = m_HttpTotalBytesStreamed f1)
      by lia.
    assert (Hn : Z.to_nat (m_HttpTotalBytesStreamed f1) = length (http_body cbs))
      by lia.
    assert (Htake : length (take (Z.to_nat (m_HttpTotalBytesStreamed f1))
                              (m_StreamBuffer f1))
                    = length (http_body cbs))
      by (rewrite length_take; lia).
    eexists _, _. split; [rewrite (Hload Hr), Hsz; reflexivity|].
    simpl. split; [|split].
    + rewrite <- Htake at 1. rewrite take_app_length. now rewrite Hb.
    + rewrite <- Htake at 1. rewrite lookup_app_r by lia.
      now rewrite Nat.sub_diag.
    + intros Hlarge Hwrap. apply in_or_app. right. unfold too_large_log.
      rewrite wrap32_small by lia.
      destruct (Z.leb_spec (m_StreamBufferSize f1) (m_HttpTotalBytesStreamed f1 + 1));
        [now left | lia].
  - intros Hover.
    destruct (http_callbacks_overflow w cbs _
                ((t ++ archive_lookup f original_name) ++ [EvHttpGet path]) Hok)
      as (f1 & Hrun & Hok1 & Hr); [simpl; lia|].
    assert (Hget : dmHttpClient_Get w path
                     (set_Http 0 0 (-1) FACTORY_RESULT_OK f,
                      t ++ archive_lookup f original_name)
                   = Some (HTTP_RESULT_OK,
                           (f1, (t ++ archive_lookup f original_name)
                                ++ [EvHttpGet path]))).
    { rewrite (dmHttpClient_Get_run w path _ f1 _
                 ((t ++ archive_lookup f original_name) ++ [EvHttpGet path]));
        rewrite Hhttp; [reflexivity | exact Hrun]. }
    destruct (LoadOverHttp_after_get w path f f1 _ _ Hget Hok1) as [Hload _].
    rewrite Hload by (rewrite Hr; discriminate). rewrite Hr. eauto.
Qed.

Lemma LoadResource_http_body_witness :
  (exists f' t',
      LoadResource (chunked_world [list_byte_of_string "abc";
                                   list_byte_of_string "defgh"])
        "/data/a.txt" "a.txt" (txt_factory 7 8 false None 13, [])
        = Some ((FACTORY_RESULT_OK, 8), (f', t'))
      /\ take 8 (m_StreamBuffer f') = list_byte_of_string "abcdefgh"
      /\ m_StreamBuffer f' !! 8%nat = Some x00
      /\ In (EvLog LOG_SEVERITY_ERROR "Resource too large for streambuffer: %s"
               [ArgS "/data/a.txt"]) t')
  /\ exists f' t',
      LoadResource (chunked_world [list_byte_of_string "abc";
                                   list_byte_of_string "defghi"])
        "/data/a.txt" "a.txt" (txt_factory 7 8 false None 13, [])
        = Some ((FACTORY_RESULT_STREAMBUFFER_TOO_SMALL, 0), (f', t')).
Proof.
  assert (Hbuf : buffer_ok (txt_factory 7 8 false None 13))
    by (split; [split; [discriminate | reflexivity] | reflexivity]).
  split.
  - destruct (LoadResource_http_body
                (chunked_world [list_byte_of_string "abc";
                                list_byte_of_string "defgh"])
                "/data/a.txt" "a.txt" (txt_factory 7 8 false None 13) []
                _ Hbuf I ltac:(discriminate) eq_refl) as [Hfits _].
    destruct (Hfits ltac:(discriminate)) as (f' & t' & H1 & H2 & H3 & H4).
    exists f', t'. split; [exact H1|]. split; [exact H2|]. split; [exact H3|].
    apply H4; [discriminate | reflexivity].
  - destruct (LoadResource_http_body
                (chunked_world [list_byte_of_string "abc";
                                list_byte_of_string "defghi"])
                "/data/a.txt" "a.txt" (txt_factory 7 8 false None 13) []
                _ Hbuf I ltac:(discriminate) eq_refl) as [_ Hover].
    apply Hover. reflexivity.
Defined.

Lemma wrap_long_small (z : Z) : LONG_MIN <= z <= LONG_MAX -> wrap_long z = z.
Proof.
  unfold wrap_long, LONG_MIN, LONG_MAX, LONG_BITS. intros H.
  rewrite Z.mod_small by lia. lia.
Qed.

Lemma wrap_long_buffer_size (f : SResourceFactory) :
  buffer_ok f -> wrap_long (m_StreamBufferSize f) = m_StreamBufferSize f.
Proof.
  intros [Hrange _]. apply wrap_long_small.
  unfold LONG_MIN, LONG_MAX, LONG_BITS. lia.
Qed.

(** The file system path after the [fopen]. *)
Lemma LoadFromFile_open (w : World) (path : string) (f : SResourceFactory)
    (t : list Event) :
  LoadFromFile w path (f, t)
  = match fopen w path with
    | None =>
        Some ((FACTORY_RESULT_RESOURCE_NOT_FOUND, 0),
              (f, (t ++ [EvFopen path])
                  ++ [EvLog LOG_SEVERITY_ERROR "Resource not found: %s"
                        [ArgS path]]))
    | Some file =>
        if wrap_long (m_StreamBufferSize f) <=? wrap_long (file_size file + 1)
        then Some ((FACTORY_RESULT_STREAMBUFFER_TOO_SMALL,
                    wrap32 (file_size file)),
                   (f, (t ++ [EvFopen path])
                       ++ [EvLog LOG_SEVERITY_ERROR
                             "Resource too large for streambuffer: %s"
                             [ArgS path]]))
        else
          (store (file_size file) [x00] ;;
           store 0 (take (Z.to_nat (file_size file)) (file_data file)) ;;
           if bool_decide
                (Z.of_nat (length (take (Z.to_nat (file_size file))
                                     (file_data file)))
                 <> file_size file)
           then ret (FACTORY_RESULT_IO_ERROR, wrap32 (file_size file))
           else ret (FACTORY_RESULT_OK, wrap32 (file_size file)))%fac
            (f, t ++ [EvFopen path])
    end.
Proof.
  unfold LoadFromFile, bind at 1, emit at 1. simpl.
  destruct (fopen w path) as [file|]; [|reflexivity].
  unfold bind at 1, factory at 1. simpl.
  destruct (wrap_long (m_StreamBufferSize f) <=? wrap_long (file_size file + 1));
    reflexivity.
Qed.

(** X6.  The file system path.  On a factory whose stream buffer is the
    allocation of [NewFactory], let the archive be absent or miss and the
    factory have no HTTP client.  A file that cannot be opened gives
    [RESOURCE_NOT_FOUND].  For a file whose size is a [long]: a size below
    [LONG_MAX] that with the terminator reaches the stream buffer size gives
    [STREAMBUFFER_TOO_SMALL] and leaves the stream buffer alone; a smaller
    size that is read in full gives [OK] with the size, the bytes at the
    front of the stream buffer and a terminator behind them; a read that
    delivers less than the size gives [IO_ERROR]; a negative size (an
    [ftell] that failed) is not checked: the terminator is stored before
    the buffer; and at [LONG_MAX] the size plus one wraps around, the check
    is passed and the terminator is stored far behind the buffer. *)
Theorem LoadResource_from_file (w : World) (path original_name : string)
    (f : SResourceFactory) (t : list Event) :
  buffer_ok f ->
  archive_misses f original_name ->
  m_HttpClient f = 0 ->
  (fopen w path = None ->
   LoadResource w path original_name (f, t)
   = Some ((FACTORY_RESULT_RESOURCE_NOT_FOUND, 0),
           (f, ((t ++ archive_lookup f original_name) ++ [EvFopen path])
               ++ [EvLog LOG_SEVERITY_ERROR "Resource not found: %s"
                     [ArgS path]])))
  /\ forall file,
      fopen w path = Some file ->
      LONG_MIN <= file_size file <= LONG_MAX ->
      (file_size file < LONG_MAX ->
       m_StreamBufferSize f <= file_size file + 1 ->
       LoadResource w path original_name (f, t)
       = Some ((FACTORY_RESULT_STREAMBUFFER_TOO_SMALL, wrap32 (file_size file)),
               (f, ((t ++ archive_lookup f original_name) ++ [EvFopen path])
                   ++ [EvLog LOG_SEVERITY_ERROR
                         "Resource too large for streambuffer: %s"
                         [ArgS path]])))
      /\ (0 <= file_size file -> file_size file + 1 < m_StreamBufferSize f ->
          exists f',
            LoadResource w path original_name (f, t)
            = Some ((if bool_decide (file_size file
                                     <= Z.of_nat (length (file_data file)))
                     then FACTORY_RESULT_OK else FACTORY_RESULT_IO_ERROR,
                     file_size file),
                    (f', (t ++ archive_lookup f original_name) ++ [EvFopen path]))
            /\ m_StreamBuffer f' !! Z.to_nat (file_size file) = Some x00
            /\ (file_size file <= Z.of_nat (length (file_data file)) ->
                take (Z.to_nat (file_size file)) (m_StreamBuffer f')
                = take (Z.to_nat (file_size file)) (file_data file)))
      /\ (file_size file < 0 -> file_size file + 1 < m_StreamBufferSize f ->
          LoadResource w path original_name (f, t) = None)
      /\ (file_size file = LONG_MAX ->
          LoadResource w path original_name (f, t) = None).
Proof.
  intros Hbuf Hmiss Hclient.
  pose proof (wrap_long_buffer_size f Hbuf) as Hsize.
  destruct Hbuf as [Hrange Hlen].
  rewrite (LoadResource_fall_through w path original_name f t Hmiss).
  rewrite Hclient. simpl. rewrite LoadFromFile_open.
  split.
  - intros ->. reflexivity.
  - intros file -> Hlong. rewrite Hsize. split; [|split; [|split]].
    + intros Hmax Hlarge.
      rewrite wrap_long_small by (unfold LONG_MIN, LONG_MAX, LONG_BITS in *; lia).
      destruct (Z.leb_spec (m_StreamBufferSize f) (file_size file + 1)); [|lia].
      reflexivity.
    + intros Hpos Hfits.
      rewrite wrap_long_small by (unfold LONG_MIN, LONG_MAX, LONG_BITS in *; lia).
      destruct (Z.leb_spec (m_StreamBufferSize f) (file_size file + 1)); [lia|].
      set (read := take (Z.to_nat (file_size file)) (file_data file)).
      assert (Hread : Z.of_nat (length read) <= file_size file)
        by (unfold read; rewrite length_take; lia).
      destruct (buffer_write (file_size file) [x00] (m_StreamBuffer f))
        as [buf1|] eqn:Hw1;
        [|rewrite buffer_write_one in Hw1 by lia; discriminate].
      pose proof (buffer_write_length _ _ _ _ Hw1) as Hl1.
      destruct (buffer_write 0 read buf1) as [buf2|] eqn:Hw2;
        [|rewrite buffer_write_front in Hw2 by lia; discriminate].
      unfold bind at 1. rewrite (store_run _ _ _ _ _ Hw1).
      unfold bind at 1.
      rewrite (store_run 0 read buf2 (set_StreamBuffer buf1 f) _ Hw2).
      exists (set_StreamBuffer buf2 (set_StreamBuffer buf1 f)).
      split; [|split].
      * rewrite wrap32_small by lia. unfold ret.
        case_bool_decide as Hshort; case_bool_decide as Hfull; try reflexivity;
          exfalso; unfold read in *; rewrite length_take in *; lia.
      * simpl. rewrite (buffer_write_lookup _ _ _ _ _ Hw2).
        replace ((Z.to_nat (file_size file) <? Z.to_nat 0 + length read)%nat)
          with false by (symmetry; apply Nat.ltb_ge; lia).
        rewrite andb_false_r.
        rewrite (buffer_write_lookup _ _ _ _ _ Hw1).
        rewrite Nat.leb_refl. simpl.
        replace ((Z.to_nat (file_size file) <? Z.to_nat (file_size file) + 1)%nat)
          with true by (symmetry; apply Nat.ltb_lt; lia).
        now rewrite Nat.sub_diag.
      * intros Hfull. simpl.
        rewrite buffer_write_front in Hw2 by lia. injection Hw2 as <-.
        assert (Hlr : length read = Z.to_nat (file_size file))
          by (unfold read; rewrite length_take; lia).
        rewrite <- Hlr at 1. now rewrite take_app_length.
    + intros Hneg Hfits.
      rewrite wrap_long_small by (unfold LONG_MIN, LONG_MAX, LONG_BITS in *; lia).
      destruct (Z.leb_spec (m_StreamBufferSize f) (file_size file + 1)); [lia|].
      unfold bind at 1, store, bind at 1, factory at 1. simpl.
      unfold buffer_write.
      destruct (Z.leb_spec 0 (file_size file)); [lia|]. reflexivity.
    + intros Hmax. rewrite Hmax.
      change (wrap_long (LONG_MAX + 1)) with LONG_MIN.
      destruct (Z.leb_spec (m_StreamBufferSize f) LONG_MIN) as [Hle|_];
        [unfold LONG_MIN, LONG_BITS in Hle; lia|].
      unfold bind at 1, store, bind at 1, factory at 1. simpl.
      unfold buffer_write.
      destruct (Z.leb_spec (LONG_MAX + Z.of_nat (length [x00]))
                  (Z.of_nat (length (m_StreamBuffer f)))) as [Hle|_];
        [unfold LONG_MAX, LONG_BITS in Hle; simpl in Hle; lia|].
      rewrite andb_false_r. reflexivity.
Qed.

Lemma LoadResource_from_file_witness :
  exists f',
    LoadResource disk_world "/tmp/data/a.txt" "a.txt"
      (txt_factory 0 64 false None 13, [])
    = Some ((FACTORY_RESULT_OK, 5), (f', [EvFopen "/tmp/data/a.txt"]))
    /\ m_StreamBuffer f' !! 5%nat = Some x00
    /\ take 5 (m_StreamBuffer f') = hello.
Proof.
  assert (Hbuf : buffer_ok (txt_factory 0 64 false None 13))
    by (split; [split; [discriminate | reflexivity] | reflexivity]).
  destruct (LoadResource_from_file disk_world "/tmp/data/a.txt" "a.txt"
              (txt_factory 0 64 false None 13) [] Hbuf I eq_refl) as [_ Hfile].
  destruct (Hfile _ eq_refl) as (_ & Hok & _).
  { split; vm_compute; discriminate. }
  destruct (Hok ltac:(discriminate) ltac:(reflexivity)) as (f' & H1 & H2 & H3).
  exists f'. split; [exact H1|]. split; [exact H2|].
  apply H3. discriminate.
Defined.

(** ** What a load returns *)

Lemma LoadFromArchive_inv (path original_name : string) (f f' : SResourceFactory)
    (t t' : list Event) (res : FactoryResult) (n : Z) :
  LoadFromArchive path original_name (f, t) = Some (Some (res, n), (f', t')) ->
  res = FACTORY_RESULT_STREAMBUFFER_TOO_SMALL
  \/ (res = FACTORY_RESULT_OK
      /\ 0 <= n /\ m_StreamBuffer f' !! Z.to_nat n = Some x00).
Proof.
  intros H. unfold LoadFromArchive in H.
  unfold bind at 1, factory at 1 in H. simpl in H.
  destruct (m_BuiltinsArchive f) as [archive|]; [|discriminate].
  unfold bind at 1, emit at 1 in H. simpl in H.
  destruct (FindEntry archive original_name) as [entry|] eqn:Hentry;
    [|discriminate].
  pose proof (FindEntry_size _ _ _ Hentry) as Hsize.
  destruct (m_StreamBufferSize f <=? wrap32 (m_Size entry + 1)).
  - run_in H. injection H as <- _ _ _. now left.
  - right. apply bind_Some in H. destruct H as ([] & [f1 t1] & Hst1 & H).
    apply bind_Some in H. destruct H as ([] & [f2 t2] & Hst2 & H).
    injection H as <- <- <- <-.
    apply store_inv in Hst1. destruct Hst1 as (buf1 & Hw1 & -> & ->).
    apply store_inv in Hst2. destruct Hst2 as (buf2 & Hw2 & -> & ->).
    simpl in *. split; [reflexivity|]. split; [lia|].
    rewrite (buffer_write_lookup _ _ _ _ _ Hw2).
    rewrite Nat.leb_refl. simpl.
    replace ((Z.to_nat (m_Size entry) <? Z.to_nat (m_Size entry) + 1)%nat)
      with true by (symmetry; apply Nat.ltb_lt; lia).
    now rewrite Nat.sub_diag.
Qed.

Lemma LoadFromFile_inv (w : World) (path : string) (f f' : SResourceFactory)
    (t t' : list Event) (res : FactoryResult) (n : Z) :
  buffer_ok f ->
  LoadFromFile w path (f, t) = Some ((res, n), (f', t')) ->
  res = FACTORY_RESULT_RESOURCE_NOT_FOUND
  \/ res = FACTORY_RESULT_STREAMBUFFER_TOO_SMALL
  \/ res = FACTORY_RESULT_IO_ERROR
  \/ (res = FACTORY_RESULT_OK
      /\ 0 <= n /\ m_StreamBuffer f' !! Z.to_nat n = Some x00).
Proof.
  intros [Hrange Hlen] H. rewrite LoadFromFile_open in H.
  destruct (fopen w path) as [file|]; [|injection H as <- _ _ _; auto].
  destruct (wrap_long (m_StreamBufferSize f) <=? wrap_long (file_size file + 1));
    [injection H as <- _ _ _; auto|].
  apply bind_Some in H. destruct H as ([] & [f1 t1] & Hst1 & H).
  apply bind_Some in H. destruct H as ([] & [f2 t2] & Hst2 & H).
  apply store_inv in Hst1. destruct Hst1 as (buf1 & Hw1 & -> & ->).
  apply store_inv in Hst2. destruct Hst2 as (buf2 & Hw2 & -> & ->).
  simpl in Hw2.
  pose proof (buffer_write_inv _ _ _ _ Hw1) as (Hpos & Hend & _).
  simpl in Hend.
  case_bool_decide as Hshort; injection H as <- <- <- <-; [auto|].
  right. right. right. split; [reflexivity|].
  rewrite wrap32_small by lia. split; [exact Hpos|]. simpl.
  rewrite (buffer_write_lookup _ _ _ _ _ Hw2).
  replace ((Z.to_nat (file_size file)
            <? Z.to_nat 0
               + length (take (Z.to_nat (file_size file)) (file_data file)))%nat)
    with false by (symmetry; apply Nat.ltb_ge; rewrite length_take; lia).
  rewrite andb_false_r.
  rewrite (buffer_write_lookup _ _ _ _ _ Hw1).
  rewrite Nat.leb_refl. simpl.
  replace ((Z.to_nat (file_size file) <? Z.to_nat (file_size file) + 1)%nat)
    with true by (symmetry; apply Nat.ltb_lt; lia).
  now rewrite Nat.sub_diag.
Qed.

Lemma LoadOverHttp_inv (w : World) (path : string) (f f' : SResourceFactory)
    (t t' : list Event) (res : FactoryResult) (n : Z) :
  buffer_ok f ->
  LoadOverHttp w path (f, t) = Some ((res, n), (f', t')) ->
  res = FACTORY_RESULT_RESOURCE_NOT_FOUND
  \/ res = FACTORY_RESULT_STREAMBUFFER_TOO_SMALL
  \/ res = FACTORY_RESULT_IO_ERROR
  \/ (res = FACTORY_RESULT_OK
      /\ 0 <= n /\ m_StreamBuffer f' !! Z.to_nat n = Some x00).
Proof.
  intros Hbuf H.
  assert (Hok : http_ok (set_Http 0 0 (-1) FACTORY_RESULT_OK f)).
  { destruct Hbuf as [Hrange Hlen]. repeat split; simpl; lia. }
  destruct (dmHttpClient_Get_total w path _ t Hok) as (f1 & Hget & Hok1).
  assert (Hflag : m_HttpFactoryResult f1 = FACTORY_RESULT_OK
                  \/ m_HttpFactoryResult f1 = FACTORY_RESULT_STREAMBUFFER_TOO_SMALL).
  { pose proof Hget as Hg. unfold dmHttpClient_Get in Hg.
    apply bind_Some in Hg. destruct Hg as ([] & [f2 t2] & Hemit & Hg).
    apply bind_Some in Hg. destruct Hg as ([] & [f3 t3] & Hcbs & Hg).
    injection Hemit as <- <-. injection Hg as -> _.
    apply http_callbacks_result in Hcbs. exact Hcbs. }
  destruct (decide (snd (http_get w path) = HTTP_RESULT_OK)) as [Hres|Hres].
  - rewrite Hres in Hget.
    destruct (LoadOverHttp_after_get w path f f1 _ _ Hget Hok1) as [Hbad Hgood].
    destruct Hflag as [Hflag|Hflag].
    + rewrite (Hgood Hflag) in H. injection H as <- <- <- _.
      right. right. right. split; [reflexivity|].
      destruct Hok1 as [[Hrange1 Hlen1] Hstreamed1]. split; [lia|]. simpl.
      rewrite lookup_app_r by (rewrite length_take; lia).
      rewrite length_take.
      replace (Z.to_nat (m_HttpTotalBytesStreamed f1)
               - Z.to_nat (m_HttpTotalBytesStreamed f1)
                 `min` length (m_StreamBuffer f1))%nat with 0%nat by lia.
      reflexivity.
    + rewrite Hbad in H by (rewrite Hflag; discriminate).
      injection H as <- _ _ _. auto.
  - assert (Hstart : forall k : HttpClientResult -> SResourceFactory
                                 -> M (FactoryResult * Z),
               (update (set_Http 0 0 (-1) FACTORY_RESULT_OK);;
                http_result <- dmHttpClient_Get w path;;
                f0 <- factory;; k http_result f0)%fac (f, t)
               = k (snd (http_get w path)) f1 (f1, t ++ [EvHttpGet path])).
    { intros k. unfold bind at 1, update at 1. simpl.
      unfold bind at 1. now rewrite Hget. }
    unfold LoadOverHttp in H. rewrite Hstart in H. clear Hstart.
    rewrite (bool_decide_eq_true_2 _ Hres) in H.
    run_in H. destruct (m_HttpStatus f1 =? 404); run_in H.
    + injection H as <- _ _ _. auto.
    + case_bool_decide; run_in H; injection H as <- _ _ _; auto.
Qed.

(** A load returns one of four results, and when it returns [OK] the data
    in the stream buffer ends with a terminator at the size it returns. *)
Lemma LoadResource_result (w : World) (path original_name : string)
    (f f' : SResourceFactory) (t t' : list Event) (res : FactoryResult) (n : Z) :
  buffer_ok f ->
  LoadResource w path original_name (f, t) = Some ((res, n), (f', t')) ->
  buffer_ok f'
  /\ In res load_results
  /\ (res = FACTORY_RESULT_OK ->
      0 <= n /\ m_StreamBuffer f' !! Z.to_nat n = Some x00).
Proof.
  intros Hbuf H.
  assert (Hbuf' : buffer_ok f').
  { destruct (preserves_LoadResource _ _ _ _ _ _ H) as [Hframe _].
    simpl in Hframe. destruct Hbuf as [Hrange Hlen]. split.
    - now rewrite (frame_StreamBufferSize _ _ Hframe).
    - now rewrite (frame_StreamBuffer_length _ _ Hframe),
        (frame_StreamBufferSize _ _ Hframe). }
  split; [exact Hbuf'|].
  assert (Hcases : res = FACTORY_RESULT_RESOURCE_NOT_FOUND
                   \/ res = FACTORY_RESULT_STREAMBUFFER_TOO_SMALL
                   \/ res = FACTORY_RESULT_IO_ERROR
                   \/ (res = FACTORY_RESULT_OK
                       /\ 0 <= n /\ m_StreamBuffer f' !! Z.to_nat n = Some x00)).
  { unfold LoadResource in H. apply bind_Some in H.
    destruct H as (from & [f1 t1] & Harch & H).
    destruct from as [[res' n']|].
    - injection H as <- <- <- <-.
      destruct (LoadFromArchive_inv _ _ _ _ _ _ _ _ Harch); auto.
    - assert (Hf1 : f1 = f).
      { unfold LoadFromArchive in Harch. run_in Harch.
        destruct (m_BuiltinsArchive f) as [archive|]; run_in Harch.
        - destruct (FindEntry archive original_name); [|now injection Harch].
          destruct (m_StreamBufferSize f <=? wrap32 (m_Size e + 1));
            run_in Harch; [discriminate|].
          apply bind_Some in Harch. destruct Harch as ([] & m1 & _ & Harch).
          apply bind_Some in Harch. destruct Harch as ([] & m2 & _ & Harch).
          discriminate.
        - now injection Harch. }
      subst f1. unfold bind at 1, factory at 1 in H.
      cbv beta iota in H. cbn [fst snd] in H.
      destruct (negb (m_HttpClient f =? 0)).
      + eapply LoadOverHttp_inv; [exact Hbuf | exact H].
      + eapply LoadFromFile_inv; [exact Hbuf | exact H]. }
  unfold load_results.
  destruct Hcases as [->|[->|[->|(-> & Hn)]]];
    (split; [simpl; tauto|]); first [discriminate | intros _; exact Hn].
Qed.

(** ** The invariants of the tables *)

Lemma factory_ok_same (f f' : SResourceFactory) :
  m_Resources f' = m_Resources f ->
  m_ResourceToHash f' = m_ResourceToHash f ->
  m_ResourceHashToFilename f' = m_ResourceHashToFilename f ->
  (forall i, is_Some (m_ResourceTypes f !! i) -> is_Some (m_ResourceTypes f' !! i)) ->
  factory_ok f -> factory_ok f'.
Proof.
  intros Hr Ha Hn Ht [Hd Hadr Hfn]. constructor.
  - intros h rd. rewrite Hr, Ha. intros H.
    destruct (Hd h rd H) as (H1 & H2 & H3 & H4 & H5). auto 10.
  - intros a h. rewrite Hr, Ha. apply Hadr.
  - intros filenames h. rewrite Hr, Hn. apply Hfn.
Qed.

Lemma factory_ok_frame (f f' : SResourceFactory) :
  loader_frame f f' -> factory_ok f -> factory_ok f'.
Proof.
  intros Hf. apply factory_ok_same; try apply Hf.
  intros i. now rewrite (frame_ResourceTypes _ _ Hf).
Qed.

Lemma registry_ok_same (f f' : SResourceFactory) :
  m_ResourceTypes f' = m_ResourceTypes f -> registry_ok f -> registry_ok f'.
Proof.
  intros Ht [H1 H2 H3]. constructor.
  - unfold m_ResourceTypesCount in *. now rewrite Ht.
  - now rewrite Ht.
  - rewrite Ht. exact H3.
Qed.

Lemma factory_ok_with_count (h : Z) (rd : SResourceDescriptor) (count : Z)
    (f : SResourceFactory) :
  factory_ok f ->
  m_Resources f !! h = Some rd ->
  0 < count < 2 ^ 32 ->
  factory_ok (with_count h rd count f).
Proof.
  intros [Hd Hadr Hfn] Hrd Hcount.
  destruct (Hd h rd Hrd) as (H1 & H2 & H3 & H4 & H5).
  unfold with_count. constructor; simpl.
  - intros h' rd'. destruct (decide (h' = h)) as [->|Hne].
    + rewrite lookup_insert_eq. intros [= <-]. simpl. auto 10.
    + rewrite lookup_insert_ne by congruence. apply Hd.
  - intros a h' Ha. destruct (Hadr a h' Ha) as (rd' & Hrd' & Hres).
    destruct (decide (h' = h)) as [->|Hne].
    + rewrite lookup_insert_eq. eexists. split; [reflexivity|]. simpl. congruence.
    + rewrite lookup_insert_ne by congruence. eauto.
  - intros filenames h' Hf. rewrite (Hfn filenames h' Hf).
    destruct (decide (h' = h)) as [->|Hne].
    + rewrite lookup_insert_eq, Hrd. split; eauto.
    + now rewrite lookup_insert_ne by congruence.
Qed.

Lemma factory_ok_interned (h resource : Z) (resource_type : nat)
    (path : string) (f : SResourceFactory) :
  factory_ok f ->
  m_Resources f !! h = None ->
  m_ResourceToHash f !! resource = None ->
  resource <> 0 ->
  is_Some (m_ResourceTypes f !! resource_type) ->
  factory_ok (interned h {| m_NameHash := h; m_Resource := resource;
                            m_ReferenceCount := 1;
                            m_ResourceType := resource_type |} path f).
Proof.
  intros [Hd Hadr Hfn] Hmiss Hfresh Hnz Htype.
  set (rd := {| m_NameHash := h; m_Resource := resource; m_ReferenceCount := 1;
                m_ResourceType := resource_type |}).
  destruct (interned_tables h rd path f) as (Er & Ea & En & Et & _).
  constructor.
  - intros h' rd'. rewrite Er, Ea, Et. simpl.
    destruct (decide (h' = h)) as [->|Hne].
    + rewrite lookup_insert_eq. intros [= <-]. simpl.
      rewrite lookup_insert_eq. repeat split; auto; lia.
    + rewrite lookup_insert_ne by congruence. intros H.
      destruct (Hd h' rd' H) as (H1 & H2 & H3 & H4 & H5).
      rewrite lookup_insert_ne by congruence. auto 10.
  - intros a h'. rewrite Er, Ea. simpl.
    destruct (decide (a = resource)) as [->|Hne].
    + rewrite lookup_insert_eq. intros [= <-]. exists rd.
      now rewrite lookup_insert_eq.
    + rewrite lookup_insert_ne by congruence. intros Ha.
      destruct (Hadr a h' Ha) as (rd' & Hrd' & Hres).
      exists rd'. rewrite lookup_insert_ne by congruence. auto.
  - intros filenames h'. rewrite En, Er.
    destruct (m_ResourceHashToFilename f) as [names|] eqn:Hn; [|discriminate].
    intros [= <-].
    destruct (decide (h' = h)) as [->|Hne].
    + rewrite !lookup_insert_eq. split; eauto.
    + rewrite !lookup_insert_ne by congruence. now apply Hfn.
Qed.

Lemma erased_maps (h resource : Z) (f : SResourceFactory) :
  m_Resources (erased h resource f) = delete h (m_Resources f)
  /\ m_ResourceToHash (erased h resource f) = delete resource (m_ResourceToHash f)
  /\ m_ResourceHashToFilename (erased h resource f)
     = (fun filenames => delete h filenames) <$> m_ResourceHashToFilename f
  /\ m_ResourceTypes (erased h resource f) = m_ResourceTypes f
  /\ m_ResourceReloadedCallbacks (erased h resource f)
     = m_ResourceReloadedCallbacks f.
Proof. unfold erased. simpl. auto. Qed.

Lemma factory_ok_erased (h resource : Z) (f : SResourceFactory) :
  factory_ok f ->
  m_ResourceToHash f !! resource = Some h ->
  factory_ok (erased h resource f).
Proof.
  intros [Hd Hadr Hfn] Hres.
  destruct (erased_maps h resource f) as (Er & Ea & En & Et & _).
  destruct (Hadr _ _ Hres) as (rd & Hrd & Hrdres).
  constructor.
  - intros h' rd'. rewrite Er, Ea, Et.
    destruct (decide (h' = h)) as [->|Hne].
    + now rewrite lookup_delete_eq.
    + rewrite lookup_delete_ne by congruence. intros H.
      destruct (Hd h' rd' H) as (H1 & H2 & H3 & H4 & H5).
      rewrite lookup_delete_ne by congruence. auto 10.
  - intros a h'. rewrite Er, Ea.
    destruct (decide (a = resource)) as [->|Hne].
    + now rewrite lookup_delete_eq.
    + rewrite lookup_delete_ne by congruence. intros Ha.
      destruct (Hadr a h' Ha) as (rd' & Hrd' & Hres').
      exists rd'. split; [|exact Hres'].
      rewrite lookup_delete_ne; [exact Hrd'|]. congruence.
  - intros filenames h'. rewrite En, Er.
    destruct (m_ResourceHashToFilename f) as [names|] eqn:Hn; [|discriminate].
    intros [= <-].
    destruct (decide (h' = h)) as [->|Hne].
    + rewrite !lookup_delete_eq. split; intros []; discriminate.
    + rewrite !lookup_delete_ne by congruence. now apply Hfn.
Qed.

(** The ways in which [Release] returns. *)
Lemma Release_inv (resource : Z) (f f' : SResourceFactory) (t t' : list Event) :
  Release resource (f, t) = Some (tt, (f', t')) ->
  exists h rd,
    m_ResourceToHash f !! resource = Some h
    /\ m_Resources f !! h = Some rd
    /\ 0 < m_ReferenceCount rd
    /\ ((m_ReferenceCount rd <> 1
         /\ f' = with_count h rd (m_ReferenceCount rd - 1) f /\ t' = t)
        \/ (m_ReferenceCount rd = 1
            /\ exists rt,
                m_ResourceTypes f !! m_ResourceType rd = Some rt
                /\ f' = erased h resource f
                /\ t' = t ++ [EvDestroy (m_DestroyFunction rt) (m_Context rt)
                                (set_ReferenceCount 0 rd)])).
Proof.
  intros H. unfold Release in H. unfold bind at 1, factory at 1 in H. simpl in H.
  destruct (m_ResourceToHash f !! resource) as [h|] eqn:Hh; [|discriminate].
  destruct (m_Resources f !! h) as [rd|] eqn:Hrd; [|discriminate].
  exists h, rd. split; [reflexivity|]. split; [exact Hrd|].
  unfold bind at 1, c_assert in H.
  destruct (Z.ltb_spec 0 (m_ReferenceCount rd)) as [Hpos|]; [|discriminate].
  split; [exact Hpos|]. simpl in H.
  unfold bind at 1, update at 1 in H. simpl in H.
  destruct (Z.eqb_spec (m_ReferenceCount rd - 1) 0) as [Hlast|Hmore].
  - right. split; [lia|].
    unfold bind at 1 in H.
    destruct (type_at (m_ResourceType rd) _) as [[rt m1]|] eqn:Hrt;
      [|discriminate].
    apply type_at_inv in Hrt. destruct Hrt as [-> Hrt]. simpl in Hrt.
    exists rt. split; [exact Hrt|].
    unfold erased. replace (m_ReferenceCount rd - 1) with 0 in H by lia.
    destruct (m_ResourceHashToFilename f) as [filenames|] eqn:E; run_in H.
    + case_bool_decide; run_in H; [|discriminate].
      injection H as <- <-. split; [|reflexivity].
      unfold set_ResourceHashToFilename, set_Resources, set_ResourceToHash. simpl.
      now rewrite delete_insert_eq.
    + injection H as <- <-. split; [|reflexivity].
      unfold set_ResourceHashToFilename, set_Resources, set_ResourceToHash. simpl.
      now rewrite delete_insert_eq, E.
  - left. split; [lia|]. run_in H. injection H as <- <-. auto.
Qed.

Section FactoryInvariants.

Variable dmHashBuffer64 : string -> Z.

(** What [Get] adds to the trace: events of the transports only, or the
    events of a load that succeeded, one call of the create callback of the
    handler with the stream buffer and the size of that load, and log
    records. *)
Lemma Get_trace (w : World) (name : string) (f f' : SResourceFactory)
    (t t' : list Event) (r : FactoryResult * Z) :
  Get dmHashBuffer64 w name (f, t) = Some (r, (f', t')) ->
  m_StreamBufferSize f' = m_StreamBufferSize f
  /\ length (m_StreamBuffer f') = length (m_StreamBuffer f)
  /\ ((exists evs, t' = t ++ evs /\ Forall transport_event evs)
      \/ (exists resource_type rt size f1 t1 tail,
            LoadResource w (GetCanonicalPath (m_Path f) name) name (f, t)
              = Some ((FACTORY_RESULT_OK, size), (f1, t1))
            /\ m_ResourceTypes f !! resource_type = Some rt
            /\ t' = t1 ++ EvCreate (m_CreateFunction rt) (m_Context rt)
                           (m_StreamBuffer f1) size name :: tail
            /\ Forall is_log tail)).
Proof.
  intros H. unfold Get in H. run_in H.
  set (canonical_path := GetCanonicalPath (m_Path f) name) in *.
  set (h := dmHashBuffer64 canonical_path) in *.
  assert (Hone : forall e, transport_event e ->
             exists evs, t ++ [e] = t ++ evs /\ Forall transport_event evs).
  { intros e He. exists [e]. split; [reflexivity|]. now repeat constructor. }
  destruct (m_Resources f !! h) as [rd|] eqn:Hrd.
  { destruct (bool_decide (is_Some (m_ResourceToHash f !! m_Resource rd)));
      run_in H; [|discriminate].
    injection H as _ <- <-. split; [reflexivity|]. split; [reflexivity|].
    left. exists []. now rewrite app_nil_r. }
  destruct (strrchr name dot) as [ext|] eqn:Hext; run_in H;
    [|injection H as _ <- <-; split; [reflexivity|]; split; [reflexivity|];
      left; apply Hone; exact I].
  destruct (FindResourceType f (str_next ext)) as [resource_type|] eqn:Hfind;
    run_in H;
    [|injection H as _ <- <-; split; [reflexivity|]; split; [reflexivity|];
      left; apply Hone; exact I].
  destruct (LoadResource w canonical_path name (f, t))
    as [[[result size] [f1 t1]]|] eqn:Hload; [|discriminate].
  destruct (preserves_LoadResource _ _ _ _ _ _ Hload) as [Hframe (evs & Ht1 & Hevs)].
  simpl in Hframe, Ht1, H.
  case_bool_decide as Hres; run_in H.
  { injection H as _ <- <-.
    split; [apply (frame_StreamBufferSize _ _ Hframe)|].
    split; [apply (frame_StreamBuffer_length _ _ Hframe)|]. left. eauto. }
  subst result.
  destruct (type_at resource_type (f1, t1)) as [[rt m1]|] eqn:Hrt; [|discriminate].
  apply type_at_inv in Hrt. destruct Hrt as [-> Hrt]. simpl in Hrt, H.
  rewrite (frame_ResourceTypes _ _ Hframe) in Hrt.
  destruct (call_create w (m_CreateFunction rt) (m_Context rt) (m_StreamBuffer f1)
              size name) as [create_error created] eqn:Hc.
  simpl in H.
  case_bool_decide as Hok; run_in H.
  - destruct (Z.eqb_spec created 0) as [Hz|Hz]; run_in H; [discriminate|].
    assert (Hf' : m_StreamBufferSize f' = m_StreamBufferSize f1
                  /\ m_StreamBuffer f' = m_StreamBuffer f1
                  /\ t' = t1 ++ [EvCreate (m_CreateFunction rt) (m_Context rt)
                                   (m_StreamBuffer f1) size name]).
    { destruct (m_ResourceHashToFilename f1); run_in H;
        injection H as _ <- <-; auto. }
    destruct Hf' as (E1 & E2 & ->).
    split; [rewrite E1; apply (frame_StreamBufferSize _ _ Hframe)|].
    split; [rewrite E2; apply (frame_StreamBuffer_length _ _ Hframe)|].
    right. exists resource_type, rt, size, f1, t1, []. auto.
  - injection H as _ <- <-.
    split; [apply (frame_StreamBufferSize _ _ Hframe)|].
    split; [apply (frame_StreamBuffer_length _ _ Hframe)|].
    right. exists resource_type, rt, size, f1, t1.
    eexists. split; [reflexivity|]. split; [exact Hrt|].
    split; [now rewrite <- app_assoc|]. now repeat constructor.
Qed.

(** The callbacks that [Get] calls are those of a registered handler. *)
Lemma Get_events (w : World) (name : string) (f f' : SResourceFactory)
    (t t' : list Event) (r : FactoryResult * Z) :
  registry_ok f ->
  Get dmHashBuffer64 w name (f, t) = Some (r, (f', t')) ->
  exists evs, t' = t ++ evs /\ Forall handler_not_null evs.
Proof.
  intros Hreg H. apply Get_trace in H.
  destruct H as (_ & _ & [(evs & -> & Hevs)
                         |(resource_type & rt & size & f1 & t1 & tail
                           & Hload & Hrt & -> & Htail)]).
  - exists evs. split; [reflexivity|].
    eapply Forall_impl; [exact Hevs|]. intros e He. destruct e; simpl in *; tauto.
  - destruct (preserves_LoadResource _ _ _ _ _ _ Hload) as [_ (evs & Ht1 & Hevs)].
    simpl in Ht1. subst t1. eexists. rewrite <- app_assoc. split; [reflexivity|].
    apply Forall_app. split.
    + eapply Forall_impl; [exact Hevs|]. intros e He. destruct e; simpl in *; tauto.
    + constructor.
      * simpl. apply (ok_handler f Hreg rt). apply list_elem_of_In.
        eapply list_elem_of_lookup_2, Hrt.
      * eapply Forall_impl; [exact Htail|]. intros e He. destruct e; simpl in *; tauto.
Qed.

(** One call keeps the invariants. *)
Lemma run_call_ok (c : Call) (f f' : SResourceFactory) (t t' : list Event) :
  factory_ok f ->
  registry_ok f ->
  call_behaves dmHashBuffer64 c (f, t) = true ->
  run_call dmHashBuffer64 c (f, t) = Some (tt, (f', t')) ->
  factory_ok f' /\ registry_ok f'
  /\ exists evs, t' = t ++ evs /\ Forall handler_not_null evs.
Proof.
  intros Hok Hreg Hbehaves Hrun.
  destruct c as [extension context create destroy recreate|w name|resource
                |w name|[callback user_data|callback user_data]];
    simpl in Hrun, Hbehaves.
  - (* RegisterType *)
    apply bind_Some in Hrun. destruct Hrun as (res & [f1 t1] & Hrun & Hret).
    injection Hret as <- <-.
    apply RegisterType_inv in Hrun. destruct Hrun as [-> Hcases].
    assert (Hevs : exists evs, t = t ++ evs /\ Forall handler_not_null evs)
      by (exists []; now rewrite app_nil_r).
    destruct Hcases as [[_ ->]|(_ & Hcount & Hdot & Hc & Hd & Hfind & ->)];
      [auto|].
    split; [|split; [|exact Hevs]].
    + apply (factory_ok_same f); [reflexivity..| |exact Hok].
      intros i [rt Hi]. simpl. exists rt. now apply lookup_app_l_Some.
    + destruct Hreg as [H1 H2 H3]. constructor; simpl.
      * unfold m_ResourceTypesCount in *. simpl. rewrite length_app. simpl.
        unfold MAX_RESOURCE_TYPES in *. lia.
      * rewrite map_app. simpl. apply NoDup_app. split; [exact H2|].
        split; [|apply NoDup_singleton].
        intros e He Hin. apply list_elem_of_singleton in Hin. subst e.
        apply list_elem_of_In, in_map_iff in He.
        destruct He as (rt & Hext & Hin).
        apply (proj1 (find_type_from_None (m_ResourceTypes f) extension 0) Hfind).
        eauto.
      * intros rt Hin. apply in_app_or in Hin. destruct Hin as [Hin|[<-|[]]];
          [now apply H3|]. simpl. split; [|auto].
        unfold contains_dot. now apply strrchr_None.
  - (* Get *)
    apply bind_Some in Hrun. destruct Hrun as ([res r] & [f1 t1] & Hrun & Hret).
    injection Hret as <- <-.
    split; [|split; [|eapply Get_events; eassumption]].
    + unfold get_behaves in Hbehaves. simpl in Hbehaves.
      rewrite Hrun in Hbehaves.
      apply Get_inv in Hrun. simpl in Hrun.
      destruct Hrun as [(rd & Hrd & _ & -> & -> & -> & _)
                       |[(Hrd & Hres & _ & Hframe & _)|Hnew]].
      * rewrite Hrd in Hbehaves. apply Z.ltb_lt in Hbehaves.
        pose proof (ok_descriptor f Hok _ _ Hrd) as (_ & Hcount & _).
        apply (factory_ok_with_count _ rd _ f Hok Hrd).
        rewrite wrap32_small by lia. lia.
      * eapply factory_ok_frame; eassumption.
      * destruct Hnew as (Hrd & -> & ext & resource_type & rt & size & f2 & t2
                          & _ & _ & Hload & Hrt & _ & Hnz & -> & _).
        rewrite Hrd in Hbehaves. apply bool_decide_eq_true in Hbehaves.
        destruct (preserves_LoadResource _ _ _ _ _ _ Hload) as [Hframe _].
        simpl in Hframe.
        apply factory_ok_interned.
        -- eapply factory_ok_frame; eassumption.
        -- now rewrite (frame_Resources _ _ Hframe).
        -- now rewrite (frame_ResourceToHash _ _ Hframe).
        -- exact Hnz.
        -- eauto.
    + apply Get_inv in Hrun. simpl in Hrun.
      destruct Hrun as [(rd & _ & _ & _ & _ & -> & _)
                       |[(_ & _ & _ & Hframe & _)|Hnew]].
      * now apply registry_ok_same with f.
      * eapply registry_ok_same; [apply (frame_ResourceTypes _ _ Hframe)|exact Hreg].
      * destruct Hnew as (_ & _ & ext & resource_type & rt & size & f2 & t2
                          & _ & _ & Hload & _ & _ & _ & -> & _).
        destruct (preserves_LoadResource _ _ _ _ _ _ Hload) as [Hframe _].
        simpl in Hframe.
        eapply registry_ok_same; [|exact Hreg].
        match goal with
        | |- m_ResourceTypes (interned ?h ?rd ?p ?g) = _ =>
            destruct (interned_tables h rd p g) as (_ & _ & _ & -> & _)
        end.
        apply (frame_ResourceTypes _ _ Hframe).
  - (* Release *)
    apply Release_inv in Hrun.
    destruct Hrun as (h & rd & Hh & Hrd & Hpos
                      & [(Hne & -> & ->)|(Hone & rt & Hrt & -> & ->)]).
    + pose proof (ok_descriptor f Hok _ _ Hrd) as (_ & Hcount & _).
      split; [apply factory_ok_with_count; [assumption..|lia]|].
      split; [now apply registry_ok_same with f|].
      exists []. now rewrite app_nil_r.
    + split; [now apply factory_ok_erased|].
      split; [now apply registry_ok_same with f|].
      eexists. split; [reflexivity|]. constructor; [|constructor]. simpl.
      apply (ok_handler f Hreg rt). apply list_elem_of_In.
      eapply list_elem_of_lookup_2, Hrt.
  - (* ReloadResource *)
    apply bind_Some in Hrun. destruct Hrun as ([res out] & [f1 t1] & Hrun & Hret).
    injection Hret as <- <-.
    apply ReloadResource_inv in Hrun. simpl in Hrun.
    assert (Hnone : exists evs, t = t ++ evs /\ Forall handler_not_null evs)
      by (exists []; now rewrite app_nil_r).
    destruct Hrun as [(_ & _ & _ & -> & ->)|(rd & rt & _ & _ & _ & H)]; [auto|].
    destruct H as [(_ & _ & -> & ->)|(Hrec & result & size & tL & Hload & H)];
      [auto|].
    destruct (preserves_LoadResource _ _ _ _ _ _ Hload)
      as [Hframe (evs & HtL & Hevs)].
    simpl in Hframe, HtL.
    assert (Hnn : Forall handler_not_null evs).
    { eapply Forall_impl; [exact Hevs|]. intros e He. destruct e; simpl in *; tauto. }
    split; [eapply factory_ok_frame; eassumption|].
    split; [eapply registry_ok_same;
            [apply (frame_ResourceTypes _ _ Hframe)|exact Hreg]|].
    destruct H as [(_ & _ & ->)|(_ & cr & _ & [(_ & _ & ->)|(_ & _ & ->)])];
      subst tL.
    + eauto.
    + eexists. rewrite <- !app_assoc. split; [reflexivity|].
      apply Forall_app. split; [exact Hnn|].
      apply Forall_app. split; [now repeat constructor|].
      apply Forall_map. apply Forall_true. intros cb. exact I.
    + eexists. rewrite <- !app_assoc. split; [reflexivity|].
      apply Forall_app. split; [exact Hnn|]. now repeat constructor.
  - (* RegisterResourceReloadedCallback *)
    unfold RegisterResourceReloadedCallback in Hrun. run_in Hrun.
    destruct (m_ResourceReloadedCallbacks f) as [callbacks|]; run_in Hrun.
    + destruct (negb (Z.of_nat (length callbacks) =? MAX_CALLBACKS));
        run_in Hrun; injection Hrun as <- <-.
      * split; [apply (factory_ok_same f); auto|].
        split; [now apply registry_ok_same with f|].
        exists []. now rewrite app_nil_r.
      * split; [exact Hok|]. split; [exact Hreg|].
        eexists. split; [reflexivity|]. now repeat constructor.
    + injection Hrun as <- <-. split; [exact Hok|]. split; [exact Hreg|].
      exists []. now rewrite app_nil_r.
  - (* UnregisterResourceReloadedCallback *)
    unfold UnregisterResourceReloadedCallback in Hrun. run_in Hrun.
    destruct (m_ResourceReloadedCallbacks f) as [callbacks|]; run_in Hrun;
      injection Hrun as <- <-.
    + split; [apply (factory_ok_same f); auto|].
      split; [now apply registry_ok_same with f|].
      exists []. now rewrite app_nil_r.
    + split; [exact Hok|]. split; [exact Hreg|].
      exists []. now rewrite app_nil_r.
Qed.

(** X7.  The tables stay consistent over any sequence of calls of the
    interface.  From a factory in which every descriptor sits under its own
    hash with a positive count, a registered handler and a non-null resource
    whose address leads back to it, in which the file names are those of
    the descriptors and the registry holds distinct dot-free extensions with
    non-null create and destroy callbacks: after any sequence of
    [RegisterType], [Get], [Release], [ReloadResource] and observer calls
    that returns, with counts below the 32-bit limit and create callbacks
    that hand out addresses not in use, the same holds again; and every
    create, destroy or recreate callback that the factory has called is a
    non-null callback. *)
Theorem calls_keep_invariants (cs : list Call) (f f' : SResourceFactory)
    (t t' : list Event) :
  factory_ok f ->
  registry_ok f ->
  calls_behave dmHashBuffer64 cs (f, t) = true ->
  run_calls dmHashBuffer64 cs (f, t) = Some (tt, (f', t')) ->
  factory_ok f' /\ registry_ok f'
  /\ exists evs, t' = t ++ evs /\ Forall handler_not_null evs.
Proof.
  revert f t. induction cs as [|c cs IH]; intros f t Hok Hreg Hbehave Hrun.
  - injection Hrun as <- <-. split; [exact Hok|]. split; [exact Hreg|].
    exists []. now rewrite app_nil_r.
  - simpl in Hrun, Hbehave. apply bind_Some in Hrun.
    destruct Hrun as ([] & [f1 t1] & Hc & Hrest).
    apply andb_true_iff in Hbehave. destruct Hbehave as [Hb1 Hb2].
    rewrite Hc in Hb2.
    destruct (run_call_ok c f f1 t t1 Hok Hreg Hb1 Hc)
      as (Hok1 & Hreg1 & evs1 & -> & Hevs1).
    destruct (IH f1 _ Hok1 Hreg1 Hb2 Hrest) as (Hok' & Hreg' & evs2 & -> & Hevs2).
    split; [exact Hok'|]. split; [exact Hreg'|].
    exists (evs1 ++ evs2). rewrite app_assoc. split; [reflexivity|].
    apply Forall_app. auto.
Qed.


Lemma factory_ok_new (f : SResourceFactory) :
  m_Resources f = ∅ ->
  m_ResourceToHash f = ∅ ->
  (forall filenames, m_ResourceHashToFilename f = Some filenames -> filenames = ∅) ->
  factory_ok f.
Proof.
  intros Hr Ha Hn. constructor.
  - intros h rd. now rewrite Hr, lookup_empty.
  - intros a h. now rewrite Ha, lookup_empty.
  - intros filenames h Hf. rewrite (Hn _ Hf), Hr, !lookup_empty.
    split; intros []; discriminate.
Qed.

Lemma registry_ok_new (f : SResourceFactory) :
  m_ResourceTypes f = [] -> registry_ok f.
Proof.
  intros Ht. constructor.
  - unfold m_ResourceTypesCount, MAX_RESOURCE_TYPES. rewrite Ht. simpl. lia.
  - rewrite Ht. constructor.
  - rewrite Ht. intros rt [].
Qed.




(** The result of [Get], case by case. *)
Lemma Get_cases (w : World) (name : string) (f f' : SResourceFactory)
    (t t' : list Event) (res : FactoryResult) (resource : Z) :
  Get dmHashBuffer64 w name (f, t) = Some ((res, resource), (f', t')) ->
  let canonical_path := GetCanonicalPath (m_Path f) name in
  let h := dmHashBuffer64 canonical_path in
  (is_Some (m_Resources f !! h) /\ res = FACTORY_RESULT_OK)
  \/ (m_Resources f !! h = None
      /\ ((strrchr name dot = None
           /\ res = FACTORY_RESULT_MISSING_FILE_EXTENSION
           /\ f' = f
           /\ t' = t ++ [EvLog LOG_SEVERITY_WARNING
                           "Unable to load resource: '%s'. Missing file extension."
                           [ArgS name]])
          \/ (exists ext,
                 strrchr name dot = Some ext
                 /\ ((FindResourceType f (str_next ext) = None
                      /\ res = FACTORY_RESULT_UNKNOWN_RESOURCE_TYPE
                      /\ f' = f
                      /\ t' = t ++ [EvLog LOG_SEVERITY_ERROR
                                      "Unknown resource type: %s"
                                      [ArgS (str_next ext)]])
                     \/ (is_Some (FindResourceType f (str_next ext))
                         /\ exists load n m1,
                             LoadResource w canonical_path name (f, t)
                               = Some ((load, n), m1)
                             /\ ((load <> FACTORY_RESULT_OK /\ res = load)
                                 \/ (load = FACTORY_RESULT_OK
                                     /\ (res = FACTORY_RESULT_OK
                                         \/ res = FACTORY_RESULT_UNKNOWN)))))))).
Proof.
  intros H canonical_path h. unfold Get in H. run_in H. fold canonical_path h in H.
  destruct (m_Resources f !! h) as [rd|] eqn:Hrd.
  { left. split; [eauto|].
    destruct (bool_decide (is_Some (m_ResourceToHash f !! m_Resource rd)));
      run_in H; [|discriminate].
    now injection H as <- _ _ _. }
  right. split; [reflexivity|].
  destruct (strrchr name dot) as [ext|] eqn:Hext; run_in H;
    [|left; injection H as <- _ <- <-; auto].
  right. exists ext. split; [reflexivity|].
  destruct (FindResourceType f (str_next ext)) as [resource_type|] eqn:Hfind;
    run_in H; [|left; injection H as <- _ <- <-; auto].
  right. split; [eauto|].
  destruct (LoadResource w canonical_path name (f, t))
    as [[[result size] [f1 t1]]|] eqn:Hload; [|discriminate].
  simpl in H. exists result, size, (f1, t1). split; [reflexivity|].
  case_bool_decide as Hres; run_in H.
  { left. injection H as <- _ _ _. auto. }
  right. split; [exact Hres|].
  destruct (type_at resource_type (f1, t1)) as [[rt m1]|] eqn:Hrt; [|discriminate].
  apply type_at_inv in Hrt. destruct Hrt as [-> Hrt]. simpl in Hrt, H.
  destruct (call_create w (m_CreateFunction rt) (m_Context rt) (m_StreamBuffer f1)
              size name) as [create_error created] eqn:Hc.
  simpl in H.
  case_bool_decide as Hok; run_in H.
  - destruct (Z.eqb_spec created 0) as [Hz|Hz]; run_in H; [discriminate|].
    left. destruct (m_ResourceHashToFilename f1); run_in H;
      now injection H as <- _ _ _.
  - right. now injection H as <- _ _ _.
Qed.

(** X9.  The data that a handler is given is terminated.  On a factory
    whose stream buffer is the allocation of [NewFactory], whatever the
    transport is: every call of a create callback by [Get] and of a recreate
    callback by [ReloadResource] gets the stream buffer with a zero byte at
    the size it is told, and the buffer is again that allocation
    afterwards. *)
Theorem handlers_get_terminated_data (w : World) (name : string)
    (f : SResourceFactory) (t : list Event) :
  buffer_ok f ->
  (forall r f' t',
      Get dmHashBuffer64 w name (f, t) = Some (r, (f', t')) ->
      buffer_ok f' /\ exists evs, t' = t ++ evs /\ Forall terminated evs)
  /\ (forall r f' t',
         ReloadResource dmHashBuffer64 w name (f, t) = Some (r, (f', t')) ->
         buffer_ok f' /\ exists evs, t' = t ++ evs /\ Forall terminated evs).
Proof.
  intros Hbuf.
  assert (Htr : forall evs, Forall transport_event evs -> Forall terminated evs).
  { intros evs Hevs. eapply Forall_impl; [exact Hevs|].
    intros e He. destruct e; simpl in *; tauto. }
  assert (Hlog : forall evs, Forall is_log evs -> Forall terminated evs).
  { intros evs Hevs. eapply Forall_impl; [exact Hevs|].
    intros e He. destruct e; simpl in *; tauto. }
  split.
  - intros r f' t' H. apply Get_trace in H.
    destruct H as (Hsize & Hlen & H). split.
    { destruct Hbuf as [Hrange Hl]. split; [now rewrite Hsize|].
      now rewrite Hlen, Hsize. }
    destruct H as [(evs & -> & Hevs)
                  |(resource_type & rt & size & f1 & t1 & tail
                    & Hload & _ & -> & Htail)]; [eauto|].
    destruct (preserves_LoadResource _ _ _ _ _ _ Hload) as [_ (evs & Ht1 & Hevs)].
    simpl in Ht1. subst t1.
    destruct (LoadResource_result _ _ _ _ _ _ _ _ _ Hbuf Hload) as (_ & _ & Hn).
    eexists. rewrite <- app_assoc. split; [reflexivity|].
    apply Forall_app. split; [auto|]. constructor; [exact (Hn eq_refl) | auto].
  - intros [res out] f' t' H. apply ReloadResource_inv in H. simpl in H.
    assert (Hnone : exists evs, t = t ++ evs /\ Forall terminated evs)
      by (exists []; now rewrite app_nil_r).
    destruct H as [(_ & _ & _ & -> & ->)|(rd & rt & _ & _ & _ & H)]; [auto|].
    destruct H as [(_ & _ & -> & ->)|(_ & result & size & tL & Hload & H)];
      [auto|].
    destruct (preserves_LoadResource _ _ _ _ _ _ Hload) as [_ (evs & HtL & Hevs)].
    simpl in HtL. subst tL.
    destruct (LoadResource_result _ _ _ _ _ _ _ _ _ Hbuf Hload)
      as (Hbuf' & _ & Hn).
    split; [exact Hbuf'|].
    destruct H as [(_ & _ & ->)|(-> & cr & _ & [(_ & _ & ->)|(_ & _ & ->)])].
    + eauto.
    + eexists. rewrite <- !app_assoc. split; [reflexivity|].
      apply Forall_app. split; [auto|].
      constructor; [exact (Hn eq_refl)|].
      apply Forall_map. apply Forall_true. intros cb. exact I.
    + eexists. rewrite <- !app_assoc. split; [reflexivity|].
      apply Forall_app. split; [auto|].
      constructor; [exact (Hn eq_refl) | constructor].
Qed.

(** X10.  The results of an acquire.  On a factory that satisfies the
    invariant of the tables and whose stream buffer is the allocation of
    [NewFactory], [Get] returns one of seven results
    ([OK], the three failures of a load, [MISSING_FILE_EXTENSION],
    [UNKNOWN_RESOURCE_TYPE] and [UNKNOWN]), and a non-null resource exactly
    when it returns [OK].  It returns [MISSING_FILE_EXTENSION] exactly when
    the name is not interned and has no dot, and [UNKNOWN_RESOURCE_TYPE]
    exactly when the name is not interned and what follows its last dot is
    not a registered extension; both are decided before any transport is
    asked: the factory is unchanged and the trace gains one log record. *)
Theorem Get_results (w : World) (name : string) (f f' : SResourceFactory)
    (t t' : list Event) (res : FactoryResult) (resource : Z) :
  buffer_ok f ->
  factory_ok f ->
  Get dmHashBuffer64 w name (f, t) = Some ((res, resource), (f', t')) ->
  In res get_results
  /\ (res = FACTORY_RESULT_OK <-> resource <> 0)
  /\ (res = FACTORY_RESULT_MISSING_FILE_EXTENSION
      <-> m_Resources f !! dmHashBuffer64 (GetCanonicalPath (m_Path f) name)
            = None
          /\ strrchr name dot = None)
  /\ (res = FACTORY_RESULT_UNKNOWN_RESOURCE_TYPE
      <-> m_Resources f !! dmHashBuffer64 (GetCanonicalPath (m_Path f) name)
            = None
          /\ exists ext,
              strrchr name dot = Some ext
              /\ FindResourceType f (str_next ext) = None)
  /\ (res = FACTORY_RESULT_MISSING_FILE_EXTENSION
      \/ res = FACTORY_RESULT_UNKNOWN_RESOURCE_TYPE ->
      f' = f /\ exists severity format args,
                  t' = t ++ [EvLog severity format args]).
Proof.
  intros Hbuf Hok H.
  assert (Hres : res = FACTORY_RESULT_OK <-> resource <> 0).
  { pose proof H as Hinv. apply Get_inv in Hinv. simpl in Hinv.
    destruct Hinv as [(rd & Hrd & _ & -> & -> & _)
                     |[(_ & Hne & -> & _)|(_ & -> & Hnew)]].
    - destruct (ok_descriptor f Hok _ _ Hrd) as (_ & _ & Hnz & _). tauto.
    - tauto.
    - destruct Hnew as (ext & resource_type & rt & size & f1 & t1
                        & _ & _ & _ & _ & _ & Hnz & _). tauto. }
  apply Get_cases in H. simpl in H.
  set (h := dmHashBuffer64 (GetCanonicalPath (m_Path f) name)) in *.
  unfold get_results, load_results.
  destruct H as [([rd Hrd] & ->)|(Hmiss & H)].
  { split; [simpl; tauto|]. split; [exact Hres|].
    split; [split; [discriminate | intros [E _]; congruence]|].
    split; [split; [discriminate | intros [E _]; congruence]|].
    intros [E|E]; discriminate. }
  destruct H as [(Hdot & -> & -> & ->)|(ext & Hext & H)].
  { split; [simpl; tauto|]. split; [exact Hres|].
    split; [tauto|].
    split; [split; [discriminate | intros (_ & e & E & _); congruence]|].
    intros _. eauto 10. }
  destruct H as [(Hfind & -> & -> & ->)|([idx Hfind] & load & n & m1 & Hload & H)].
  { split; [simpl; tauto|]. split; [exact Hres|].
    split; [split; [discriminate | intros [_ E]; congruence]|].
    split; [split; [eauto | reflexivity]|].
    intros _. eauto 10. }
  destruct m1 as [f1 t1].
  destruct (LoadResource_result _ _ _ _ _ _ _ _ _ Hbuf Hload) as (_ & Hin & _).
  assert (Hnot : res <> FACTORY_RESULT_MISSING_FILE_EXTENSION
                 /\ res <> FACTORY_RESULT_UNKNOWN_RESOURCE_TYPE
                 /\ In res get_results).
  { unfold get_results, load_results in *. simpl in Hin |- *.
    destruct H as [(_ & ->)|(_ & [-> | ->])];
      [|repeat split; try discriminate; tauto..].
    repeat split; [| |tauto];
      intros E; rewrite E in Hin;
      repeat (destruct Hin as [Hin|Hin]; [discriminate|]); exact Hin. }
  destruct Hnot as (H1 & H2 & H3).
  split; [exact H3|]. split; [exact Hres|].
  split; [split; [contradiction | intros [_ E]; congruence]|].
  split; [split; [contradiction
                 | intros (_ & e & E & Hf); rewrite Hext in E;
                   injection E as <-; congruence]|].
  intros [E|E]; contradiction.
Qed.

(** X11.  Under the invariant of the tables, with a count that can still
    grow and a create callback that hands out an address not in use: an
    acquire followed by a release of what it returned leaves the three
    tables as they were before the acquire.  On a hit the whole
    factory is back in its state and nothing is in the trace; on a miss the
    release is the last one, and the trace ends with the create callback of
    the acquire and the destroy callback of the release. *)
Theorem Get_then_Release_restores_tables (w : World) (name : string)
    (f f1 : SResourceFactory) (t t1 : list Event) (resource : Z) :
  factory_ok f ->
  get_behaves dmHashBuffer64 w name (f, t) = true ->
  Get dmHashBuffer64 w name (f, t)
    = Some ((FACTORY_RESULT_OK, resource), (f1, t1)) ->
  exists f2 t2,
    Release resource (f1, t1) = Some (tt, (f2, t2))
    /\ m_Resources f2 = m_Resources f
    /\ m_ResourceToHash f2 = m_ResourceToHash f
    /\ m_ResourceHashToFilename f2 = m_ResourceHashToFilename f
    /\ (is_Some (m_Resources f
                   !! dmHashBuffer64 (GetCanonicalPath (m_Path f) name)) ->
        f2 = f /\ t2 = t)
    /\ (m_Resources f !! dmHashBuffer64 (GetCanonicalPath (m_Path f) name)
          = None ->
        exists fn context buffer size fn' context' rd,
          t2 = t1 ++ [EvDestroy fn' context' rd]
          /\ last t1 = Some (EvCreate fn context buffer size name)
          /\ m_Resource rd = resource).
Proof.
  intros Hok Hbehaves Hget.
  unfold get_behaves in Hbehaves. simpl in Hbehaves. rewrite Hget in Hbehaves.
  apply Get_inv in Hget. simpl in Hget.
  set (h := dmHashBuffer64 (GetCanonicalPath (m_Path f) name)) in *.
  destruct Hget as [(rd & Hrd & _ & _ & -> & -> & ->)
                   |[(_ & Hres & _)|Hnew]]; [| contradiction |].
  - (* a hit *)
    rewrite Hrd in Hbehaves. apply Z.ltb_lt in Hbehaves.
    destruct (ok_descriptor f Hok _ _ Hrd) as (_ & Hcount & _ & Haddr & _).
    rewrite wrap32_small by lia. fold (with_count h rd (m_ReferenceCount rd + 1) f).
    destruct (with_count_tables h rd (m_ReferenceCount rd + 1) f)
      as (Hrd1 & Ea & _).
    exists f, t.
    assert (Hrel : Release (m_Resource rd)
                     (with_count h rd (m_ReferenceCount rd + 1) f, t)
                   = Some (tt, (f, t))).
    { rewrite (Release_decrement (m_Resource rd) h _ t
                 (set_ReferenceCount (m_ReferenceCount rd + 1) rd));
        [|now rewrite Ea|exact Hrd1|simpl; lia].
      rewrite with_count_again. simpl.
      replace (m_ReferenceCount rd + 1 - 1) with (m_ReferenceCount rd) by lia.
      now rewrite with_count_id. }
    split; [exact Hrel|]. repeat (split; [reflexivity|]).
    split; [auto|]. intros Hnone. congruence.
  - (* a miss *)
    destruct Hnew as (Hrd & _ & ext & resource_type & rt & size & fL & tL
                      & _ & _ & Hload & Hrt & _ & Hnz & -> & ->).
    rewrite Hrd in Hbehaves. apply bool_decide_eq_true in Hbehaves.
    destruct (preserves_LoadResource _ _ _ _ _ _ Hload) as [Hframe _].
    simpl in Hframe.
    set (rd := {| m_NameHash := h; m_Resource := resource;
                  m_ReferenceCount := 1; m_ResourceType := resource_type |}).
    destruct (interned_tables h rd (GetCanonicalPath (m_Path f) name) fL)
      as (Er & Ea & En & Et & _).
    assert (Hrel : Release resource
                     (interned h rd (GetCanonicalPath (m_Path f) name) fL,
                      tL ++ [EvCreate (m_CreateFunction rt) (m_Context rt)
                               (m_StreamBuffer fL) size name])
                   = Some (tt, (erased h resource
                                  (interned h rd
                                     (GetCanonicalPath (m_Path f) name) fL),
                                (tL ++ [EvCreate (m_CreateFunction rt)
                                          (m_Context rt) (m_StreamBuffer fL)
                                          size name])
                                ++ [EvDestroy (m_DestroyFunction rt)
                                      (m_Context rt)
                                      (set_ReferenceCount 0 rd)]))).
    { apply Release_last.
      - rewrite Ea. simpl. apply lookup_insert_eq.
      - rewrite Er. apply lookup_insert_eq.
      - reflexivity.
      - rewrite Et. exact Hrt.
      - intros filenames. rewrite En.
        destruct (m_ResourceHashToFilename fL); [|discriminate].
        intros [= <-]. rewrite lookup_insert_eq. eauto. }
    eexists _, _. split; [exact Hrel|].
    destruct (erased_maps h resource
                (interned h rd (GetCanonicalPath (m_Path f) name) fL))
      as (Er' & Ea' & En' & _).
    rewrite Er', Ea', En', Er, Ea, En. simpl.
    rewrite (frame_Resources _ _ Hframe), (frame_ResourceToHash _ _ Hframe),
      (frame_ResourceHashToFilename _ _ Hframe).
    split; [now apply delete_insert_id|].
    split; [now apply delete_insert_id|].
    split.
    { destruct (m_ResourceHashToFilename f) as [filenames|] eqn:Hf;
        [|reflexivity].
      simpl. f_equal. apply delete_insert_id.
      destruct (filenames !! h) eqn:Hn; [|reflexivity].
      assert (Hsome : is_Some (m_Resources f !! h))
        by (apply (ok_filename f Hok filenames h Hf); eauto).
      rewrite Hrd in Hsome. destruct Hsome. discriminate. }
    split; [rewrite Hrd; intros []; discriminate|].
    intros _. eexists _, _, _, _, _, _, _. split; [reflexivity|].
    split; [apply last_snoc | reflexivity].
Qed.

(** X12.  Names that differ only in their runs of slashes, or in slashes
    at their front, are one resource: when both fit in the path buffer and
    one of them has been acquired, an acquire of the other is a hit on the
    same descriptor.  It returns the same address, raises the count by one
    and asks nothing of the transports or the handler. *)
Theorem Get_slash_variants_share (w1 w2 : World) (name1 name2 : string)
    (f f1 : SResourceFactory) (t t1 : list Event) (resource : Z) :
  Z.of_nat (String.length (m_Path f)) + 1 + Z.of_nat (String.length name1)
    < RESOURCE_PATH_MAX ->
  Z.of_nat (String.length (m_Path f)) + 1 + Z.of_nat (String.length name2)
    < RESOURCE_PATH_MAX ->
  collapse_runs ("/" +:+ name1) = collapse_runs ("/" +:+ name2) ->
  Get dmHashBuffer64 w1 name1 (f, t)
    = Some ((FACTORY_RESULT_OK, resource), (f1, t1)) ->
  exists rd,
    m_Resources f1 !! dmHashBuffer64 (GetCanonicalPath (m_Path f) name1)
      = Some rd
    /\ m_Resource rd = resource
    /\ Get dmHashBuffer64 w2 name2 (f1, t1)
       = Some ((FACTORY_RESULT_OK, resource),
               (with_count (dmHashBuffer64 (GetCanonicalPath (m_Path f) name1))
                  rd (wrap32 (m_ReferenceCount rd + 1)) f1, t1)).
Proof.
  intros H1 H2 Heq Hget.
  pose proof (GetCanonicalPath_variants (m_Path f) name1 name2 H1 H2 Heq) as Hpath.
  apply Get_inv in Hget. simpl in Hget.
  set (h := dmHashBuffer64 (GetCanonicalPath (m_Path f) name1)) in *.
  assert (Hhit : forall rd,
             m_Path f1 = m_Path f ->
             m_Resources f1 !! h = Some rd ->
             is_Some (m_ResourceToHash f1 !! m_Resource rd) ->
             Get dmHashBuffer64 w2 name2 (f1, t1)
             = Some ((FACTORY_RESULT_OK, m_Resource rd),
                     (with_count h rd (wrap32 (m_ReferenceCount rd + 1)) f1, t1))).
  { intros rd Hp Hrd Haddr.
    assert (Hh : dmHashBuffer64 (GetCanonicalPath (m_Path f1) name2) = h)
      by (rewrite Hp, <- Hpath; reflexivity).
    rewrite (Get_hit dmHashBuffer64 w2 name2 f1 t1 rd);
      rewrite ?Hh; [reflexivity|exact Hrd|exact Haddr]. }
  destruct Hget as [(rd & Hrd & Haddr & _ & -> & -> & ->)
                   |[(_ & Hres & _)|Hnew]]; [| contradiction |].
  - exists (set_ReferenceCount (wrap32 (m_ReferenceCount rd + 1)) rd).
    simpl. split; [apply lookup_insert_eq|]. split; [reflexivity|].
    apply (Hhit (set_ReferenceCount (wrap32 (m_ReferenceCount rd + 1)) rd));
      [reflexivity|simpl; apply lookup_insert_eq|exact Haddr].
  - destruct Hnew as (_ & _ & ext & resource_type & rt & size & fL & tL
                      & _ & _ & Hload & _ & _ & _ & -> & ->).
    destruct (preserves_LoadResource _ _ _ _ _ _ Hload) as [Hframe _].
    simpl in Hframe.
    set (rd := {| m_NameHash := h; m_Resource := resource;
                  m_ReferenceCount := 1; m_ResourceType := resource_type |}) in *.
    destruct (interned_tables h rd (GetCanonicalPath (m_Path f) name1) fL)
      as (Er & Ea & _ & _ & _ & Ep).
    exists rd. split; [rewrite Er; apply lookup_insert_eq|].
    split; [reflexivity|].
    apply (Hhit rd).
    + rewrite Ep. apply (frame_Path _ _ Hframe).
    + rewrite Er. apply lookup_insert_eq.
    + rewrite Ea. simpl. rewrite lookup_insert_eq. eauto.
Qed.

(** X13.  The type of a resource is that of its name's extension: after an
    acquire that created the resource, [GetType] of the address returns,
    without touching the factory, the id that [GetTypeFromExtension] gives
    for what follows the last dot of the name. *)
Theorem GetType_of_created_resource (lay : Layout) (w : World) (name : string)
    (f f1 : SResourceFactory) (t t1 : list Event) (resource : Z) :
  m_Resources f !! dmHashBuffer64 (GetCanonicalPath (m_Path f) name) = None ->
  Get dmHashBuffer64 w name (f, t)
    = Some ((FACTORY_RESULT_OK, resource), (f1, t1)) ->
  exists ext type,
    strrchr name dot = Some ext
    /\ GetTypeFromExtension lay f1 (str_next ext) = (FACTORY_RESULT_OK, type)
    /\ GetType lay resource (f1, t1)
       = Some ((FACTORY_RESULT_OK, type), (f1, t1)).
Proof.
  intros Hmiss Hget. apply Get_inv in Hget. simpl in Hget.
  set (h := dmHashBuffer64 (GetCanonicalPath (m_Path f) name)) in *.
  destruct Hget as [(rd & Hrd & _)|[(_ & Hres & _)|Hnew]];
    [congruence | contradiction |].
  destruct Hnew as (_ & _ & ext & resource_type & rt & size & fL & tL
                    & Hext & Hfind & Hload & _ & _ & _ & -> & ->).
  destruct (preserves_LoadResource _ _ _ _ _ _ Hload) as [Hframe _].
  simpl in Hframe.
  set (rd := {| m_NameHash := h; m_Resource := resource;
                m_ReferenceCount := 1; m_ResourceType := resource_type |}).
  destruct (interned_tables h rd (GetCanonicalPath (m_Path f) name) fL)
    as (Er & Ea & _ & Et & _).
  exists ext, (wrap32 (type_address lay resource_type)).
  split; [exact Hext|]. split.
  - unfold GetTypeFromExtension, FindResourceType.
    rewrite Et, (frame_ResourceTypes _ _ Hframe).
    unfold FindResourceType in Hfind. now rewrite Hfind.
  - unfold GetType, bind, factory. simpl. rewrite Ea. simpl.
    rewrite lookup_insert_eq, Er, lookup_insert_eq. reflexivity.
Qed.

(** X14.  [GetDescriptor] tells whether a name is interned, and changes
    nothing.  After a [Get] of the name that returned [OK] it returns [OK]
    and a descriptor with the address that [Get] returned (with one
    reference when the [Get] created it); after a [Get] of the name that
    returned another result it returns [NOT_LOADED]. *)
Theorem GetDescriptor_after_Get (w : World) (name : string)
    (f f1 : SResourceFactory) (t t1 : list Event) (res : FactoryResult)
    (resource : Z) :
  Get dmHashBuffer64 w name (f, t) = Some ((res, resource), (f1, t1)) ->
  (res = FACTORY_RESULT_OK ->
   exists rd,
     GetDescriptor dmHashBuffer64 name (f1, t1)
       = Some ((FACTORY_RESULT_OK, Some rd), (f1, t1))
     /\ m_Resource rd = resource
     /\ (m_Resources f !! dmHashBuffer64 (GetCanonicalPath (m_Path f) name)
           = None ->
         m_ReferenceCount rd = 1
         /\ m_NameHash rd
            = dmHashBuffer64 (GetCanonicalPath (m_Path f) name)))
  /\ (res <> FACTORY_RESULT_OK ->
      GetDescriptor dmHashBuffer64 name (f1, t1)
      = Some ((FACTORY_RESULT_NOT_LOADED, None), (f1, t1))).
Proof.
  intros Hget. apply Get_inv in Hget. simpl in Hget.
  set (h := dmHashBuffer64 (GetCanonicalPath (m_Path f) name)) in *.
  unfold GetDescriptor, bind, factory. simpl.
  destruct Hget as [(rd & Hrd & _ & -> & -> & -> & ->)
                   |[(Hrd & Hres & _ & Hframe & _)|Hnew]].
  - split; [|contradiction]. intros _. simpl. fold h.
    rewrite lookup_insert_eq. eexists. split; [reflexivity|].
    split; [reflexivity|]. congruence.
  - split; [contradiction|]. intros _.
    rewrite (frame_Path _ _ Hframe), (frame_Resources _ _ Hframe). fold h.
    now rewrite Hrd.
  - destruct Hnew as (Hrd & -> & ext & resource_type & rt & size & fL & tL
                      & _ & _ & Hload & _ & _ & _ & -> & ->).
    destruct (preserves_LoadResource _ _ _ _ _ _ Hload) as [Hframe _].
    simpl in Hframe.
    split; [|contradiction]. intros _.
    match goal with
    | |- context [interned ?a ?b ?c ?d] =>
        destruct (interned_tables a b c d) as (Er & _ & _ & _ & _ & Ep)
    end.
    rewrite Ep, (frame_Path _ _ Hframe), Er. fold h.
    rewrite lookup_insert_eq. eexists. split; [reflexivity|]. simpl. auto.
Qed.

End FactoryInvariants.

(** X15.  The type id of an interned resource leads back to its handler.
    Under the invariant, in a process whose registry lies below [2 ^ 32]:
    [GetType] of an address that the factory handed out returns [OK] and
    the id of the handler of its descriptor, for which
    [GetExtensionFromType] returns that handler's extension; for any other
    address [GetType] returns [NOT_LOADED].  No assertion fails and the
    factory is not changed. *)
Theorem GetType_names_the_handler (lay : Layout) (resource : Z)
    (f : SResourceFactory) (t : list Event) :
  layout_32bit lay ->
  factory_ok f ->
  registry_ok f ->
  (m_ResourceToHash f !! resource = None ->
   GetType lay resource (f, t) = Some ((FACTORY_RESULT_NOT_LOADED, 0), (f, t)))
  /\ forall h,
      m_ResourceToHash f !! resource = Some h ->
      exists rd rt type,
        m_Resources f !! h = Some rd
        /\ m_ResourceTypes f !! m_ResourceType rd = Some rt
        /\ GetType lay resource (f, t) = Some ((FACTORY_RESULT_OK, type), (f, t))
        /\ GetExtensionFromType lay f type
           = (FACTORY_RESULT_OK, Some (m_Extension rt)).
Proof.
  intros (Hbase & Hsize & Hfit) Hok Hreg. split.
  - intros Hnone. unfold GetType, bind, factory. simpl. now rewrite Hnone.
  - intros h Hh.
    destruct (ok_address f Hok _ _ Hh) as (rd & Hrd & Hres).
    destruct (ok_descriptor f Hok _ _ Hrd) as (_ & Hcount & _ & _ & [rt Hrt]).
    exists rd, rt, (type_address lay (m_ResourceType rd)).
    split; [exact Hrd|]. split; [exact Hrt|]. split.
    + unfold GetType, bind, factory. simpl. rewrite Hh, Hrd.
      unfold c_assert. destruct (Z.ltb_spec 0 (m_ReferenceCount rd)); [|lia].
      simpl. unfold ret. rewrite wrap32_small; [reflexivity|].
      pose proof (ok_count f Hreg) as Hc. apply lookup_lt_Some in Hrt.
      unfold m_ResourceTypesCount, MAX_RESOURCE_TYPES, type_address in *. nia.
    + unfold GetExtensionFromType.
      rewrite (extension_from_at lay 0 (m_ResourceType rd) _ rt) by (auto; lia).
      reflexivity.
Qed.

(** ** The HTTP server *)

Lemma Iterate_status (entries : list (Z * string)) (f : SResourceFactory)
    (t : list Event) :
  (forall e, In e entries -> is_Some (m_Resources f !! fst e)) ->
  Iterate SentHtmlStatus entries (f, t)
  = Some (concat (map (status_row f) entries), (f, t)).
Proof.
  induction entries as [|[h name] entries IH]; intros Hall; [reflexivity|].
  destruct (Hall (h, name) (or_introl eq_refl)) as [rd Hrd]. simpl in Hrd.
  cbn [Iterate map concat]. unfold bind at 1.
  assert (Hrow : SentHtmlStatus h name (f, t)
                 = Some (status_row f (h, name), (f, t))).
  { unfold SentHtmlStatus, status_row, bind, factory. simpl. now rewrite Hrd. }
  rewrite Hrow. unfold bind.
  rewrite IH by (intros e He; apply Hall; now right).
  reflexivity.
Qed.

Lemma status_row_length (f : SResourceFactory) (entries : list (Z * string)) :
  (forall e, In e entries -> is_Some (m_Resources f !! fst e)) ->
  length (concat (map (status_row f) entries)) = (5 * length entries)%nat.
Proof.
  induction entries as [|e entries IH]; intros Hall; [reflexivity|].
  simpl. rewrite length_app, IH by (intros e' He; apply Hall; now right).
  destruct (Hall e (or_introl eq_refl)) as [rd Hrd].
  unfold status_row. rewrite Hrd. simpl. lia.
Qed.

Section HttpServerProperties.

Variable dmHashBuffer64 : string -> Z.
Variable reload_result_number : ReloadResult -> Z.

(** X16.  A request for ["/reload/<name>"] is a reload of [name].  What
    [ReloadResource] does to the factory and the trace is all that the
    request does to them, but for one log record behind it, whose severity
    tells the result: info for [OK], warning when the handler has no
    recreate callback or the result is unknown, error otherwise.  The three
    tables are not changed and nothing is sent.  A request for any path
    other than these and ["/"] does nothing at all. *)
Theorem HttpServerResponse_reload (w : World) (name : string)
    (f f' : SResourceFactory) (t t' : list Event) (res : ReloadResult)
    (out_descriptor : option SResourceDescriptor) :
  ReloadResource dmHashBuffer64 w name (f, t)
    = Some ((res, out_descriptor), (f', t')) ->
  (exists format args,
      HttpServerResponse dmHashBuffer64 reload_result_number w
        ("/reload/" +:+ name) (f, t)
      = Some ([], (f', t' ++ [EvLog (reload_severity res) format args])))
  /\ m_Resources f' = m_Resources f
  /\ m_ResourceToHash f' = m_ResourceToHash f
  /\ m_ResourceHashToFilename f' = m_ResourceHashToFilename f
  /\ forall resource,
      strip_prefix "/reload/" resource = None ->
      resource <> "/" ->
      HttpServerResponse dmHashBuffer64 reload_result_number w resource (f, t)
      = Some ([], (f, t)).
Proof.
  intros H.
  assert (Htables : m_Resources f' = m_Resources f
                    /\ m_ResourceToHash f' = m_ResourceToHash f
                    /\ m_ResourceHashToFilename f' = m_ResourceHashToFilename f
                    /\ m_ResourceTypes f' = m_ResourceTypes f).
  { pose proof H as Hinv. apply ReloadResource_inv in Hinv. simpl in Hinv.
    destruct Hinv as [(_ & _ & _ & -> & _)|(rd & rt & _ & _ & _ & Hinv)]; [auto|].
    destruct Hinv as [(_ & _ & -> & _)|(_ & result & size & tL & Hload & _)];
      [auto|].
    destruct (preserves_LoadResource _ _ _ _ _ _ Hload) as [Hframe _].
    simpl in Hframe. destruct Hframe. auto. }
  destruct Htables as (Hr & Ha & Hn & Hty).
  split; [|split; [exact Hr|split; [exact Ha|split; [exact Hn|]]]].
  - unfold HttpServerResponse.
    change (strip_prefix "/reload/" ("/reload/" +:+ name))
      with (strip_prefix EmptyString name).
    replace (strip_prefix EmptyString name) with (Some name)
      by (now destruct name).
    unfold bind at 1. rewrite H. simpl.
    destruct res; unfold dmLogInfo, dmLogError, dmLogWarning;
      try (unfold bind, emit, ret; simpl; eexists _, _; reflexivity).
    (* the handler has no recreate callback *)
    apply ReloadResource_inv in H. simpl in H.
    destruct H as [(_ & Hres & _)|(rd & rt & _ & Hrt & -> & _)];
      [discriminate|].
    unfold bind at 1, bind at 1.
    unfold type_at, bind at 1, factory at 1. simpl. rewrite Hty, Hrt.
    unfold ret at 1, emit. simpl. eexists _, _. reflexivity.
  - intros resource Hprefix Hroot. unfold HttpServerResponse.
    rewrite Hprefix.
    destruct (String.eqb_spec "/" resource) as [<-|_]; [contradiction|].
    reflexivity.
Qed.

(** X17.  The status page.  Under the invariant, on a factory with reload
    support, a request for ["/"] fails no assertion and changes nothing; it
    sends the opening of a table and its header, then for each entry of the
    file name table, each once, the five pieces of a row with the file name
    and the reference count of its descriptor as ["%d"] prints it, then the
    end of the table: three pieces and five for each interned resource.
    Without reload support it sends nothing. *)
Theorem HttpServerResponse_status_page (w : World) (f : SResourceFactory)
    (t : list Event) :
  factory_ok f ->
  (m_ResourceHashToFilename f = None ->
   HttpServerResponse dmHashBuffer64 reload_result_number w "/" (f, t)
   = Some ([], (f, t)))
  /\ forall filenames,
      m_ResourceHashToFilename f = Some filenames ->
      exists rows,
        HttpServerResponse dmHashBuffer64 reload_result_number w "/" (f, t)
        = Some (["<table>";
                 "<td><b>Filename</b></td><td><b>Reference count</b></td><tr/>"]
                ++ rows ++ ["</table>"], (f, t))
        /\ length rows = (5 * size (m_Resources f))%nat
        /\ forall h file_name,
            filenames !! h = Some file_name ->
            exists rd before behind,
              m_Resources f !! h = Some rd
              /\ rows = before
                        ++ ["<td>"; file_name; "<td>";
                            DM_SNPRINTF 32 (format_d (m_ReferenceCount rd));
                            "<tr/>"]
                        ++ behind.
Proof.
  intros Hok. split.
  - intros Hn. unfold HttpServerResponse. simpl.
    unfold bind, factory. simpl. now rewrite Hn.
  - intros filenames Hn.
    assert (Hall : forall e, In e (map_to_list filenames) ->
                             is_Some (m_Resources f !! fst e)).
    { intros [h name] He. apply list_elem_of_In, elem_of_map_to_list in He.
      apply (ok_filename f Hok filenames h Hn). simpl. eauto. }
    exists (concat (map (status_row f) (map_to_list filenames))).
    split; [|split].
    + unfold HttpServerResponse. simpl. unfold bind at 1, factory at 1. simpl.
      rewrite Hn. unfold bind. rewrite (Iterate_status _ f t Hall). reflexivity.
    + rewrite (status_row_length f _ Hall). f_equal.
      rewrite length_map_to_list.
      rewrite <- !size_dom. f_equal. apply set_eq. intros h.
      rewrite !elem_of_dom. apply (ok_filename f Hok filenames h Hn).
    + intros h file_name Hh.
      assert (Hin : (h, file_name) ∈ map_to_list filenames)
        by now apply elem_of_map_to_list.
      apply list_elem_of_split in Hin. destruct Hin as (l1 & l2 & Hsplit).
      destruct (proj1 (ok_filename f Hok filenames h Hn)) as [rd Hrd]; [eauto|].
      exists rd, (concat (map (status_row f) l1)),
        (concat (map (status_row f) l2)).
      split; [exact Hrd|].
      rewrite Hsplit, map_app, concat_app. simpl.
      unfold status_row at 2. simpl. rewrite Hrd. reflexivity.
Qed.

End HttpServerProperties.

(** ** Construction *)

(** X18.  What [NewFactory] returns.  With a [malloc] that returns a
    block of the size it is asked for and a stream buffer size that fits
    in 32 bits: a factory that is returned satisfies the invariants of the
    tables and of the registry, has empty tables and an empty registry, the
    stream buffer size asked for and a stream buffer of that size plus one
    as 32 bits compute it (one byte more than the size, and that allocation,
    unless the size is [2 ^ 32 - 1]: then the sum wraps around and an empty
    block is asked for), the path of the URI, an HTTP client exactly for the scheme http, and the file name table
    and the observer array exactly when reload support or the HTTP server
    was asked for; a server that could not be started only leaves a
    warning.  When no factory is returned, at most one record was logged,
    and it is an error. *)
Theorem NewFactory_postconditions (pf : Platform) (params : NewFactoryParams)
    (uri : string) :
  (forall buffer,
      malloc pf (wrap32 (params_StreamBufferSize params + 1)) = Some buffer ->
      Z.of_nat (length buffer) = wrap32 (params_StreamBufferSize params + 1)) ->
  0 <= params_StreamBufferSize params < 2 ^ 32 ->
  match NewFactory pf params uri with
  | (Some f, log) =>
      factory_ok f /\ registry_ok f
      /\ m_StreamBufferSize f = params_StreamBufferSize params
      /\ Z.of_nat (length (m_StreamBuffer f))
         = wrap32 (params_StreamBufferSize params + 1)
      /\ (buffer_ok f <-> params_StreamBufferSize params < 2 ^ 32 - 1)
      /\ m_Resources f = ∅ /\ m_ResourceToHash f = ∅ /\ m_ResourceTypes f = []
      /\ observers f = []
      /\ (exists parts,
             dmURI_Parse pf uri = Some parts
             /\ m_Path f = parts_Path parts
             /\ (m_HttpClient f <> 0 <-> m_Scheme parts = "http")
             /\ (m_HttpClient f = 0 <-> m_Scheme parts = "file"))
      /\ (is_Some (m_ResourceHashToFilename f)
          <-> Z.land (m_Flags params) RESOURCE_FACTORY_FLAGS_RELOAD_SUPPORT <> 0
              \/ Z.land (m_Flags params) RESOURCE_FACTORY_FLAGS_HTTP_SERVER <> 0)
      /\ (is_Some (m_ResourceReloadedCallbacks f)
          <-> is_Some (m_ResourceHashToFilename f))
      /\ m_BuiltinsArchive f = params_BuiltinsArchive params
      /\ Forall is_warning log
  | (None, log) =>
      (length log <= 1)%nat
      /\ Forall (fun e => exists format args,
                            e = EvLog LOG_SEVERITY_ERROR format args) log
  end.
Proof.
  intros Hmalloc Hsize. unfold NewFactory.
  destruct (malloc pf (wrap32 (params_StreamBufferSize params + 1)))
    as [buffer|] eqn:Hbuf;
    [|simpl; split; [lia | constructor]].
  specialize (Hmalloc buffer eq_refl). clear Hbuf.
  assert (Hwrap : wrap32 (params_StreamBufferSize params + 1)
                  = params_StreamBufferSize params + 1
                  <-> params_StreamBufferSize params < 2 ^ 32 - 1).
  { unfold wrap32. split.
    - intros E.
      destruct (Z.eq_dec (params_StreamBufferSize params) (2 ^ 32 - 1)) as [Eq|];
        [rewrite Eq in E; vm_compute in E; discriminate | lia].
    - intros H. apply Z.mod_small. lia. }
  assert (Hbok : forall f,
             m_StreamBufferSize f = params_StreamBufferSize params ->
             m_StreamBuffer f = buffer ->
             buffer_ok f <-> params_StreamBufferSize params < 2 ^ 32 - 1).
  { intros f E1 E2. unfold buffer_ok. rewrite E1, E2, Hmalloc. split.
    - intros [_ E]. now apply Hwrap.
    - intros H. split; [lia | now apply Hwrap]. }
  destruct (dmURI_Parse pf uri) as [parts|];
    [|simpl; split; [lia | repeat constructor; eauto]].
  assert (Hreload : forall flags : Z,
             negb (Z.land (if negb (Z.land flags 2 =? 0) then Z.lor flags 1
                           else flags) 1 =? 0) = true
             <-> Z.land flags 1 <> 0 \/ Z.land flags 2 <> 0).
  { intros flags. rewrite negb_true_iff, Z.eqb_neq.
    destruct (Z.eqb_spec (Z.land flags 2) 0) as [E|E]; simpl; [tauto|].
    rewrite Z.land_lor_distr_l. change (Z.land 1 1) with 1.
    split; [tauto|]. intros _ H. apply Z.lor_eq_0_iff in H. destruct H. lia. }
  destruct (String.eqb_spec (m_Scheme parts) "http") as [Hhttp|Hhttp]; simpl.
  - destruct (Z.eqb_spec (dmHttpClient_New pf (m_Hostname parts) (m_Port parts)) 0)
      as [Hz|Hz]; [simpl; split; [lia | repeat constructor; eauto]|].
    change (match
              (if negb (Z.land (m_Flags params) RESOURCE_FACTORY_FLAGS_HTTP_SERVER =? 0)
               then dmHttpServer_New pf 8001 else Some 0)
            with Some _ => [] | None => _ end)
      with (match
              (if negb (Z.land (m_Flags params) 2 =? 0)
               then dmHttpServer_New pf 8001 else Some 0)
            with
            | Some _ => []
            | None => [EvLog LOG_SEVERITY_WARNING
                         "Unable to start http server on port: %d" [ArgD 8001]]
            end).
    unfold RESOURCE_FACTORY_FLAGS_HTTP_SERVER,
      RESOURCE_FACTORY_FLAGS_RELOAD_SUPPORT.
    pose proof (Hreload (m_Flags params)) as Hr.
    destruct (negb (Z.land (if negb (Z.land (m_Flags params) 2 =? 0)
                            then Z.lor (m_Flags params) 1 else m_Flags params) 1
                    =? 0)) eqn:Eflag.
    all: split; [apply factory_ok_new; try reflexivity;
                 simpl; intros ? [= <-]; reflexivity|].
    all: split; [now apply registry_ok_new|].
    all: split; [reflexivity|].
    all: split; [exact Hmalloc|].
    all: split; [now apply Hbok|].
    all: do 4 (split; [reflexivity|]).
    all: split; [exists parts; simpl; split; [reflexivity|];
                 split; [reflexivity|]; split; [tauto|];
                 split; [contradiction | intros E; rewrite Hhttp in E;
                                         discriminate]|].
    all: split; [simpl; split;
                 [intros [? E]; try discriminate; now apply Hr
                 |intros E; apply Hr in E; try discriminate; eauto]|].
    all: split; [simpl; split; intros [? E]; try discriminate; eauto|].
    all: split; [reflexivity|].
    all: destruct (if negb (Z.land (m_Flags params) 2 =? 0)
                   then dmHttpServer_New pf 8001 else Some 0);
      repeat constructor.
  - destruct (String.eqb_spec (m_Scheme parts) "file") as [Hfile|Hfile];
      [|simpl; split; [lia | repeat constructor; eauto]].
    simpl.
    unfold RESOURCE_FACTORY_FLAGS_HTTP_SERVER,
      RESOURCE_FACTORY_FLAGS_RELOAD_SUPPORT.
    pose proof (Hreload (m_Flags params)) as Hr.
    destruct (negb (Z.land (if negb (Z.land (m_Flags params) 2 =? 0)
                            then Z.lor (m_Flags params) 1 else m_Flags params) 1
                    =? 0)) eqn:Eflag.
    all: split; [apply factory_ok_new; try reflexivity;
                 simpl; intros ? [= <-]; reflexivity|].
    all: split; [now apply registry_ok_new|].
    all: split; [reflexivity|].
    all: split; [exact Hmalloc|].
    all: split; [now apply Hbok|].
    all: do 4 (split; [reflexivity|]).
    all: split; [exists parts; simpl; split; [reflexivity|];
                 split; [reflexivity|]; split; [tauto|]; tauto|].
    all: split; [simpl; split;
                 [intros [? E]; try discriminate; now apply Hr
                 |intros E; apply Hr in E; try discriminate; eauto]|].
    all: split; [simpl; split; intros [? E]; try discriminate; eauto|].
    all: split; [reflexivity|].
    all: destruct (if negb (Z.land (m_Flags params) 2 =? 0)
                   then dmHttpServer_New pf 8001 else Some 0);
      repeat constructor.
Qed.

(** ** The observers *)

Lemma unregister_loop_length (callback user_data : Z)
    (callbacks : list ResourceReloadedCallbackPair) :
  (length (unregister_loop (length callbacks) 0 callback user_data callbacks)
   <= length callbacks)%nat.
Proof.
  rewrite (Permutation_length
             (unregister_loop_perm (length callbacks) 0 callback user_data
                callbacks ltac:(lia))).
  rewrite take_0, drop_0. simpl. apply List.filter_length_le.
Qed.

Section ObserverProperties.

Variable dmHashBuffer64 : string -> Z.

(** X19.  On a factory with reload support, unregistering removes every
    entry of the pair, however often it was registered, and keeps all the
    others: the observer array afterwards
    holds, in some order, the entries that do not match; nothing is logged
    and nothing else changes.  A reload made in that state does not call
    the pair. *)
Theorem Unregister_removes_every_match (callback user_data : Z)
    (f : SResourceFactory) (t : list Event)
    (callbacks : list ResourceReloadedCallbackPair) :
  m_ResourceReloadedCallbacks f = Some callbacks ->
  exists f',
    UnregisterResourceReloadedCallback callback user_data (f, t)
      = Some (tt, (f', t))
    /\ set_ResourceReloadedCallbacks (m_ResourceReloadedCallbacks f) f' = f
    /\ observers f'
       ≡ₚ List.filter (fun cb => negb (same_observer callback user_data cb))
            callbacks
    /\ (forall cb, In cb (observers f') ->
                   m_Callback cb <> callback \/ m_UserData cb <> user_data)
    /\ forall w name r f'' t'',
        ReloadResource dmHashBuffer64 w name (f', t) = Some (r, (f'', t'')) ->
        exists evs,
          t'' = t ++ evs
          /\ forall rd n, ~ In (EvReloaded callback user_data rd n) evs.
Proof.
  intros Hcbs.
  set (left := unregister_loop (length callbacks) 0 callback user_data callbacks).
  exists (set_ResourceReloadedCallbacks (Some left) f).
  assert (Hperm : left ≡ₚ List.filter
                            (fun cb => negb (same_observer callback user_data cb))
                            callbacks).
  { unfold left. rewrite unregister_loop_perm by lia.
    now rewrite take_0, drop_0. }
  assert (Hnone : forall cb, In cb left ->
                    m_Callback cb <> callback \/ m_UserData cb <> user_data).
  { intros cb Hin. apply list_elem_of_In in Hin. rewrite Hperm in Hin.
    apply list_elem_of_In, List.filter_In in Hin. destruct Hin as [_ Hcb].
    unfold same_observer in Hcb. apply negb_true_iff, andb_false_iff in Hcb.
    destruct Hcb as [Hcb|Hcb]; apply Z.eqb_neq in Hcb; auto. }
  split; [|split; [|split; [|split]]].
  - unfold UnregisterResourceReloadedCallback, bind, factory. simpl.
    now rewrite Hcbs.
  - now destruct f.
  - exact Hperm.
  - exact Hnone.
  - intros w name [res out] f'' t'' H. apply ReloadResource_inv in H.
    simpl in H.
    assert (Hnil : exists evs, t = t ++ evs
                     /\ forall rd n, ~ In (EvReloaded callback user_data rd n) evs)
      by (exists []; split; [now rewrite app_nil_r | intros rd n []]).
    destruct H as [(_ & _ & _ & _ & ->)|(rd & rt & _ & _ & _ & H)]; [exact Hnil|].
    destruct H as [(_ & _ & _ & ->)|(_ & result & size & tL & Hload & H)];
      [exact Hnil|].
    destruct (preserves_LoadResource _ _ _ _ _ _ Hload)
      as [Hframe (evs & HtL & Hevs)].
    simpl in Hframe, HtL. subst tL.
    assert (Htr : forall rd n, ~ In (EvReloaded callback user_data rd n) evs).
    { intros rd' n Hin. apply list_elem_of_In in Hin.
      rewrite Forall_forall in Hevs. apply Hevs in Hin. exact Hin. }
    assert (Hobs : observers f'' = left).
    { unfold observers.
      now rewrite (frame_ResourceReloadedCallbacks _ _ Hframe). }
    destruct H as [(_ & _ & ->)|(_ & cr & _ & [(_ & _ & ->)|(_ & _ & ->)])].
    + exists evs. auto.
    + eexists. rewrite <- !app_assoc. split; [reflexivity|].
      intros rd' n Hin. apply in_app_or in Hin. destruct Hin as [Hin|Hin];
        [now apply (Htr rd' n)|].
      apply in_app_or in Hin. destruct Hin as [[Hin|[]]|Hin]; [discriminate|].
      apply in_map_iff in Hin. destruct Hin as (cb & Heq & Hin).
      injection Heq as E1 E2 _ _. rewrite Hobs in Hin.
      destruct (Hnone cb Hin); congruence.
    + eexists. rewrite <- !app_assoc. split; [reflexivity|].
      intros rd' n Hin. apply in_app_or in Hin. destruct Hin as [Hin|Hin];
        [now apply (Htr rd' n)|].
      destruct Hin as [Hin|[]]. discriminate.
Qed.

End ObserverProperties.

(** X20.  The observer array stays within its capacity, and only exists
    with reload support.  After any history of registrations and
    unregistrations the array holds at most [MAX_CALLBACKS] entries when it
    did so before; the history changes nothing but that array, and logs
    nothing but warnings (one for each registration that found the array
    full).  On a factory without reload support the history changes
    nothing and logs nothing. *)
Theorem observers_stay_within_capacity (cs : list ObserverCall)
    (f f' : SResourceFactory) (t t' : list Event) :
  Z.of_nat (length (observers f)) <= MAX_CALLBACKS ->
  observer_calls cs (f, t) = Some (tt, (f', t')) ->
  Z.of_nat (length (observers f')) <= MAX_CALLBACKS
  /\ set_ResourceReloadedCallbacks (m_ResourceReloadedCallbacks f) f' = f
  /\ (exists warnings, t' = t ++ warnings /\ Forall is_warning warnings)
  /\ (m_ResourceReloadedCallbacks f = None -> f' = f /\ t' = t).
Proof.
  revert f t. induction cs as [|c cs IH]; intros f t Hcap Hrun.
  - injection Hrun as <- <-. split; [exact Hcap|].
    split; [now destruct f|].
    split; [exists []; now rewrite app_nil_r | auto].
  - simpl in Hrun. apply bind_Some in Hrun.
    destruct Hrun as ([] & [f1 t1] & Hc & Hrest).
    assert (H1 : Z.of_nat (length (observers f1)) <= MAX_CALLBACKS
                 /\ set_ResourceReloadedCallbacks
                      (m_ResourceReloadedCallbacks f) f1 = f
                 /\ (exists warnings, t1 = t ++ warnings
                                      /\ Forall is_warning warnings)
                 /\ (m_ResourceReloadedCallbacks f = None -> f1 = f /\ t1 = t)).
    { unfold observers in *.
      destruct c as [callback user_data|callback user_data]; simpl in Hc.
      - unfold RegisterResourceReloadedCallback in Hc. run_in Hc.
        destruct (m_ResourceReloadedCallbacks f) as [callbacks|] eqn:Hcbs;
          run_in Hc.
        + destruct (Z.eqb_spec (Z.of_nat (length callbacks)) MAX_CALLBACKS)
            as [Hfull|Hroom]; run_in Hc; injection Hc as <- <-.
          * rewrite Hcbs. split; [exact Hcap|].
            split; [rewrite <- Hcbs; now destruct f|].
            split; [|discriminate].
            eexists. split; [reflexivity|]. now repeat constructor.
          * simpl. split; [rewrite length_app; simpl; lia|].
            split; [rewrite <- Hcbs; now destruct f|].
            split; [exists []; now rewrite app_nil_r | discriminate].
        + injection Hc as <- <-. rewrite Hcbs. split; [exact Hcap|].
          split; [rewrite <- Hcbs; now destruct f|].
          split; [exists []; now rewrite app_nil_r | auto].
      - unfold UnregisterResourceReloadedCallback in Hc. run_in Hc.
        destruct (m_ResourceReloadedCallbacks f) as [callbacks|] eqn:Hcbs;
          run_in Hc; injection Hc as <- <-.
        + simpl. split.
          { pose proof (unregister_loop_length callback user_data callbacks). lia. }
          split; [rewrite <- Hcbs; now destruct f|].
          split; [exists []; now rewrite app_nil_r | discriminate].
        + rewrite Hcbs. split; [exact Hcap|].
          split; [rewrite <- Hcbs; now destruct f|].
          split; [exists []; now rewrite app_nil_r | auto]. }
    destruct H1 as (Hcap1 & Hframe1 & (w1 & -> & Hw1) & Hnone1).
    destruct (IH f1 _ Hcap1 Hrest) as (Hcap' & Hframe' & (w2 & -> & Hw2)
                                       & Hnone').
    split; [exact Hcap'|]. split.
    { exact (eq_trans
               (f_equal (set_ResourceReloadedCallbacks
                           (m_ResourceReloadedCallbacks f)) Hframe')
               Hframe1). }
    split.
    { exists (w1 ++ w2). rewrite app_assoc. split; [reflexivity|].
      apply Forall_app. auto. }
    intros Hn. destruct (Hnone1 Hn) as [-> Ht].
    destruct (Hnone' Hn) as [-> Ht']. split; [reflexivity|].
    now rewrite Ht', Ht.
Qed.

(** ** Updates *)

Section UpdateProperties.

Variable dmHashBuffer64 : string -> Z.
Variable reload_result_number : ReloadResult -> Z.

(** A response keeps the frame of a load and calls no create or destroy
    callback. *)
Lemma preserves_HttpServerResponse (w : World) (resource : string) :
  preserves (machine_frame in_place)
    (HttpServerResponse dmHashBuffer64 reload_result_number w resource).
Proof.
  intros [f t] sent [f' t'] H. unfold HttpServerResponse in H.
  destruct (strip_prefix "/reload/" resource) as [name|].
  - apply bind_Some in H. destruct H as ([res out] & [f1 t1] & Hreload & H).
    assert (H1 : machine_frame in_place (f, t) (f1, t1)).
    { apply ReloadResource_inv in Hreload. simpl in Hreload.
      destruct Hreload as [(_ & _ & _ & -> & ->)|(rd & rt & _ & _ & _ & Hr)];
        [apply machine_frame_refl|].
      destruct Hr as [(_ & _ & -> & ->)|(_ & result & size & tL & Hload & Hr)];
        [apply machine_frame_refl|].
      destruct (preserves_LoadResource _ _ _ _ _ _ Hload)
        as [Hframe (evs & HtL & Hevs)].
      simpl in Hframe, HtL. subst tL. split; [exact Hframe|]. simpl.
      assert (Hin : Forall in_place evs).
      { eapply Forall_impl; [exact Hevs|].
        intros e He. destruct e; simpl in *; tauto. }
      destruct Hr as [(_ & _ & ->)|(_ & cr & _ & [(_ & _ & ->)|(_ & _ & ->)])].
      - eauto.
      - eexists. rewrite <- !app_assoc. split; [reflexivity|].
        apply Forall_app. split; [exact Hin|].
        apply Forall_app. split; [now repeat constructor|].
        apply Forall_map. apply Forall_true. intros cb. exact I.
      - eexists. rewrite <- !app_assoc. split; [reflexivity|].
        apply Forall_app. split; [exact Hin|]. now repeat constructor. }
    eapply machine_frame_trans; [exact H1|].
    apply bind_Some in H. destruct H as ([] & [f2 t2] & Hlog & H).
    injection H as _ <- <-. simpl in Hlog.
    assert (Hrest : preserves (machine_frame in_place)
              (match res with
               | RELOAD_RESULT_OK =>
                   dmLogInfo "%s was successfully reloaded." [ArgS name]
               | RELOAD_RESULT_OUT_OF_MEMORY =>
                   dmLogError "Not enough memory to reload %s." [ArgS name]
               | RELOAD_RESULT_FORMAT_ERROR | RELOAD_RESULT_CONSTANT_ERROR =>
                   dmLogError "%s has invalid format and could not be reloaded."
                     [ArgS name]
               | RELOAD_RESULT_NOT_FOUND =>
                   dmLogError
                     "%s could not be reloaded since it was never loaded before."
                     [ArgS name]
               | RELOAD_RESULT_LOAD_ERROR =>
                   dmLogError "%s could not be loaded, reloading failed."
                     [ArgS name]
               | RELOAD_RESULT_NOT_SUPPORTED =>
                   match out with
                   | Some rd =>
                       resource_type <- type_at (m_ResourceType rd);;
                       dmLogWarning
                         "Reloading of resource type %s not supported."
                         [ArgS (m_Extension resource_type)]
                   | None => abort
                   end
               | RELOAD_RESULT_UNKNOWN =>
                   dmLogWarning "%s could not be reloaded, unknown error: %d."
                     [ArgS name; ArgD (reload_result_number res)]
               end)%fac).
    { unfold dmLogInfo, dmLogError, dmLogWarning, type_at.
      destruct res; frame_run. }
    exact (Hrest _ _ _ Hlog).
  - destruct (String.eqb "/" resource); [|injection H as _ <- <-;
                                           apply machine_frame_refl].
    apply bind_Some in H. destruct H as (f0 & m0 & Hf & H).
    injection Hf as <- <-. simpl in H.
    destruct (m_ResourceHashToFilename f) as [filenames|];
      [|injection H as _ <- <-; apply machine_frame_refl].
    apply bind_Some in H. destruct H as (rows & [f1 t1] & Hit & H).
    injection H as _ <- <-.
    assert (Hsame : forall entries m sent' m',
               Iterate SentHtmlStatus entries m = Some (sent', m') -> m' = m).
    { induction entries as [|[h name] entries IH]; intros m sent' m' Hi;
        simpl in Hi; [now injection Hi|].
      apply bind_Some in Hi. destruct Hi as (row & m1 & Hrow & Hi).
      apply bind_Some in Hi. destruct Hi as (more & m2 & Hmore & Hi).
      injection Hi as _ <-. apply IH in Hmore. subst m2.
      unfold SentHtmlStatus in Hrow. run_in Hrow.
      destruct (m_Resources (fst m) !! h); [|discriminate].
      run_in Hrow. now injection Hrow. }
    apply Hsame in Hit. injection Hit as <- <-. apply machine_frame_refl.
Qed.

(** X21.  An update only reloads.  Whatever requests the server has
    ready, [UpdateFactory] leaves the three tables, the registry and the
    observers as they are and calls no create or destroy callback: the
    resources that are interned stay interned, with their addresses and
    their counts.  On a factory without a server it does nothing. *)
Theorem UpdateFactory_only_reloads (w : World) (ready : list string)
    (f f' : SResourceFactory) (t t' : list Event) :
  UpdateFactory dmHashBuffer64 reload_result_number w ready (f, t)
    = Some (tt, (f', t')) ->
  m_Resources f' = m_Resources f
  /\ m_ResourceToHash f' = m_ResourceToHash f
  /\ m_ResourceHashToFilename f' = m_ResourceHashToFilename f
  /\ m_ResourceTypes f' = m_ResourceTypes f
  /\ observers f' = observers f
  /\ (exists evs, t' = t ++ evs /\ Forall in_place evs)
  /\ (m_HttpServer f = 0 -> f' = f /\ t' = t).
Proof.
  intros H.
  assert (Hupdate : forall requests,
             preserves (machine_frame in_place)
               (dmHttpServer_Update dmHashBuffer64 reload_result_number
                  w requests)).
  { induction requests as [|resource requests IH]; simpl;
      [apply preserves_ret|].
    apply preserves_bind; [apply preserves_HttpServerResponse|].
    intros _. exact IH. }
  unfold UpdateFactory, bind at 1, factory at 1 in H. simpl in H.
  destruct (Z.eqb_spec (m_HttpServer f) 0) as [Hz|Hz]; simpl in H.
  - injection H as <- <-. repeat (split; [reflexivity|]).
    split; [exists []; now rewrite app_nil_r | auto].
  - destruct (Hupdate ready _ _ _ H) as [Hframe Hevs]. simpl in Hframe, Hevs.
    unfold observers. rewrite (frame_ResourceReloadedCallbacks _ _ Hframe).
    split; [apply Hframe|]. split; [apply Hframe|]. split; [apply Hframe|].
    split; [apply Hframe|]. split; [reflexivity|].
    split; [exact Hevs | contradiction].
Qed.

End UpdateProperties.

(** ** The limit of the reference count *)

(** X22.  The reference count wraps.  A hit on a descriptor that has
    [2 ^ 32 - 1] references returns [OK] and leaves it with a count of zero
    while it is still interned: the invariant of the tables is lost, and
    the next [Release] or [GetType] of the address fails its assertion. *)
Theorem reference_count_wraps (dmHashBuffer64 : string -> Z) (lay : Layout)
    (w : World) (name : string) (f : SResourceFactory) (t : list Event)
    (rd : SResourceDescriptor) :
  m_Resources f !! dmHashBuffer64 (GetCanonicalPath (m_Path f) name) = Some rd ->
  m_ResourceToHash f !! m_Resource rd
    = Some (dmHashBuffer64 (GetCanonicalPath (m_Path f) name)) ->
  m_ReferenceCount rd = 2 ^ 32 - 1 ->
  exists f',
    Get dmHashBuffer64 w name (f, t)
      = Some ((FACTORY_RESULT_OK, m_Resource rd), (f', t))
    /\ m_Resources f' !! dmHashBuffer64 (GetCanonicalPath (m_Path f) name)
       = Some (set_ReferenceCount 0 rd)
    /\ m_ResourceToHash f' = m_ResourceToHash f
    /\ ~ factory_ok f'
    /\ Release (m_Resource rd) (f', t) = None
    /\ GetType lay (m_Resource rd) (f', t) = None.
Proof.
  intros Hrd Haddr Hcount.
  set (h := dmHashBuffer64 (GetCanonicalPath (m_Path f) name)) in *.
  exists (with_count h rd 0 f).
  destruct (with_count_tables h rd 0 f) as (Hrd' & Haddr' & _).
  split; [|split; [exact Hrd'|split; [exact Haddr'|split; [|split]]]].
  - rewrite (Get_hit dmHashBuffer64 w name f t rd Hrd) by eauto.
    rewrite Hcount. reflexivity.
  - intros Hok. destruct (ok_descriptor _ Hok _ _ Hrd') as (_ & Hpos & _).
    simpl in Hpos. lia.
  - unfold Release, bind at 1, factory at 1. cbn beta iota delta [fst snd].
    rewrite Haddr', Haddr, Hrd'. reflexivity.
  - unfold GetType, bind at 1, factory at 1. cbn beta iota delta [fst snd].
    rewrite Haddr', Haddr, Hrd'. reflexivity.
Qed.

(** ** Sessions *)

Lemma acquired_ok : factory_ok (fst acquired) /\ registry_ok (fst acquired).
Proof.
  assert (H0 : factory_ok (sample_factory "/tmp/data" 0 64 true None)
               /\ registry_ok (sample_factory "/tmp/data" 0 64 true None)).
  { split; [apply factory_ok_new; try reflexivity; now intros ? [= <-]
           | now apply registry_ok_new]. }
  destruct H0 as [Hok0 Hreg0].
  destruct (run_call_ok sample_hash (CallRegisterType "txt" 0 11 12 13)
              (sample_factory "/tmp/data" 0 64 true None)
              (txt_factory 0 64 true None 13) [] [] Hok0 Hreg0 eq_refl eq_refl)
    as (Hok1 & Hreg1 & _).
  destruct (run_call_ok sample_hash (CallGet disk_world "a.txt")
              (txt_factory 0 64 true None 13) (fst acquired) [] (snd acquired)
              Hok1 Hreg1) as (Hok2 & Hreg2 & _);
    [vm_compute; reflexivity | vm_compute; reflexivity | auto].
Qed.

Lemma calls_keep_invariants_witness :
  exists f' t',
    run_calls sample_hash sample_calls
      (sample_factory "/tmp/data" 0 64 true None, []) = Some (tt, (f', t'))
    /\ factory_ok f' /\ registry_ok f'
    /\ exists evs, t' = [] ++ evs /\ Forall handler_not_null evs.
Proof.
  eexists _, _.
  lazymatch goal with
  | |- ?G /\ _ => assert (H1 : G) by (vm_compute; reflexivity)
  end.
  split; [exact H1|].
  apply (calls_keep_invariants sample_hash sample_calls
           (sample_factory "/tmp/data" 0 64 true None) _ [] _).
  - apply factory_ok_new; try reflexivity. now intros ? [= <-].
  - now apply registry_ok_new.
  - vm_compute. reflexivity.
  - exact H1.
Defined.


Lemma Get_then_Release_restores_tables_witness :
  exists f1 t1 f2 t2,
    Get sample_hash disk_world "a.txt" (txt_factory 0 64 true None 13, [])
      = Some ((FACTORY_RESULT_OK, 4096), (f1, t1))
    /\ Release 4096 (f1, t1) = Some (tt, (f2, t2))
    /\ m_Resources f2 = ∅
    /\ m_ResourceToHash f2 = ∅
    /\ m_ResourceHashToFilename f2 = Some ∅.
Proof.
  eexists _, _.
  lazymatch goal with
  | |- exists f2 t2, ?G /\ _ => assert (H1 : G) by (vm_compute; reflexivity)
  end.
  assert (Hok : factory_ok (txt_factory 0 64 true None 13))
    by (apply factory_ok_new; try reflexivity; now intros ? [= <-]).
  assert (Hb : get_behaves sample_hash disk_world "a.txt"
                 (txt_factory 0 64 true None 13, []) = true)
    by (vm_compute; reflexivity).
  destruct (Get_then_Release_restores_tables sample_hash disk_world "a.txt"
              (txt_factory 0 64 true None 13) _ [] _ 4096 Hok Hb H1)
    as (f2 & t2 & Hrel & Hr & Ha & Hn & _).
  exists f2, t2. auto.
Defined.

Lemma Get_slash_variants_share_witness :
  exists f1 t1 rd f2,
    Get sample_hash disk_world "a.txt" (txt_factory 0 64 true None 13, [])
      = Some ((FACTORY_RESULT_OK, 4096), (f1, t1))
    /\ m_Resources f1 !! sample_hash "/tmp/data/a.txt" = Some rd
    /\ m_Resource rd = 4096
    /\ Get sample_hash failing_world "//a.txt" (f1, t1)
       = Some ((FACTORY_RESULT_OK, 4096), (f2, t1)).
Proof.
  eexists _, _.
  lazymatch goal with
  | |- exists rd f2, ?G /\ _ => assert (H1 : G) by (vm_compute; reflexivity)
  end.
  assert (Hfit1 : Z.of_nat (String.length "/tmp/data") + 1
                   + Z.of_nat (String.length "a.txt") < RESOURCE_PATH_MAX)
    by (vm_compute; reflexivity).
  assert (Hfit2 : Z.of_nat (String.length "/tmp/data") + 1
                   + Z.of_nat (String.length "//a.txt") < RESOURCE_PATH_MAX)
    by (vm_compute; reflexivity).
  destruct (Get_slash_variants_share sample_hash disk_world failing_world
              "a.txt" "//a.txt" (txt_factory 0 64 true None 13) _ [] _ 4096
              Hfit1 Hfit2 eq_refl H1)
    as (rd & Hrd & Hres & Hget).
  exists rd. eexists. split; [exact H1|]. split; [exact Hrd|].
  split; [exact Hres | exact Hget].
Defined.

Lemma GetType_of_created_resource_witness :
  exists f1 t1,
    Get sample_hash disk_world "a.txt" (txt_factory 0 64 true None 13, [])
      = Some ((FACTORY_RESULT_OK, 4096), (f1, t1))
    /\ exists ext type,
        strrchr "a.txt" dot = Some ext
        /\ GetTypeFromExtension layout32 f1 (str_next ext)
           = (FACTORY_RESULT_OK, type)
        /\ GetType layout32 4096 (f1, t1)
           = Some ((FACTORY_RESULT_OK, type), (f1, t1)).
Proof.
  eexists _, _.
  lazymatch goal with
  | |- ?G /\ _ => assert (H1 : G) by (vm_compute; reflexivity)
  end.
  split; [exact H1|].
  exact (GetType_of_created_resource sample_hash layout32 disk_world "a.txt"
           (txt_factory 0 64 true None 13) _ [] _ 4096 eq_refl H1).
Defined.

Lemma GetType_names_the_handler_witness :
  GetType layout32 4097 acquired
    = Some ((FACTORY_RESULT_NOT_LOADED, 0), acquired)
  /\ exists rd rt type,
      m_Resources (fst acquired) !! sample_hash "/tmp/data/a.txt" = Some rd
      /\ m_ResourceTypes (fst acquired) !! m_ResourceType rd = Some rt
      /\ GetType layout32 4096 acquired
         = Some ((FACTORY_RESULT_OK, type), acquired)
      /\ GetExtensionFromType layout32 (fst acquired) type
         = (FACTORY_RESULT_OK, Some (m_Extension rt)).
Proof.
  destruct acquired_ok as [Hok Hreg].
  assert (Hlay : layout_32bit layout32) by (vm_compute; repeat split; congruence).
  destruct (GetType_names_the_handler layout32 4097 (fst acquired) (snd acquired)
              Hlay Hok Hreg) as [Hnone _].
  destruct (GetType_names_the_handler layout32 4096 (fst acquired) (snd acquired)
              Hlay Hok Hreg) as [_ Hsome].
  split; [apply Hnone; vm_compute; reflexivity|].
  apply (Hsome (sample_hash "/tmp/data/a.txt")). vm_compute. reflexivity.
Defined.

Lemma GetDescriptor_after_Get_witness :
  exists f1 t1 rd,
    Get sample_hash disk_world "a.txt" (txt_factory 0 64 true None 13, [])
      = Some ((FACTORY_RESULT_OK, 4096), (f1, t1))
    /\ GetDescriptor sample_hash "a.txt" (f1, t1)
       = Some ((FACTORY_RESULT_OK, Some rd), (f1, t1))
    /\ m_Resource rd = 4096
    /\ m_ReferenceCount rd = 1.
Proof.
  eexists _, _.
  lazymatch goal with
  | |- exists rd, ?G /\ _ => assert (H1 : G) by (vm_compute; reflexivity)
  end.
  destruct (GetDescriptor_after_Get sample_hash disk_world "a.txt"
              (txt_factory 0 64 true None 13) _ [] _ _ 4096 H1) as [Hok _].
  destruct (Hok eq_refl) as (rd & Hd & Hres & Hnew).
  exists rd. split; [exact H1|]. split; [exact Hd|]. split; [exact Hres|].
  apply Hnew. reflexivity.
Defined.

Lemma handlers_get_terminated_data_witness :
  buffer_ok (txt_factory 0 64 true None 13)
  /\ exists f' t',
      Get sample_hash failing_world "a.txt" (txt_factory 0 64 true None 13, [])
        = Some ((FACTORY_RESULT_UNKNOWN, 0), (f', t'))
      /\ buffer_ok f'
      /\ exists evs, t' = [] ++ evs /\ Forall terminated evs.
Proof.
  assert (Hbuf : buffer_ok (txt_factory 0 64 true None 13))
    by (split; [split; [discriminate | reflexivity] | reflexivity]).
  split; [exact Hbuf|].
  eexists _, _.
  lazymatch goal with
  | |- ?G /\ _ => assert (H1 : G) by (vm_compute; reflexivity)
  end.
  split; [exact H1|].
  destruct (handlers_get_terminated_data sample_hash failing_world "a.txt"
              (txt_factory 0 64 true None 13) [] Hbuf) as [Hget _].
  exact (Hget _ _ _ H1).
Defined.

Lemma Get_results_witness :
  exists f' t',
    Get sample_hash disk_world "a.png" (txt_factory 0 64 true None 13, [])
      = Some ((FACTORY_RESULT_UNKNOWN_RESOURCE_TYPE, 0), (f', t'))
    /\ In FACTORY_RESULT_UNKNOWN_RESOURCE_TYPE get_results
    /\ f' = txt_factory 0 64 true None 13
    /\ exists severity format args, t' = [] ++ [EvLog severity format args].
Proof.
  eexists _, _.
  lazymatch goal with
  | |- ?G /\ _ => assert (H1 : G) by (vm_compute; reflexivity)
  end.
  split; [exact H1|].
  assert (Hbuf : buffer_ok (txt_factory 0 64 true None 13))
    by (split; [split; [discriminate | reflexivity] | reflexivity]).
  assert (Hok : factory_ok (txt_factory 0 64 true None 13))
    by (apply factory_ok_new; try reflexivity; now intros ? [= <-]).
  destruct (Get_results sample_hash disk_world "a.png"
              (txt_factory 0 64 true None 13) _ [] _ _ _ Hbuf Hok H1)
    as (Hin & _ & _ & _ & Hsame).
  split; [exact Hin|]. apply Hsame. now right.
Defined.

Lemma HttpServerResponse_reload_witness :
  exists f' t' format args,
    ReloadResource sample_hash disk_world "a.txt" acquired
      = Some ((RELOAD_RESULT_OK,
               m_Resources (fst acquired) !! sample_hash "/tmp/data/a.txt"),
              (f', t'))
    /\ HttpServerResponse sample_hash sample_numbers disk_world "/reload/a.txt"
         acquired
       = Some ([], (f', t' ++ [EvLog LOG_SEVERITY_INFO format args]))
    /\ HttpServerResponse sample_hash sample_numbers disk_world "/favicon.ico"
         acquired
       = Some ([], acquired).
Proof.
  eexists _, _.
  lazymatch goal with
  | |- exists format args, ?G /\ _ =>
      assert (H1 : G) by (vm_compute; reflexivity)
  end.
  destruct (HttpServerResponse_reload sample_hash sample_numbers disk_world
              "a.txt" (fst acquired) _ (snd acquired) _ _ _ H1)
    as ((format & args & Hrun) & _ & _ & _ & Hother).
  exists format, args. split; [exact H1|]. split; [exact Hrun|].
  apply Hother; [reflexivity | discriminate].
Defined.

Lemma HttpServerResponse_status_page_witness :
  exists rows,
    HttpServerResponse sample_hash sample_numbers disk_world "/" acquired
    = Some (["<table>";
             "<td><b>Filename</b></td><td><b>Reference count</b></td><tr/>"]
            ++ rows ++ ["</table>"], acquired)
    /\ length rows = 5%nat.
Proof.
  destruct acquired_ok as [Hok _].
  destruct (HttpServerResponse_status_page sample_hash sample_numbers disk_world
              (fst acquired) (snd acquired) Hok) as [_ Hpage].
  destruct (Hpage (<[sample_hash "/tmp/data/a.txt" := "/tmp/data/a.txt"]> ∅))
    as (rows & Hrun & Hlen & _); [vm_compute; reflexivity|].
  exists rows. split; [exact Hrun|]. rewrite Hlen. vm_compute. reflexivity.
Defined.

Lemma NewFactory_postconditions_witness :
  exists f,
    NewFactory sample_platform
      (sample_params RESOURCE_FACTORY_FLAGS_EMPTY 64 None) "file:///tmp/data"
      = (Some f, [])
    /\ factory_ok f /\ registry_ok f /\ buffer_ok f
    /\ m_ResourceHashToFilename f = None
    /\ m_HttpClient f = 0.
Proof.
  eexists. split; [apply NewFactory_sample_file|].
  pose proof (NewFactory_postconditions sample_platform
                (sample_params RESOURCE_FACTORY_FLAGS_EMPTY 64 None)
                "file:///tmp/data") as H.
  rewrite NewFactory_sample_file in H.
  destruct H as (H1 & H2 & _ & _ & H3 & _).
  - intros buffer [= <-]. reflexivity.
  - split; [discriminate | reflexivity].
  - split; [exact H1|]. split; [exact H2|].
    split; [apply H3; reflexivity|]. auto.
Defined.

Lemma Unregister_removes_every_match_witness :
  exists f',
    UnregisterResourceReloadedCallback 1 2
      (set_ResourceReloadedCallbacks
         (Some [{| m_Callback := 1; m_UserData := 2 |};
                {| m_Callback := 3; m_UserData := 4 |};
                {| m_Callback := 1; m_UserData := 2 |}])
         (fst acquired), [])
    = Some (tt, (f', []))
    /\ observers f' ≡ₚ [{| m_Callback := 3; m_UserData := 4 |}].
Proof.
  destruct (Unregister_removes_every_match sample_hash 1 2
              (set_ResourceReloadedCallbacks
                 (Some [{| m_Callback := 1; m_UserData := 2 |};
                        {| m_Callback := 3; m_UserData := 4 |};
                        {| m_Callback := 1; m_UserData := 2 |}])
                 (fst acquired)) [] _ eq_refl)
    as (f' & Hrun & _ & Hperm & _).
  exists f'. split; [exact Hrun | exact Hperm].
Defined.

Lemma observers_stay_within_capacity_witness :
  exists f' t',
    observer_calls (repeat (CallRegister 1 2) 17 ++ [CallUnregister 5 6])
      (sample_factory "/tmp/data" 0 64 true None, [])
    = Some (tt, (f', t'))
    /\ Z.of_nat (length (observers f')) <= MAX_CALLBACKS
    /\ exists warnings, t' = [] ++ warnings /\ Forall is_warning warnings.
Proof.
  eexists _, _.
  lazymatch goal with
  | |- ?G /\ _ => assert (H1 : G) by (vm_compute; reflexivity)
  end.
  split; [exact H1|].
  destruct (observers_stay_within_capacity
              (repeat (CallRegister 1 2) 17 ++ [CallUnregister 5 6])
              (sample_factory "/tmp/data" 0 64 true None) _ [] _
              ltac:(vm_compute; discriminate) H1)
    as (Hcap & _ & Hw & _).
  auto.
Defined.

Lemma UpdateFactory_only_reloads_witness :
  exists f' t',
    UpdateFactory sample_hash sample_numbers disk_world
      ["/reload/a.txt"; "/"; "/reload/b.txt"]
      served
    = Some (tt, (f', t'))
    /\ m_HttpServer (fst served) = 9
    /\ m_Resources f' = m_Resources (fst served)
    /\ exists evs, t' = snd served ++ evs /\ Forall in_place evs.
Proof.
  eexists _, _.
  lazymatch goal with
  | |- ?G /\ _ => assert (H1 : G) by (vm_compute; reflexivity)
  end.
  split; [exact H1|]. split; [reflexivity|].
  destruct (UpdateFactory_only_reloads sample_hash sample_numbers disk_world
              _ (fst served) _ (snd served) _ H1)
    as (Hr & _ & _ & _ & _ & Hevs & _).
  split; [exact Hr | exact Hevs].
Defined.

Lemma reference_count_wraps_witness :
  exists rd f',
    m_Resources (fst acquired) !! sample_hash "/tmp/data/a.txt" = Some rd
    /\ Get sample_hash disk_world "a.txt"
         (with_count (sample_hash "/tmp/data/a.txt") rd (2 ^ 32 - 1)
            (fst acquired), [])
       = Some ((FACTORY_RESULT_OK, 4096), (f', []))
    /\ Release 4096 (f', []) = None.
Proof.
  eexists.
  lazymatch goal with
  | |- exists f', ?G /\ _ => assert (H1 : G) by (vm_compute; reflexivity)
  end.
  lazymatch type of H1 with
  | _ = Some ?rd =>
      destruct (reference_count_wraps sample_hash layout32 disk_world "a.txt"
                  (with_count (sample_hash "/tmp/data/a.txt") rd (2 ^ 32 - 1)
                     (fst acquired)) []
                  (set_ReferenceCount (2 ^ 32 - 1) rd))
        as (f' & Hget & _ & _ & _ & Hrel & _);
      [vm_compute; reflexivity | vm_compute; reflexivity | reflexivity |]
  end.
  exists f'. split; [exact H1|]. split; [exact Hget | exact Hrel].
Defined.
